(** * reps_download.py: the download watcher and the batch orchestrator

    A shallow embedding of [MinSaludDownloader] (src/reps_download.py):
    [wait_for_download_and_rename], [download_departamento_data],
    [download_all_departamentos] and [download_specific_departamentos];
    then the loop over the dropdown of [get_departamentos_list], [main]
    with the constructor it calls, and the selection and the batches of
    [download_concurrent_departamentos].

    The Python methods run against a browser, a clock and a download
    directory.  They are written here in a small state-and-exception monad
    over a [World] (directory, clock, driver attribute, trace of effects);
    whatever the program does not decide itself (files arriving, the answers
    of the browser, operating-system refusals) is read from an [Env], and
    what is typed at the prompts of [main] from a [Console].

    What the model leaves out: the clock of a [World] advances in
    [time.sleep] only, in whole seconds, and the other processes change the
    directory during those seconds only.  A step in the browser, which in
    fact blocks for up to its [WebDriverWait], leaves that clock where it
    is: the theorems on attempts and batches therefore count the seconds
    handed to [time.sleep] ([slept]) and say nothing of the clock or of the
    directory across a step of the browser.  Likewise the snapshot of the
    watcher and the first listing of its loop read the same directory (a
    file that arrives between the two is not modelled), and no bound below
    is drawn from the first pass finding nothing.  The download directory
    holds plain
    files, under names that are compared exactly; [driver.quit()] and
    [input()] return; nothing outside [Exception] (a keyboard interrupt) is
    raised.  Strings are byte strings: [Str.lower] and [Text.strip] know
    the ASCII letters and the ASCII white space, and what is stated through
    them of text that need not be ASCII is stated under [ascii_only], or,
    for the filter of the filtered batch, for every lower-casing function
    ([departamentos_a_descargar_con]).  The code after the last [return] of
    [wait_for_download_and_rename] (lines 218-277) is never reached and has
    no counterpart here. *)

From Stdlib Require Import ZArith Ascii String List Lia Bool.
From stdpp Require Import base option list gmap sets strings.
Import ListNotations.

Local Open Scope string_scope.
Local Open Scope Z_scope.

(** ** Strings: the [str] methods the program calls *)

Module Str.

(** [c.lower()] on one character.  File names are byte strings here; only
    the ASCII letters have a lower case.  The tests below compare against the
    ASCII suffixes ".xls" and ".xlsx", and no character outside ASCII has
    '.', 'x', 'l' or 's' as its lower case, so the tests agree with
    Python's on every name. *)
Definition lower_ascii (c : ascii) : ascii :=
  let n := nat_of_ascii c in
  if ((65 <=? n) && (n <=? 90))%nat then ascii_of_nat (n + 32) else c.

(** [s.lower()] *)
Fixpoint lower (s : string) : string :=
  match s with
  | EmptyString => EmptyString
  | String c s' => String (lower_ascii c) (lower s')
  end.

(** [s.startswith(p)] *)
Definition startswith (s p : string) : bool := String.prefix p s.

(** [s.endswith(suf)]: some tail of [s] is [suf]. *)
Fixpoint endswith (s suf : string) : bool :=
  String.eqb s suf ||
  match s with
  | EmptyString => false
  | String _ s' => endswith s' suf
  end.

(** [s.endswith((suf1, suf2, ...))] with a tuple of suffixes *)
Definition endswith_any (s : string) (sufs : list string) : bool :=
  existsb (endswith s) sufs.

(** The part of [os.path.splitext] that works on a name without directory
    separator (an entry of [os.listdir]): [all_dots s] tells that the loop
    skipping the leading dots finds nothing else. *)
Fixpoint all_dots (s : string) : bool :=
  match s with
  | EmptyString => true
  | String c s' => Ascii.eqb c "." && all_dots s'
  end.

(** [split_last_dot s] cuts [s] before its last dot:
    [(s[:dotIndex], s[dotIndex:])], or [None] without a dot. *)
Fixpoint split_last_dot (s : string) : option (string * string) :=
  match s with
  | EmptyString => None
  | String c s' =>
      match split_last_dot s' with
      | Some (root, ext) => Some (String c root, ext)
      | None => if Ascii.eqb c "." then Some (EmptyString, s) else None
      end
  end.

(** [os.path.splitext(p)] for a name without separator ([sepIndex = -1]):
    the extension starts at the last dot, unless only dots precede it. *)
Definition splitext (p : string) : string * string :=
  match split_last_dot p with
  | Some (root, ext) => if all_dots root then (p, EmptyString) else (root, ext)
  | None => (p, EmptyString)
  end.

End Str.

(** ** The qualifying test of the polling loop (lines 179-181) *)

Definition qualifies (archivo : string) : bool :=
  Str.endswith_any (Str.lower archivo) [".xls"; ".xlsx"]
  && negb (Str.startswith archivo "~")
  && negb (Str.endswith archivo ".crdownload").

(** [for archivo in archivos_nuevos: if ...: nuevo_archivo = archivo; break]
    over a Python set: the first qualifying name in the set's iteration
    order.  That order is fixed for a given set and otherwise unspecified;
    [elements] is likewise one fixed enumeration, and nothing below relies on
    which one. *)
Definition first_qualifying (archivos_nuevos : gset string) : option string :=
  List.find qualifies (elements archivos_nuevos).

(** ** Data model *)

(** A department of the dropdown: [{'codigo': ..., 'nombre': ...}]. *)
Record Region := mkRegion { codigo : string; nombre : string }.

(** The download directory: file name to file content.  Names are compared
    exactly, and hold no directory separator, so that
    [os.path.join(self.download_path, name)] names the entry [name]. *)
Abbreviation Dir := (gmap string string).

(** The exceptions that reach the modelled code: two [OSError]s and
    Selenium's.  All of them derive from [Exception]. *)
Inductive exn :=
| FileNotFoundError
| PermissionError
| TimeoutException
| NoSuchElementException
| WebDriverException.

Definition is_OSError (e : exn) : bool :=
  match e with FileNotFoundError | PermissionError => true | _ => false end.
Definition is_TimeoutException (e : exn) : bool :=
  match e with TimeoutException => true | _ => false end.
Definition is_Exception (e : exn) : bool := true.

(** The two calls that change the directory. *)
Inductive fs_op :=
| Remove (path : string)
| Rename (src dst : string).

(** The Selenium interactions of [download_departamento_data], one per
    stage: select the department, click search, wait for the results grid,
    click the Excel export. *)
Inductive browser_step := SelectRegion | ClickSearch | AwaitGrid | ClickExport.

(** The steps of [navigate_to_servicios_page] that talk to the browser:
    [driver.get], closing the modal (a wait and a click), the clicks on
    "Ingresar", "Registro Actual" and "SERVICIOS" (each a wait and a click),
    the switch to the new window, and the wait for the dropdown. *)
Inductive nav_step :=
| OpenPortal
| CloseModal
| ClickIngresar
| ClickRegistroActual
| SwitchWindow
| ClickServicios
| AwaitDropdown.

(** The lines the program writes to its logger. *)
Inductive log_line :=
| ArchivoExistenteEliminado (nombre_nuevo : string)
| ArchivoRenombrado (nuevo_archivo nombre_nuevo : string)
| ErrorRenombrando (e : exn)
| NoSeDetectoDescarga (departamento_nombre : string)
| ErrorEsperandoDescarga (departamento_nombre : string) (e : exn)
| Procesando (departamento : Region)
| BusquedaIniciada (n : string)
| DescargaIniciada (n : string)
| DescargaCompletadaRenombrada (n : string)
| FalloDescargaRenombrado (n : string)
| TimeoutProcesando (n : string)
| ErrorProcesando (n : string) (e : exn)
| DescargandoChromeDriver
| DriverConfigurado
| NoSePudoNavegar
| NoSePudieronObtener
| IniciandoDescarga (total : nat)
| Progreso (i total : nat) (n : string)
| EsperandoSiguiente
| ProcesoCompletado (successful_downloads failed_downloads : nat)
| ErrorProcesoPrincipal (e : exn)
| NoSeEncontraronCoincidencias
| DescargandoEspecificos (total : nat)
| ErrorDescargaEspecifica (e : exn)
| Navegando
| ModalCerrado
| NoSeEncontroModal
| ClicIngresar
| ClicRegistroActual
| ClicServicios
| ErrorNavegando (e : exn)
| SeEncontraron (total : nat)
| ErrorObteniendoLista (e : exn).

(** What a run does to the outside, in order. *)
Inductive event :=
| Log (l : log_line)
| Sleep (secs : Z)
| OsCall (op : fs_op) (err : option exn)
| Browser (s : browser_step) (departamento : Region)
| Navigate (s : nav_step)
| ReadDropdown
| DriverCreated
| DriverQuit.

Record World := mkWorld {
  dir : option Dir;      (* [None]: the download path does not exist *)
  clock : Z;             (* [time.time()], in seconds *)
  driver : bool;         (* [self.driver] is set *)
  trace : list event
}.

(** How [setup_driver] ends: normally, or raising before or after
    [self.driver] is assigned (line 73). *)
Inductive setup_result :=
| SetupOk
| SetupRaisesBeforeDriver (e : exn)
| SetupRaisesAfterDriver (e : exn).

(** The surroundings of a run. *)
Record Env := mkEnv {
  (* what other processes (the browser's download) do to the directory
     during the second that starts at the given clock value *)
  arrivals : Z → option Dir → option Dir;
  (* [os.listdir] raises at this clock value although the directory exists *)
  listdir_refused : Z → bool;
  (* the operating system refuses this call (file in use, no permission) *)
  os_refuses : fs_op → bool;
  setup_driver_result : setup_result;
  (* the exception, if any, of one step of the navigation *)
  navigation : nav_step → option exn;
  (* what reading the select gives: an exception, or the list the loop of
     [get_departamentos_list] builds *)
  select_read : exn + list Region;
  (* the exception, if any, of one Selenium interaction *)
  browser_result : browser_step → Region → Z → option exn
}.

(** The value of [navigate_to_servicios_page()]: [True] when no step
    raises; a [TimeoutException] of the modal's step is caught on the spot
    (line 118). *)
Definition navigate_result (env : Env) : bool :=
  forallb (λ s, match navigation env s with
                | None => true
                | Some e => match s with CloseModal => is_TimeoutException e | _ => false end
                end)
    [OpenPortal; CloseModal; ClickIngresar; ClickRegistroActual; SwitchWindow;
     ClickServicios; AwaitDropdown].

(** The value of [get_departamentos_list()]: the list read, or the empty
    list after an exception (line 100). *)
Definition departamentos_result (env : Env) : list Region :=
  match select_read env with
  | inr departamentos => departamentos
  | inl _ => []
  end.

(** ** The monad: state, exceptions, fuel *)

Inductive res (A : Type) :=
| Ret (a : A)
| Raise (e : exn).
Arguments Ret {A} a.
Arguments Raise {A} e.

(** A computation maps a world to a result and a world; [None] only when a
    loop ran out of fuel. *)
Definition M (A : Type) : Type := World → option (res A * World).

#[global] Instance M_ret : MRet M := λ A a w, Some (Ret a, w).

#[global] Instance M_bind : MBind M := λ A B f m w,
  match m w with
  | Some (Ret a, w') => f a w'
  | Some (Raise e, w') => Some (Raise e, w')
  | None => None
  end.

Definition raise {A} (e : exn) : M A := λ w, Some (Raise e, w).

Definition out_of_fuel {A} : M A := λ _, None.

(** [try: body except <catches> as e: handler e] *)
Definition try_except {A} (body : M A) (catches : exn → bool) (handler : exn → M A) : M A :=
  λ w, match body w with
       | Some (Raise e, w') => if catches e then handler e w' else Some (Raise e, w')
       | r => r
       end.

(** [try: body finally: cleanup] *)
Definition try_finally {A} (body : M A) (cleanup : M unit) : M A :=
  λ w, match body w with
       | Some (r, w') =>
           match cleanup w' with
           | Some (Ret _, w'') => Some (r, w'')
           | Some (Raise e, w'') => Some (Raise e, w'')
           | None => None
           end
       | None => None
       end.

Definition emit (e : event) : M unit :=
  λ w, Some (Ret tt, mkWorld (dir w) (clock w) (driver w) (trace w ++ [e])).

Definition log (l : log_line) : M unit := emit (Log l).

(** Python's truth value of [nuevo_archivo]: [None] and [''] are false. *)
Definition truthy (o : option string) : bool :=
  match o with
  | Some s => negb (String.eqb s "")
  | None => false
  end.

Section Program.

Context (env : Env).

(** The directory [n] seconds after clock value [t] when only the other
    processes touch it. *)
Fixpoint drift (t : Z) (n : nat) (d : option Dir) : option Dir :=
  match n with
  | O => d
  | S n' => drift (t + 1) n' (arrivals env t d)
  end.

(** [time.time()] *)
Definition time_time : M Z := λ w, Some (Ret (clock w), w).

(** [time.sleep(secs)]: the clock advances by [secs] whole seconds while the
    other processes go on.  No other step moves the clock. *)
Definition time_sleep (secs : Z) : M unit :=
  λ w, Some (Ret tt,
             mkWorld (drift (clock w) (Z.to_nat secs) (dir w))
                     (clock w + secs) (driver w) (trace w ++ [Sleep secs])).

(** [os.path.exists(self.download_path)] *)
Definition download_path_exists : M bool :=
  λ w, Some (Ret (bool_decide (is_Some (dir w))), w).

(** [os.path.exists(os.path.join(self.download_path, name))] *)
Definition path_exists (name : string) : M bool :=
  λ w, Some (Ret (match dir w with
                  | Some d => bool_decide (is_Some (d !! name))
                  | None => false
                  end), w).

(** [set(os.listdir(self.download_path))] *)
Definition listdir : M (gset string) :=
  λ w, match dir w with
       | Some d => if listdir_refused env (clock w)
                   then Some (Raise PermissionError, w)
                   else Some (Ret (dom d), w)
       | None => Some (Raise FileNotFoundError, w)
       end.

(** The outcome of an operating-system call on directory [d]: a missing
    file and a refusal raise, otherwise the entry is deleted or moved.
    [os.rename] onto an existing name replaces it on POSIX and raises on
    Windows; the program removes the target first, so its rename never meets
    one ([rename_found_Some] below applies it to a directory without the
    target). *)
Definition os_apply (op : fs_op) (d : Dir) : exn + Dir :=
  match op with
  | Remove path =>
      match d !! path with
      | Some _ => if os_refuses env op then inl PermissionError else inr (delete path d)
      | None => inl FileNotFoundError
      end
  | Rename src dst =>
      match d !! src with
      | Some c => if os_refuses env op then inl PermissionError
                  else inr (<[dst := c]> (delete src d))
      | None => inl FileNotFoundError
      end
  end.

Definition os_call (op : fs_op) : M unit :=
  λ w, match dir w with
       | Some d =>
           match os_apply op d with
           | inr d' => Some (Ret tt, mkWorld (Some d') (clock w) (driver w)
                                             (trace w ++ [OsCall op None]))
           | inl e => Some (Raise e, mkWorld (dir w) (clock w) (driver w)
                                             (trace w ++ [OsCall op (Some e)]))
           end
       | None => Some (Raise FileNotFoundError,
                       mkWorld (dir w) (clock w) (driver w)
                               (trace w ++ [OsCall op (Some FileNotFoundError)]))
       end.

(** [os.remove(os.path.join(self.download_path, name))] *)
Definition os_remove (name : string) : M unit := os_call (Remove name).

(** [os.rename(ruta_original, ruta_nueva)], both in the download directory *)
Definition os_rename (src dst : string) : M unit := os_call (Rename src dst).

(** *** [wait_for_download_and_rename] (lines 156-217) *)

(** The [while] loop of lines 172-188.  [fuel] bounds the iterations; the
    loop itself stops on the clock. *)
Fixpoint poll_loop (fuel : nat) (start_time timeout : Z) (archivos_antes : gset string)
  : M (option string) :=
  now ← time_time;
  if now - start_time <? timeout then
    match fuel with
    | O => out_of_fuel
    | S fuel' =>
        present ← download_path_exists;
        nuevo_archivo ←
          (if present : bool then
             archivos_actuales ← listdir;
             mret (first_qualifying (archivos_actuales ∖ archivos_antes))
           else mret None);
        if truthy nuevo_archivo then mret nuevo_archivo
        else time_sleep 1;; poll_loop fuel' start_time timeout archivos_antes
    end
  else mret None.

(** Lines 190-213: what follows the loop. *)
Definition rename_found (departamento_nombre : string) (nuevo_archivo : option string) : M bool :=
  if truthy nuevo_archivo then
    let nuevo_archivo := default "" nuevo_archivo in
    let extension := (Str.splitext nuevo_archivo).2 in
    let nombre_nuevo := departamento_nombre ++ extension in
    try_except
      (target_present ← path_exists nombre_nuevo;
       (if target_present : bool then
          os_remove nombre_nuevo;;
          log (ArchivoExistenteEliminado nombre_nuevo)
        else mret ());;
       os_rename nuevo_archivo nombre_nuevo;;
       log (ArchivoRenombrado nuevo_archivo nombre_nuevo);;
       mret true)
      is_OSError
      (λ e, log (ErrorRenombrando e);; mret false)
  else
    log (NoSeDetectoDescarga departamento_nombre);; mret false.

(** Lines 166-188: the snapshot of the directory, then the loop. *)
Definition watch (timeout : Z) : M (option string) :=
  present ← download_path_exists;
  archivos_antes ← (if present : bool then listdir else mret ∅);
  start_time ← time_time;
  poll_loop (Z.to_nat timeout) start_time timeout archivos_antes.

Definition wait_for_download_and_rename (departamento_nombre : string) (timeout : Z) : M bool :=
  try_except
    (nuevo_archivo ← watch timeout;
     rename_found departamento_nombre nuevo_archivo)
    is_Exception
    (λ e, log (ErrorEsperandoDescarga departamento_nombre e);; mret false).

(** *** [download_departamento_data] (lines 279-334) *)

(** One Selenium interaction ([WebDriverWait(...).until(...)], a click, a
    selection); it raises what the browser answers.  The time it blocks for
    is not counted. *)
Definition browser (s : browser_step) (departamento : Region) : M unit :=
  λ w, let w' := mkWorld (dir w) (clock w) (driver w)
                         (trace w ++ [Browser s departamento]) in
       match browser_result env s departamento (clock w) with
       | Some e => Some (Raise e, w')
       | None => Some (Ret tt, w')
       end.

Definition download_departamento_data (departamento : Region) : M bool :=
  try_except
    (log (Procesando departamento);;
     browser SelectRegion departamento;;
     time_sleep 1;;
     browser ClickSearch departamento;;
     log (BusquedaIniciada (nombre departamento));;
     browser AwaitGrid departamento;;
     time_sleep 2;;
     browser ClickExport departamento;;
     log (DescargaIniciada (nombre departamento));;
     renamed ← wait_for_download_and_rename (nombre departamento) 30;
     if renamed : bool then
       log (DescargaCompletadaRenombrada (nombre departamento));; mret true
     else
       log (FalloDescargaRenombrado (nombre departamento));; mret false)
    is_Exception
    (λ e, if is_TimeoutException e
          then log (TimeoutProcesando (nombre departamento));; mret false
          else log (ErrorProcesando (nombre departamento) e);; mret false).

(** *** The batch entry points (lines 336-426) *)

(** [setup_driver] (lines 48-75) *)
Definition setup_driver : M unit :=
  log DescargandoChromeDriver;;
  match setup_driver_result env with
  | SetupOk =>
      (λ w, Some (Ret tt, mkWorld (dir w) (clock w) true (trace w ++ [DriverCreated])));;
      log DriverConfigurado
  | SetupRaisesBeforeDriver e => raise e
  | SetupRaisesAfterDriver e =>
      (λ w, Some (Ret tt, mkWorld (dir w) (clock w) true (trace w ++ [DriverCreated])));;
      raise e
  end.

(** One step of the navigation ([driver.get], a [WebDriverWait] with its
    click, the switch of window); it raises what the browser answers.  The
    time it blocks for is not counted. *)
Definition nav (s : nav_step) : M unit :=
  λ w, let w' := mkWorld (dir w) (clock w) (driver w) (trace w ++ [Navigate s]) in
       match navigation env s with
       | Some e => Some (Raise e, w')
       | None => Some (Ret tt, w')
       end.

(** [navigate_to_servicios_page] (lines 102-154) *)
Definition navigate_to_servicios_page : M bool :=
  try_except
    (log Navegando;;
     nav OpenPortal;;
     time_sleep 2;;
     try_except
       (nav CloseModal;;
        log ModalCerrado;;
        time_sleep 1)
       is_TimeoutException
       (λ _, log NoSeEncontroModal);;
     nav ClickIngresar;;
     log ClicIngresar;;
     nav ClickRegistroActual;;
     log ClicRegistroActual;;
     nav SwitchWindow;;
     nav ClickServicios;;
     log ClicServicios;;
     nav AwaitDropdown;;
     mret true)
    is_Exception
    (λ e, log (ErrorNavegando e);; mret false).

(** [get_departamentos_list] (lines 77-100): the select is read, and the
    number of departments or the exception is logged. *)
Definition get_departamentos_list : M (list Region) :=
  emit ReadDropdown;;
  match select_read env with
  | inr departamentos => log (SeEncontraron (length departamentos));; mret departamentos
  | inl e => log (ErrorObteniendoLista e);; mret []
  end.

(** [if self.driver: self.driver.quit()] *)
Definition quit_driver : M unit :=
  λ w, (if driver w then emit DriverQuit else mret ()) w.

(** The [for] loop of lines 363-374; [i] counts from 1. *)
Fixpoint all_loop (total i : nat) (departamentos : list Region)
    (successful_downloads failed_downloads : nat) : M (nat * nat) :=
  match departamentos with
  | [] => mret (successful_downloads, failed_downloads)
  | departamento :: rest =>
      log (Progreso i total (nombre departamento));;
      ok ← download_departamento_data departamento;
      let successful_downloads := if ok : bool then S successful_downloads else successful_downloads in
      let failed_downloads := if ok : bool then failed_downloads else S failed_downloads in
      (if (i <? total)%nat then log EsperandoSiguiente;; time_sleep 3 else mret ());;
      all_loop total (S i) rest successful_downloads failed_downloads
  end.

Definition download_all_departamentos : M unit :=
  try_finally
    (try_except
       (setup_driver;;
        navigated ← navigate_to_servicios_page;
        if negb navigated then log NoSePudoNavegar
        else
          departamentos ← get_departamentos_list;
          match departamentos with
          | [] => log NoSePudieronObtener
          | _ =>
              log (IniciandoDescarga (length departamentos));;
              counts ← all_loop (length departamentos) 1 departamentos 0 0;
              log (ProcesoCompletado counts.1 counts.2)
          end)
       is_Exception
       (λ e, log (ErrorProcesoPrincipal e)))
    quit_driver.

(** The filter of lines 407-410, with [lower] for [str.lower]: whatever
    [str.lower] does to the letters outside ASCII, it is a function of the
    string. *)
Definition departamentos_a_descargar_con (lower : string → string)
    (todos_departamentos : list Region) (departamentos_nombres : list string) : list Region :=
  List.filter
    (λ dept, existsb (String.eqb (lower (nombre dept)))
                     (List.map lower departamentos_nombres))
    todos_departamentos.

(** The filter with [Str.lower], which changes the ASCII letters only: an
    accented capital is compared as it is. *)
Definition departamentos_a_descargar (todos_departamentos : list Region)
    (departamentos_nombres : list string) : list Region :=
  departamentos_a_descargar_con Str.lower todos_departamentos departamentos_nombres.

(** The [for] loop of lines 418-420. *)
Fixpoint specific_loop (departamentos : list Region) : M unit :=
  match departamentos with
  | [] => mret ()
  | departamento :: rest =>
      _ ← download_departamento_data departamento;
      time_sleep 3;;
      specific_loop rest
  end.

Definition download_specific_departamentos_con (lower : string → string)
    (departamentos_nombres : list string) : M unit :=
  try_finally
    (try_except
       (setup_driver;;
        navigated ← navigate_to_servicios_page;
        if negb navigated then log NoSePudoNavegar
        else
          todos_departamentos ← get_departamentos_list;
          match todos_departamentos with
          | [] => log NoSePudieronObtener
          | _ =>
              let seleccion :=
                departamentos_a_descargar_con lower todos_departamentos departamentos_nombres in
              match seleccion with
              | [] => log NoSeEncontraronCoincidencias
              | _ =>
                  log (DescargandoEspecificos (length seleccion));;
                  specific_loop seleccion
              end
          end)
       is_Exception
       (λ e, log (ErrorDescargaEspecifica e)))
    quit_driver.

(** [download_specific_departamentos] with the ASCII [Str.lower]. *)
Definition download_specific_departamentos (departamentos_nombres : list string) : M unit :=
  download_specific_departamentos_con Str.lower departamentos_nombres.

End Program.

(** * The catalog, the console and the windows *)

(** ** White space, [split] and [join] *)

Module Text.

(** [c.isspace()] on an ASCII character: tab, line feed, vertical tab, form
    feed, carriage return, the separators 0x1c to 0x1f and the space.  The
    white space outside ASCII (the no-break space and the like) is not
    white space here. *)
Definition isspace (c : ascii) : bool :=
  let n := nat_of_ascii c in
  ((9 <=? n) && (n <=? 13) || (28 <=? n) && (n <=? 32))%nat.

(** [s.lstrip()] *)
Fixpoint lstrip (s : string) : string :=
  match s with
  | EmptyString => EmptyString
  | String c s' => if isspace c then lstrip s' else s
  end.

(** [s.rstrip()] *)
Fixpoint rstrip (s : string) : string :=
  match s with
  | EmptyString => EmptyString
  | String c s' =>
      match rstrip s' with
      | EmptyString => if isspace c then EmptyString else String c EmptyString
      | r => String c r
      end
  end.

(** [s.strip()] *)
Definition strip (s : string) : string := rstrip (lstrip s).

(** [s.split(sep)] for a separator of one character: the pieces between
    the separators, one more than there are separators. *)
Fixpoint split (sep : ascii) (s : string) : list string :=
  match s with
  | EmptyString => [EmptyString]
  | String c s' =>
      if Ascii.eqb c sep then EmptyString :: split sep s'
      else match split sep s' with
           | piece :: rest => String c piece :: rest
           | [] => [String c EmptyString]
           end
  end.

(** [sep.join(l)] *)
Fixpoint join (sep : string) (l : list string) : string :=
  match l with
  | [] => EmptyString
  | x :: rest =>
      match rest with
      | [] => x
      | _ :: _ => x ++ sep ++ join sep rest
      end
  end.

End Text.

(** ** The dropdown of [get_departamentos_list] (lines 85-96) *)

(** An [<option>] of the select: its [value] attribute ([None] when the
    element has none) and its text. *)
Record OptionElement := mkOptionElement { value : option string; text : string }.

(** The loop of lines 88-93 over [select.options]. *)
Fixpoint departamentos_of (options : list OptionElement) : list Region :=
  match options with
  | [] => []
  | opt :: rest =>
      if truthy (value opt) && truthy (Text.strip <$> value opt)
      then mkRegion (default "" (value opt)) (Text.strip (text opt)) :: departamentos_of rest
      else departamentos_of rest
  end.

(** The value of [get_departamentos_list()] on a page whose select holds
    [options]; [None]: the select does not show up within ten seconds, or
    reading it raises, and the method returns the empty list. *)
Definition departamentos_del_select (dropdown : option (list OptionElement)) : list Region :=
  match dropdown with
  | Some options => departamentos_of options
  | None => []
  end.

(** ** The batches of [download_concurrent_departamentos] (lines 521-528) *)

(** [range(start, stop, step)]; [None]: the [ValueError] of a zero step. *)
Definition range (start stop step : Z) : option (list Z) :=
  if step =? 0 then None
  else
    let len :=
      if 0 <? step
      then (if start <? stop then (stop - start - 1) / step + 1 else 0)
      else (if stop <? start then (start - stop - 1) / (- step) + 1 else 0) in
    Some (List.map (λ k, start + Z.of_nat k * step) (seq 0 (Z.to_nat len))).

(** [l[i:j]]: a negative index counts from the end, and both are cut to the
    length of the list. *)
Definition slice {A} (l : list A) (i j : Z) : list A :=
  let n := Z.of_nat (length l) in
  let clamp k := if k <? 0 then Z.max (k + n) 0 else Z.min k n in
  take (Z.to_nat (clamp j - clamp i)) (drop (Z.to_nat (clamp i)) l).

(** The filter of lines 521-524: [dept['nombre'] in departamentos_batch],
    the names compared as they are. *)
Definition departamentos_a_procesar (todos_departamentos : list Region)
    (departamentos_batch : list string) : list Region :=
  List.filter (λ dept, existsb (String.eqb (nombre dept)) departamentos_batch)
    todos_departamentos.

(** The batches of the loop of lines 527-529, each with the number the log
    line gives it ([i//max_windows + 1]); [None]: [range] raises. *)
Definition lotes (departamentos_a_procesar : list Region) (max_windows : Z)
  : option (list (Z * list Region)) :=
  List.map (λ i, (i / max_windows + 1,
                  slice departamentos_a_procesar i (i + max_windows)))
    <$> range 0 (Z.of_nat (length departamentos_a_procesar)) max_windows.

(** ** The console of [main] (lines 429-476) *)

(** The lines [main] prints and the prompts of its [input] calls. *)
Inductive print_line :=
| Titulo
| MenuTodos
| MenuEspecificos
| MenuSalir
| IniciandoTodos
| SeGuardaranEn
| OperacionCancelada
| IngreseNombres
| EjemploNombres
| DescargandoDepartamentos (nombres : string)
| NoSeIngresaron
| Saliendo
| OpcionNoValida.

Inductive prompt := SeleccioneOpcion | Continuar | Departamentos.

(** What shows on the console, in order; [DirectorioCreado] is
    [os.makedirs] with the line the logger writes about it (lines 45-46). *)
Inductive console_event :=
| DirectorioCreado
| Print (l : print_line)
| Input (p : prompt).

(** The user and the file system at the start: what is typed at each
    prompt (a run asks each prompt once at most), and the exception of
    [os.makedirs], if any.  [input] is taken to return. *)
Record Console := mkConsole {
  answer : prompt → string;
  makedirs_raises : option exn
}.

(** [MinSaludDownloader(download_path=...)] (lines 24-34 and 42-46): the
    driver attribute starts as [None], the download directory is created
    when it is missing. *)
Definition init (console : Console) (w : World) : list console_event * (res unit * World) :=
  match dir w with
  | Some _ => ([], (Ret (), mkWorld (dir w) (clock w) false (trace w)))
  | None =>
      match makedirs_raises console with
      | Some e => ([], (Raise e, mkWorld None (clock w) false (trace w)))
      | None => ([DirectorioCreado], (Ret (), mkWorld (Some ∅) (clock w) false (trace w)))
      end
  end.

(** [confirmacion in ['s', 'si', 'sí', 'y', 'yes']] *)
Definition afirmativo (confirmacion : string) : bool :=
  existsb (String.eqb confirmacion) ["s"; "si"; "sí"; "y"; "yes"].

(** [[dept.strip() for dept in departamentos_input.split(',')]] (line 460) *)
Definition departamentos_lista (departamentos_input : string) : list string :=
  List.map Text.strip (Text.split "," departamentos_input).

(** [main()]: what it shows on the console, and the result and the world it
    ends with.  The batch, when there is one, is the last thing it does. *)
Definition main (env : Env) (console : Console) (w : World)
  : list console_event * option (res unit * World) :=
  let '(created, (constructed, w0)) := init console w in
  match constructed with
  | Raise e => (created, Some (Raise e, w0))
  | Ret _ =>
      let menu := (created ++ [Print Titulo; Print MenuTodos; Print MenuEspecificos;
                               Print MenuSalir; Input SeleccioneOpcion])%list in
      let opcion := Text.strip (answer console SeleccioneOpcion) in
      if (opcion =? "1")%string then
        let shown := (menu ++ [Print IniciandoTodos; Print SeGuardaranEn;
                               Input Continuar])%list in
        let confirmacion := Str.lower (Text.strip (answer console Continuar)) in
        if afirmativo confirmacion then (shown, download_all_departamentos env w0)
        else ((shown ++ [Print OperacionCancelada])%list, Some (Ret (), w0))
      else if (opcion =? "2")%string then
        let shown := (menu ++ [Print IngreseNombres; Print EjemploNombres;
                               Input Departamentos])%list in
        let departamentos_input := Text.strip (answer console Departamentos) in
        if negb (departamentos_input =? "")%string then
          let nombres := departamentos_lista departamentos_input in
          let shown := (shown ++ [Print (DescargandoDepartamentos (Text.join ", " nombres));
                                  Print SeGuardaranEn; Input Continuar])%list in
          let confirmacion := Str.lower (Text.strip (answer console Continuar)) in
          if afirmativo confirmacion
          then (shown, download_specific_departamentos env nombres w0)
          else ((shown ++ [Print OperacionCancelada])%list, Some (Ret (), w0))
        else ((shown ++ [Print NoSeIngresaron])%list, Some (Ret (), w0))
      else if (opcion =? "3")%string then ((menu ++ [Print Saliendo])%list, Some (Ret (), w0))
      else ((menu ++ [Print OpcionNoValida])%list, Some (Ret (), w0))
  end.

(** * Vocabulary of the properties *)

(** ** Worlds and observations *)

(** [w] with [evs] added to its trace. *)
Definition traced (w : World) (evs : list event) : World :=
  mkWorld (dir w) (clock w) (driver w) (trace w ++ evs).

(** [w] with directory [d] and [evs] added to its trace. *)
Definition moved (w : World) (d : Dir) (evs : list event) : World :=
  mkWorld (Some d) (clock w) (driver w) (trace w ++ evs).

Section Observations.

Context (env : Env).

(** What one pass of the loop body sees in directory [d] at clock [t]:
    the value of [nuevo_archivo], or the exception of [os.listdir]. *)
Definition observe (archivos_antes : gset string) (t : Z) (d : option Dir)
  : res (option string) :=
  match d with
  | Some d => if listdir_refused env t then Raise PermissionError
              else Ret (first_qualifying (dom d ∖ archivos_antes))
  | None => Ret None
  end.

(** The world after [k] one-second sleeps in which the program does nothing
    else. *)
Definition after (w : World) (k : nat) : World :=
  mkWorld (drift env (clock w) k (dir w)) (clock w + Z.of_nat k) (driver w)
          (trace w ++ replicate k (Sleep 1)).

(** The snapshot of line 166, or the exception of its [os.listdir]. *)
Definition snapshot (w : World) : res (gset string) :=
  match dir w with
  | Some d => if listdir_refused env (clock w) then Raise PermissionError else Ret (dom d)
  | None => Ret ∅
  end.

(** [os.rename] after the optional [os.remove], with the line it logs. *)
Definition rename_step (src target : string) (w : World) (d : Dir) (evs : list event)
  : option (res bool * World) :=
  match os_apply env (Rename src target) d with
  | inr d' => Some (Ret true, moved w d' (evs ++ [OsCall (Rename src target) None;
                                                 Log (ArchivoRenombrado src target)]))
  | inl e => Some (Ret false, moved w d (evs ++ [OsCall (Rename src target) (Some e);
                                                Log (ErrorRenombrando e)]))
  end.

End Observations.

(** The names of the snapshot of line 166. *)
Definition snapshot_names (w : World) : gset string :=
  match dir w with Some d => dom d | None => ∅ end.

(** The events a run from [w] to [w'] added to the trace. *)
Definition events_since (w w' : World) : list event :=
  drop (length (trace w)) (trace w').

(** The filesystem calls of a list of events: all, those that returned, and
    those that raised. *)
Definition os_calls (evs : list event) : list fs_op :=
  omap (λ e, match e with OsCall op _ => Some op | _ => None end) evs.
Definition os_done (evs : list event) : list fs_op :=
  omap (λ e, match e with OsCall op None => Some op | _ => None end) evs.
Definition os_failures (evs : list event) : list (fs_op * exn) :=
  omap (λ e, match e with OsCall op (Some err) => Some (op, err) | _ => None end) evs.

(** The entry [f] of a directory that may not exist. *)
Definition entry (f : string) (d : option Dir) : option string := d ≫= (.!! f).

(** The test of lines 179-181 in words: the lower-cased name ends with
    ".xls" or ".xlsx", the name does not start with "~" and does not end
    with ".crdownload". *)
Definition passes_test (archivo : string) : Prop :=
  (∃ t, Str.lower archivo = t ++ ".xls" ∨ Str.lower archivo = t ++ ".xlsx") ∧
  (¬ ∃ t, archivo = "~" ++ t) ∧
  (¬ ∃ t, archivo = t ++ ".crdownload").

(** ** The shape of a batch *)

(** The events that structure a batch: the session acquired and released,
    an attempt started and its outcome, a pacing sleep (the three-second
    ones: the sleeps inside an attempt last one or two seconds). *)
Inductive mark :=
| Acquire
| Attempt (departamento : Region)
| Succeeded (n : string)
| Failed (n : string)
| Pace
| Release.

Definition mark_of (e : event) : option mark :=
  match e with
  | Log (Procesando d) => Some (Attempt d)
  | Log (DescargaCompletadaRenombrada n) => Some (Succeeded n)
  | Log (FalloDescargaRenombrado n) => Some (Failed n)
  | Log (TimeoutProcesando n) => Some (Failed n)
  | Log (ErrorProcesando n _) => Some (Failed n)
  | Sleep secs => if secs =? 3 then Some Pace else None
  | DriverCreated => Some Acquire
  | DriverQuit => Some Release
  | _ => None
  end.

Definition marks (evs : list event) : list mark := omap mark_of evs.

(** The marks of one attempt on [d] that returned [ok]. *)
Definition attempt_marks (d : Region) (ok : bool) : list mark :=
  [Attempt d; if ok then Succeeded (nombre d) else Failed (nombre d)].

(** [runs m w Q]: from [w], [m] ends with a result, a world and the events
    it added to the trace, and these satisfy [Q]. *)
Definition runs {A} (m : M A) (w : World) (Q : res A → World → list event → Prop) : Prop :=
  ∃ r w' evs, m w = Some (r, w') ∧ trace w' = (trace w ++ evs)%list ∧ Q r w' evs.

(** What the callers rely on: a boolean comes back, the driver attribute is
    as before, and no event that structures a batch was added. *)
Definition quiet_boolean (w : World) (r : res bool) (w' : World) (evs : list event) : Prop :=
  ∃ b, r = Ret b ∧ driver w' = driver w ∧ marks evs = [].

(** Blocks of marks with a pacing sleep between consecutive blocks only,
    and with a pacing sleep after every block. *)
Fixpoint paced_between (blocks : list (list mark)) : list mark :=
  match blocks with
  | [] => []
  | block :: rest =>
      match rest with
      | [] => block
      | _ :: _ => (block ++ Pace :: paced_between rest)%list
      end
  end.

Definition paced_after_each (blocks : list (list mark)) : list mark :=
  concat (List.map (λ block, (block ++ [Pace])%list) blocks).

(** The attempts on [departamentos] with the booleans [oks] they returned. *)
Definition attempts (departamentos : list Region) (oks : list bool) : list (list mark) :=
  zip_with attempt_marks departamentos oks.

Definition count_true (oks : list bool) : nat := length (List.filter id oks).
Definition count_false (oks : list bool) : nat := length (List.filter negb oks).

(** The marks of a batch whose body added [body] between the session's
    start and its end. *)
Definition session (body : list mark) : list mark := (Acquire :: body ++ [Release])%list.

(** Marks of region work only: neither the start nor the end of a session. *)
Definition work_only (ms : list mark) : Prop := (Acquire ∉ ms) ∧ (Release ∉ ms).

(** One release for a session acquired in the run, as the last mark; no
    release when none was acquired and none was left over. *)
Definition released_once (driver_before : bool) (ms : list mark) : Prop :=
  (Acquire ∈ ms → ∃ body, ms = session body ∧ work_only body) ∧
  ((Acquire ∉ ms) → driver_before = false → Release ∉ ms).

(** The events of region work: the browser, the clock, the directory. *)
Definition region_work (e : event) : bool :=
  match e with
  | Browser _ _ | Sleep _ | OsCall _ _ => true
  | _ => false
  end.

(** The summary lines of a trace: the value of the two counters at the end
    of a batch. *)
Definition tally_lines (evs : list event) : list (nat * nat) :=
  omap (λ e, match e with Log (ProcesoCompletado s f) => Some (s, f) | _ => None end) evs.

(** The marks of region work kept apart from the pacing and the session:
    the attempts and their outcomes, and how many of each outcome. *)
Definition is_work (m : mark) : bool :=
  match m with Attempt _ | Succeeded _ | Failed _ => true | _ => false end.


(** ** Scenarios *)

Module Scenario.

(** Nothing happens around the program. *)
Definition quiet : Env :=
  mkEnv (λ _ d, d) (λ _, false) (λ _, false) SetupOk (λ _, None) (inr []) (λ _ _ _, None).

(** The browser completes "tmp123.xls" during the second that starts at
    clock 1; the operating system refuses the calls [refused]. *)
Definition download_arrives (refused : fs_op → bool) : Env :=
  mkEnv (λ t d, if t =? 1 then (<["tmp123.xls" := "fresh"]>) <$> d else d)
        (λ _, false) refused SetupOk (λ _, None) (inr []) (λ _ _ _, None).

(** The found file is still held open: every rename is refused. *)
Definition rename_refused (op : fs_op) : bool :=
  match op with Rename _ _ => true | Remove _ => false end.

(** The browser only gets as far as a partial download and a lock file. *)
Definition partial_download : Env :=
  mkEnv (λ t d, if t =? 1
                then (λ m, <["export.xls.crdownload" := "part"]> (<["~$export.xls" := "lock"]> m)) <$> d
                else d)
        (λ _, false) (λ _, false) SetupOk (λ _, None) (inr []) (λ _ _ _, None).

(** The browser names its download like the artifact, "RegionY.xls". *)
Definition same_name_arrives : Env :=
  mkEnv (λ t d, if t =? 1 then (<["RegionY.xls" := "fresh"]>) <$> d else d)
        (λ _, false) (λ _, false) SetupOk (λ _, None) (inr []) (λ _ _ _, None).

(** A directory with the artifact of an earlier run and an unrelated file. *)
Definition start : World :=
  mkWorld (Some {[ "RegionX.xls" := "stale"; "notes.txt" := "n" ]}) 0 false [].

End Scenario.

Module ScenarioRuns.
Import Scenario.

(** [start] two seconds later, "tmp123.xls" arrived. *)
Definition found : World :=
  mkWorld (Some {[ "RegionX.xls" := "stale"; "notes.txt" := "n"; "tmp123.xls" := "fresh" ]})
          2 false [Sleep 1; Sleep 1].

(** ... and after the rename that replaces the stale artifact. *)
Definition replaced : World :=
  mkWorld (Some {[ "RegionX.xls" := "fresh"; "notes.txt" := "n" ]}) 2 false
          [Sleep 1; Sleep 1;
           OsCall (Remove "RegionX.xls") None; Log (ArchivoExistenteEliminado "RegionX.xls");
           OsCall (Rename "tmp123.xls" "RegionX.xls") None;
           Log (ArchivoRenombrado "tmp123.xls" "RegionX.xls")].

(** ... or after the rename that the operating system refused. *)
Definition stranded : World :=
  mkWorld (Some {[ "notes.txt" := "n"; "tmp123.xls" := "fresh" ]}) 2 false
          [Sleep 1; Sleep 1;
           OsCall (Remove "RegionX.xls") None; Log (ArchivoExistenteEliminado "RegionX.xls");
           OsCall (Rename "tmp123.xls" "RegionX.xls") (Some PermissionError);
           Log (ErrorRenombrando PermissionError)].

(** ... or, for "RegionY.xls" found under the name it is to get, after the
    remove that deleted it and the rename that no longer found it. *)
Definition deleted : World :=
  mkWorld (dir start) 2 false
          [Sleep 1; Sleep 1;
           OsCall (Remove "RegionY.xls") None; Log (ArchivoExistenteEliminado "RegionY.xls");
           OsCall (Rename "RegionY.xls" "RegionY.xls") (Some FileNotFoundError);
           Log (ErrorRenombrando FileNotFoundError)].

(** [start] after two seconds in which nothing arrived. *)
Definition timed_out : World :=
  mkWorld (dir start) 2 false [Sleep 1; Sleep 1; Log (NoSeDetectoDescarga "RegionX")].

End ScenarioRuns.

Module BatchScenario.

Definition antioquia : Region := mkRegion "05" "Antioquia".
Definition atlantico : Region := mkRegion "08" "Atlantico".

(** A catalog of two departments.  The export of the first one arrives as
    "export.xls" during the second that starts at clock 7; the export button
    of the second one never becomes clickable. *)
Definition two_regions : Env :=
  mkEnv (λ t d, if t =? 7 then (<["export.xls" := "fresh"]>) <$> d else d)
        (λ _, false) (λ _, false) SetupOk (λ _, None) (inr [antioquia; atlantico])
        (λ s r _, match s with
                  | ClickExport =>
                      if String.eqb (codigo r) "08" then Some TimeoutException else None
                  | _ => None
                  end).

Definition start : World := mkWorld (Some {[ "notes.txt" := "n" ]}) 0 false [].

(** The filtered batch and the full batch on this input. *)
Definition filtered : option (res () * World) :=
  download_specific_departamentos two_regions ["antioquia"; "ATLANTICO"] start.
Definition full : option (res () * World) :=
  download_all_departamentos two_regions start.

(** The events of a batch that ran from [start]. *)
Definition events_of (run : option (res () * World)) : list event :=
  match run with
  | Some (_, w') => events_since start w'
  | None => []
  end.

End BatchScenario.

(** ** The vocabulary of the further properties *)

(** The sleeps of a list of events, in seconds, and its browser steps. *)
Definition slept (evs : list event) : Z :=
  foldr (λ e acc, match e with Sleep secs => secs + acc | _ => acc end) 0 evs.
Definition browser_steps (evs : list event) : list browser_step :=
  omap (λ e, match e with Browser s _ => Some s | _ => None end) evs.

(** Events without region work: no mark of a session or an attempt, no
    filesystem call, no browser step on a region, no summary line. *)
Definition no_work (evs : list event) : Prop :=
  marks evs = [] ∧ os_calls evs = [] ∧ browser_steps evs = [] ∧ tally_lines evs = [].

(** The events of the navigation: its steps in the browser, its sleeps and
    its log lines. *)
Definition is_navigation (e : event) : bool :=
  match e with
  | Navigate _ | Sleep _ => true
  | Log (Navegando | ModalCerrado | NoSeEncontroModal | ClicIngresar | ClicRegistroActual
         | ClicServicios | ErrorNavegando _) => true
  | _ => false
  end.

(** Events of a session in which no region is worked on: no filesystem
    call, no browser step on a region, no summary line, and no mark but the
    start and the end of the session. *)
Definition idle (evs : list event) : Prop :=
  os_calls evs = [] ∧ browser_steps evs = [] ∧ tally_lines evs = [] ∧
  Forall (λ m, m = Acquire ∨ m = Release) (marks evs).

(** The line [get_departamentos_list] logs: the number of departments it
    found, or the exception that left it with none. *)
Definition catalog_line (departamentos : list Region) (l : log_line) : Prop :=
  l = SeEncontraron (length departamentos) ∨
  (departamentos = [] ∧ ∃ e, l = ErrorObteniendoLista e).

(** The events of the rename: filesystem calls and log lines only. *)
Definition is_rename_event (e : event) : bool :=
  match e with OsCall _ _ | Log _ => true | _ => false end.

(** The four interactions of an attempt, in the order of the code. *)
Definition stages : list browser_step := [SelectRegion; ClickSearch; AwaitGrid; ClickExport].

(** What an attempt on [d] leaves: a boolean, browser steps that are a
    prefix of [stages], and as its last event the line that tells how it
    ended, with what that line stands for; after a success, the artifact in
    the directory. *)
Definition attempt_outcome (d : Region) (ok : bool) (w' : World) (evs : list event)
  : Prop :=
  browser_steps evs `prefix_of` stages ∧
  ∃ l, last evs = Some (Log l) ∧
    match l with
    | DescargaCompletadaRenombrada n =>
        n = nombre d ∧ ok = true ∧ browser_steps evs = stages ∧ 3 ≤ slept evs ≤ 33 ∧
        ∃ src, Rename src (nombre d ++ (Str.splitext src).2) ∈ os_done evs ∧
               is_Some (entry (nombre d ++ (Str.splitext src).2) (dir w'))
    | FalloDescargaRenombrado n =>
        n = nombre d ∧ ok = false ∧ browser_steps evs = stages ∧ 3 ≤ slept evs ≤ 33
    | TimeoutProcesando n =>
        n = nombre d ∧ ok = false ∧ os_calls evs = [] ∧ 0 ≤ slept evs ≤ 3
    | ErrorProcesando n e =>
        n = nombre d ∧ ok = false ∧ os_calls evs = [] ∧ 0 ≤ slept evs ≤ 3 ∧
        is_TimeoutException e = false
    | _ => False
    end.

(** The calls of [time.sleep] among [evs] add up to between [lo] and [hi]
    seconds. *)
Definition lasted (lo hi : Z) (evs : list event) : Prop := lo ≤ slept evs ≤ hi.

(** A name as the dropdown loop leaves it: nothing to strip. *)
Definition stripped (s : string) : bool := String.eqb (Text.strip s) s.

(** Nothing to strip on the left: the string is empty or starts with a
    character that is not white space. *)
Definition no_lead (s : string) : Prop :=
  match s with
  | EmptyString => True
  | String c _ => Text.isspace c = false
  end.

(** [sep] does not occur in [s]; how often it occurs. *)
Fixpoint lacks (sep : ascii) (s : string) : bool :=
  match s with
  | EmptyString => true
  | String c s' => negb (Ascii.eqb c sep) && lacks sep s'
  end.

Fixpoint occurrences (sep : ascii) (s : string) : nat :=
  match s with
  | EmptyString => 0
  | String c s' => ((if Ascii.eqb c sep then 1 else 0) + occurrences sep s')%nat
  end.

(** Typed in ASCII: on such a string [str.strip] and [str.lower] are what
    [Text.strip] and [Str.lower] compute. *)
Definition ascii_only (s : string) : bool :=
  forallb (λ c, (nat_of_ascii c <? 128)%nat) (list_ascii_of_string s).

(** The answers that make [main] start a batch: option 1 or 2, for option
    2 some text at the departments prompt, and a yes at the confirmation. *)
Definition confirmed (console : Console) : Prop :=
  afirmativo (Str.lower (Text.strip (answer console Continuar))) = true ∧
  (Text.strip (answer console SeleccioneOpcion) = "1" ∨
   (Text.strip (answer console SeleccioneOpcion) = "2" ∧
    Text.strip (answer console Departamentos) ≠ "")).

(** The lines [main] ends with when it starts no batch. *)
Definition farewell (l : print_line) : bool :=
  match l with
  | OperacionCancelada | NoSeIngresaron | Saliendo | OpcionNoValida => true
  | _ => false
  end.

(** A batch on a fresh downloader: it returns, logs at least its first
    line, and either acquires no session and releases none, or acquires one
    and releases it as the last thing it does. *)
Definition fresh_batch (r : res ()) (w' : World) (evs : list event) : Prop :=
  r = Ret () ∧ evs ≠ [] ∧
  (marks evs = [] ∨ ∃ body, marks evs = session body).

(** ** Further scenarios *)

Module ListingScenario.

(** The directory cannot be listed during the second that starts at
    clock 1. *)
Definition refused_once : Env :=
  mkEnv (λ _ d, d) (λ t, t =? 1) (λ _, false) SetupOk (λ _, None) (inr []) (λ _ _ _, None).

End ListingScenario.

Module DropdownScenario.

(** A select with its placeholder, a blank value, an option without value
    and two departments, one of them with blanks around its text. *)
Definition options : list OptionElement :=
  [ mkOptionElement (Some "") "Seleccione";
    mkOptionElement (Some "05") "  Antioquia ";
    mkOptionElement (Some " ") "blank";
    mkOptionElement None "none";
    mkOptionElement (Some "08") "Atlantico" ].

Definition page : Env :=
  mkEnv (λ _ d, d) (λ _, false) (λ _, false) SetupOk (λ _, None)
        (inr (departamentos_del_select (Some options))) (λ _ _ _, Some TimeoutException).

End DropdownScenario.

Module ConsoleScenario.

(** The user picks the full batch and confirms, with blanks and a capital. *)
Definition says_yes : Console :=
  mkConsole (λ p, match p with
                  | SeleccioneOpcion => " 1 "
                  | Continuar => "Si"
                  | Departamentos => ""
                  end) None.

End ConsoleScenario.

(** * Properties *)

(** ** The string tests *)

Module StrFacts.
Import Str.

Lemma append_nil (s : string) : "" ++ s = s.
Proof. reflexivity. Qed.

Lemma append_cons (c : ascii) (s t : string) : String c s ++ t = String c (s ++ t).
Proof. reflexivity. Qed.

Lemma length_append (s t : string) :
  String.length (s ++ t) = (String.length s + String.length t)%nat.
Proof.
  induction s as [|c s IH]; rewrite ?append_nil, ?append_cons; cbn [String.length plus];
    [done | by rewrite IH].
Qed.

Lemma endswith_refl (s : string) : endswith s s = true.
Proof. destruct s; cbn [endswith]; by rewrite String.eqb_refl. Qed.

Lemma endswith_app (t suf : string) : endswith (t ++ suf) suf = true.
Proof.
  induction t as [|c t IH]; rewrite ?append_nil, ?append_cons; cbn [endswith].
  - apply endswith_refl.
  - rewrite IH. apply orb_true_r.
Qed.

Lemma endswith_spec (s suf : string) :
  endswith s suf = true ↔ ∃ t, s = t ++ suf.
Proof.
  split.
  - induction s as [|c s IH]; cbn [endswith]; intros H.
    + apply orb_true_iff in H as [H|H]; [|discriminate].
      apply String.eqb_eq in H. by exists "".
    + apply orb_true_iff in H as [H|H].
      * apply String.eqb_eq in H. by exists "".
      * destruct (IH H) as [t ->]. by exists (String c t).
  - intros [t ->]. apply endswith_app.
Qed.

Lemma lower_app (a b : string) : lower (a ++ b) = lower a ++ lower b.
Proof.
  induction a as [|c a IH]; rewrite ?append_nil, ?append_cons; cbn [lower];
    rewrite ?append_nil, ?append_cons; [done | by rewrite IH].
Qed.

(** Of two suffixes of one string the shorter is a suffix of the longer. *)
Lemma suffix_of_suffix (a b c d : string) :
  a ++ b = c ++ d → (String.length b ≤ String.length d)%nat → endswith d b = true.
Proof.
  revert a. induction c as [|x c IH]; intros a E L.
  - rewrite append_nil in E. subst d. apply endswith_app.
  - destruct a as [|y a]; rewrite ?append_nil, ?append_cons in E.
    + subst b. cbn [String.length] in L. rewrite length_append in L. lia.
    + injection E as _ E. by apply (IH a).
Qed.

(** A name that ends with ".crdownload" never passes the spreadsheet test,
    so the third conjunct of [qualifies] follows from the first. *)
Lemma crdownload_not_spreadsheet (s : string) :
  endswith s ".crdownload" = true →
  endswith_any (lower s) [".xls"; ".xlsx"] = false.
Proof.
  intros [t ->]%endswith_spec. rewrite lower_app.
  change (lower ".crdownload") with ".crdownload".
  apply not_true_is_false. intros H. cbn [endswith_any existsb] in H.
  rewrite orb_false_r in H. apply orb_true_iff in H as [H|H];
    apply endswith_spec in H as [u H]; symmetry in H;
    apply suffix_of_suffix in H; (try (vm_compute; lia)); vm_compute in H; discriminate.
Qed.

End StrFacts.

(** X1.  The test for an unfinished download is implied.  A name that ends with
    ".crdownload" does not end with ".xls" or ".xlsx" in any case of the
    letters, so the third condition of the test never decides: the test is
    the extension test and the "~" test. *)
Lemma qualifies_alt (archivo : string) :
  qualifies archivo =
  Str.endswith_any (Str.lower archivo) [".xls"; ".xlsx"] && negb (Str.startswith archivo "~").
Proof.
  unfold qualifies.
  destruct (Str.endswith archivo ".crdownload") eqn:E.
  - rewrite (StrFacts.crdownload_not_spreadsheet _ E). reflexivity.
  - by rewrite andb_true_r.
Qed.

Lemma qualifies_nonempty (archivo : string) : qualifies archivo = true → archivo ≠ "".
Proof. intros H ->. vm_compute in H. discriminate. Qed.

Lemma first_qualifying_Some (X : gset string) (f : string) :
  first_qualifying X = Some f → f ∈ X ∧ qualifies f = true.
Proof.
  unfold first_qualifying. intros [H1 H2]%find_some. split; [|done].
  by apply elem_of_elements, list_elem_of_In.
Qed.

Lemma first_qualifying_None (X : gset string) :
  first_qualifying X = None ↔ ∀ f, f ∈ X → qualifies f = false.
Proof.
  unfold first_qualifying. split.
  - intros H f Hf. apply (find_none _ _ H). by apply list_elem_of_In, elem_of_elements.
  - intros H. destruct (find qualifies (elements X)) eqn:E; [|done].
    apply find_some in E as [E1 E2].
    apply list_elem_of_In, elem_of_elements in E1. rewrite (H _ E1) in E2. discriminate.
Qed.

Lemma first_qualifying_singleton (f : string) :
  first_qualifying {[ f ]} = if qualifies f then Some f else None.
Proof. unfold first_qualifying. rewrite elements_singleton. simpl. reflexivity. Qed.

Lemma truthy_first_qualifying (X : gset string) :
  truthy (first_qualifying X) = bool_decide (is_Some (first_qualifying X)).
Proof.
  destruct (first_qualifying X) as [f|] eqn:E; cbn [truthy].
  - apply first_qualifying_Some in E as [_ E%qualifies_nonempty].
    rewrite bool_decide_eq_true_2 by eauto.
    apply negb_true_iff, String.eqb_neq. done.
  - rewrite bool_decide_eq_false_2; [done|]. by intros [? ?].
Qed.

(** ** The polling loop *)

Section Watcher.

Context (env : Env).

Lemma after_0 (w : World) : after env w 0 = w.
Proof.
  destruct w as [d c dr tr]. unfold after. cbn.
  by rewrite Z.add_0_r, app_nil_r.
Qed.

Lemma after_S (w : World) (k : nat) : after env (after env w 1) k = after env w (S k).
Proof.
  unfold after. cbn [dir clock driver trace drift replicate]. f_equal.
  - lia.
  - by rewrite <- app_assoc.
Qed.

Lemma poll_loop_0 (start_time timeout : Z) (antes : gset string) (w : World) :
  poll_loop env 0 start_time timeout antes w =
  if clock w - start_time <? timeout then None else Some (Ret None, w).
Proof.
  cbn. unfold mbind, M_bind, time_time. cbn.
  destruct (clock w - start_time <? timeout); reflexivity.
Qed.

Lemma poll_loop_S (fuel : nat) (start_time timeout : Z) (antes : gset string) (w : World) :
  poll_loop env (S fuel) start_time timeout antes w =
  if clock w - start_time <? timeout then
    match observe env antes (clock w) (dir w) with
    | Ret None => poll_loop env fuel start_time timeout antes (after env w 1)
    | r => Some (r, w)
    end
  else Some (Ret None, w).
Proof.
  cbn [poll_loop]. unfold mbind, M_bind, time_time. cbn [clock].
  destruct (clock w - start_time <? timeout); [|reflexivity].
  unfold download_path_exists, observe, listdir.
  destruct (dir w) as [d|] eqn:Ed.
  - rewrite bool_decide_eq_true_2 by eauto. rewrite Ed.
    destruct (listdir_refused env (clock w)); [reflexivity|].
    unfold mret, M_ret. rewrite truthy_first_qualifying.
    destruct (first_qualifying (dom d ∖ antes)) as [f|].
    + rewrite bool_decide_eq_true_2 by eauto. reflexivity.
    + rewrite bool_decide_eq_false_2 by (by intros [? ?]).
      unfold time_sleep, after. rewrite Ed. reflexivity.
  - rewrite bool_decide_eq_false_2 by (by intros [? ?]).
    unfold mret, M_ret. cbn [truthy]. unfold time_sleep, after. rewrite Ed. reflexivity.
Qed.

(** The loop ends within its fuel: after [k] sleeps without a decisive
    observation it either sees a qualifying file or an exception at once, or
    the time is up. *)
Lemma poll_loop_spec (fuel : nat) (start_time timeout : Z) (antes : gset string) (w : World) :
  (Z.to_nat (timeout - (clock w - start_time)) ≤ fuel)%nat →
  ∃ r k, poll_loop env fuel start_time timeout antes w = Some (r, after env w k) ∧
    (k ≤ Z.to_nat (timeout - (clock w - start_time)))%nat ∧
    (∀ j, (j < k)%nat →
       observe env antes (clock w + Z.of_nat j) (drift env (clock w) j (dir w)) = Ret None) ∧
    match r with
    | Ret None => k = Z.to_nat (timeout - (clock w - start_time))
    | _ => (k < Z.to_nat (timeout - (clock w - start_time)))%nat ∧
           observe env antes (clock w + Z.of_nat k) (drift env (clock w) k (dir w)) = r
    end.
Proof.
  revert w. induction fuel as [|fuel IH]; intros w Hfuel.
  - rewrite poll_loop_0. destruct (Z.ltb_spec (clock w - start_time) timeout); [lia|].
    exists (Ret None), 0%nat. rewrite after_0. repeat split; [lia | lia | lia].
  - rewrite poll_loop_S. destruct (Z.ltb_spec (clock w - start_time) timeout) as [Hlt|Hge].
    2:{ exists (Ret None), 0%nat. rewrite after_0. repeat split; [lia | lia | lia]. }
    destruct (observe env antes (clock w) (dir w)) as [[f|]|e] eqn:Eo.
    + exists (Ret (Some f)), 0%nat. rewrite after_0, Z.add_0_r. cbn [drift].
      repeat split; [lia | lia | lia | done].
    + destruct (IH (after env w 1)) as (r & k & Hrun & Hk & Hbefore & Hr).
      { cbn [after clock]. lia. }
      exists r, (S k). rewrite Hrun, after_S. cbn [after clock dir drift] in *.
      change (Z.of_nat 1) with 1 in *.
      split; [done|]. split; [lia|]. split.
      * intros [|j] Hj; cbn [drift].
        -- by rewrite Z.add_0_r.
        -- replace (clock w + Z.of_nat (S j)) with (clock w + 1 + Z.of_nat j) by lia.
           apply Hbefore. lia.
      * replace (clock w + Z.of_nat (S k)) with (clock w + 1 + Z.of_nat k) by lia.
        destruct r as [[g|]|e].
        -- destruct Hr as [Hr1 Hr2]. split; [lia|done].
        -- lia.
        -- destruct Hr as [Hr1 Hr2]. split; [lia|done].
    + exists (Raise e), 0%nat. rewrite after_0, Z.add_0_r. cbn [drift].
      repeat split; [lia | lia | lia | done].
Qed.

Lemma watch_spec (timeout : Z) (w : World) :
  ∃ r k, watch env timeout w = Some (r, after env w k) ∧
    (k ≤ Z.to_nat timeout)%nat ∧
    match snapshot env w with
    | Raise e => r = Raise e ∧ k = 0%nat
    | Ret antes =>
        (∀ j, (j < k)%nat →
           observe env antes (clock w + Z.of_nat j) (drift env (clock w) j (dir w)) = Ret None) ∧
        match r with
        | Ret None => k = Z.to_nat timeout
        | _ => (k < Z.to_nat timeout)%nat ∧
               observe env antes (clock w + Z.of_nat k) (drift env (clock w) k (dir w)) = r
        end
    end.
Proof.
  assert (Hfuel : ∀ antes, ∃ r k,
    poll_loop env (Z.to_nat timeout) (clock w) timeout antes w = Some (r, after env w k) ∧
    (k ≤ Z.to_nat timeout)%nat ∧
    (∀ j, (j < k)%nat →
        observe env antes (clock w + Z.of_nat j) (drift env (clock w) j (dir w)) = Ret None) ∧
    match r with
    | Ret None => k = Z.to_nat timeout
    | _ => (k < Z.to_nat timeout)%nat ∧
           observe env antes (clock w + Z.of_nat k) (drift env (clock w) k (dir w)) = r
    end).
  { intros antes.
    destruct (poll_loop_spec (Z.to_nat timeout) (clock w) timeout antes w) as (r & k & H);
      [lia|].
    replace (timeout - (clock w - clock w)) with timeout in H by lia. eauto. }
  unfold watch, snapshot, mbind, M_bind, download_path_exists, listdir, time_time.
  destruct (dir w) as [d|] eqn:Ed.
  - rewrite bool_decide_eq_true_2 by eauto. rewrite Ed.
    destruct (listdir_refused env (clock w)).
    + exists (Raise PermissionError), 0%nat. rewrite after_0. split; [done|]. split; [lia|done].
    + destruct (Hfuel (dom d)) as (r & k & H1 & H2 & H3). exists r, k. by rewrite H1.
  - rewrite bool_decide_eq_false_2 by (by intros [? ?]). unfold mret, M_ret.
    destruct (Hfuel ∅) as (r & k & H1 & H2 & H3). exists r, k. by rewrite H1.
Qed.

(** A file found by the loop is in the directory, was not in the snapshot,
    and passes the test. *)
Lemma observe_found (antes : gset string) (t : Z) (d : option Dir) (f : string) :
  observe env antes t d = Ret (Some f) →
  ∃ d', d = Some d' ∧ is_Some (d' !! f) ∧ (f ∉ antes) ∧ qualifies f = true.
Proof.
  unfold observe. destruct d as [d'|]; [|discriminate].
  destruct (listdir_refused env t); [discriminate|].
  intros [= H]. apply first_qualifying_Some in H as [H Hq].
  apply elem_of_difference in H as [Hin Hnot].
  exists d'. by rewrite <- elem_of_dom.
Qed.

(** ** The rename *)

Lemma os_apply_OSError (op : fs_op) (d : Dir) (e : exn) :
  os_apply env op d = inl e → is_OSError e = true.
Proof.
  unfold os_apply. destruct op; repeat case_match; intros [= <-]; reflexivity.
Qed.

(** The rename of a found file, call by call. *)
Lemma rename_found_Some (departamento_nombre src : string) (w : World) (d : Dir) :
  src ≠ "" → dir w = Some d →
  let target := departamento_nombre ++ (Str.splitext src).2 in
  rename_found env departamento_nombre (Some src) w =
  match d !! target with
  | Some _ =>
      match os_apply env (Remove target) d with
      | inr d' => rename_step env src target w d'
                    [OsCall (Remove target) None; Log (ArchivoExistenteEliminado target)]
      | inl e => Some (Ret false, moved w d [OsCall (Remove target) (Some e);
                                            Log (ErrorRenombrando e)])
      end
  | None => rename_step env src target w d []
  end.
Proof.
  intros Hsrc Hd target. unfold rename_found. cbn [truthy].
  apply String.eqb_neq in Hsrc. rewrite Hsrc. cbn [negb from_option id]. fold target.
  destruct w as [dw cw drw tw]. cbn [dir] in Hd. subst dw.
  unfold try_except, mbind, M_bind, path_exists, os_remove, os_rename, os_call, rename_step,
    log, emit, mret, M_ret, moved. cbn [dir clock driver trace].
  destruct (d !! target) as [c|] eqn:Et.
  - rewrite bool_decide_eq_true_2 by eauto. cbn [dir clock driver trace].
    destruct (os_apply env (Remove target) d) as [e|d'] eqn:Erm.
    + rewrite (os_apply_OSError _ _ _ Erm). cbn [dir clock driver trace].
      rewrite <- !app_assoc. reflexivity.
    + cbn [dir clock driver trace].
      destruct (os_apply env (Rename src target) d') as [e|d''] eqn:Ern.
      * rewrite (os_apply_OSError _ _ _ Ern). cbn [dir clock driver trace].
        rewrite <- !app_assoc. reflexivity.
      * cbn [dir clock driver trace]. rewrite <- !app_assoc. reflexivity.
  - rewrite bool_decide_eq_false_2 by (by intros [? ?]). cbn [dir clock driver trace].
    destruct (os_apply env (Rename src target) d) as [e|d''] eqn:Ern.
    + rewrite (os_apply_OSError _ _ _ Ern). cbn [dir clock driver trace].
      rewrite <- !app_assoc. reflexivity.
    + cbn [dir clock driver trace]. rewrite <- !app_assoc. reflexivity.
Qed.

Lemma rename_found_None (departamento_nombre : string) (w : World) :
  rename_found env departamento_nombre None w =
  Some (Ret false, traced w [Log (NoSeDetectoDescarga departamento_nombre)]).
Proof. reflexivity. Qed.

Lemma rename_found_nodir (departamento_nombre src : string) (w : World) :
  src ≠ "" → dir w = None →
  let target := departamento_nombre ++ (Str.splitext src).2 in
  rename_found env departamento_nombre (Some src) w =
  Some (Ret false, traced w [OsCall (Rename src target) (Some FileNotFoundError);
                             Log (ErrorRenombrando FileNotFoundError)]).
Proof.
  intros Hsrc Hd target. unfold rename_found. cbn [truthy].
  apply String.eqb_neq in Hsrc. rewrite Hsrc. cbn [negb from_option id]. fold target.
  destruct w as [dw cw drw tw]. cbn [dir] in Hd. subst dw.
  unfold try_except, mbind, M_bind, path_exists, os_rename, os_call,
    log, emit, mret, M_ret, traced. cbn [dir clock driver trace is_OSError].
  rewrite <- !app_assoc. reflexivity.
Qed.

Lemma rename_found_falsy (departamento_nombre : string) (o : option string) (w : World) :
  truthy o = false →
  rename_found env departamento_nombre o w =
  Some (Ret false, traced w [Log (NoSeDetectoDescarga departamento_nombre)]).
Proof. intros H. unfold rename_found. rewrite H. reflexivity. Qed.

(** The rename never lets an exception out: it returns a boolean. *)
Lemma rename_found_returns (departamento_nombre : string) (o : option string) (w : World) :
  ∃ b w', rename_found env departamento_nombre o w = Some (Ret b, w').
Proof.
  destruct (truthy o) eqn:Et.
  2:{ rewrite rename_found_falsy by done. eauto. }
  destruct o as [src|]; [|discriminate]. cbn [truthy] in Et.
  apply negb_true_iff, String.eqb_neq in Et.
  destruct (dir w) as [d|] eqn:Ed.
  - rewrite (rename_found_Some _ _ _ d) by done. unfold rename_step.
    repeat case_match; eauto.
  - rewrite rename_found_nodir by done. eauto.
Qed.

Lemma wait_unfold (departamento_nombre : string) (timeout : Z) (w : World)
    (r1 : res (option string)) (w1 : World) :
  watch env timeout w = Some (r1, w1) →
  wait_for_download_and_rename env departamento_nombre timeout w =
  match r1 with
  | Ret o => rename_found env departamento_nombre o w1
  | Raise e => Some (Ret false, traced w1 [Log (ErrorEsperandoDescarga departamento_nombre e)])
  end.
Proof.
  intros H. unfold wait_for_download_and_rename, try_except, mbind at 1, M_bind at 1.
  rewrite H. destruct r1 as [o|e].
  - destruct (rename_found_returns departamento_nombre o w1) as (b & w' & ->). reflexivity.
  - reflexivity.
Qed.

End Watcher.

(** ** What a run did: its events, its filesystem calls *)

Lemma events_since_app (w w' : World) (evs : list event) :
  trace w' = (trace w ++ evs)%list → events_since w w' = evs.
Proof. intros H. unfold events_since. rewrite H. apply drop_app_length. Qed.

Lemma omap_sleeps {B} (f : event → option B) (k : nat) (s : Z) :
  f (Sleep s) = None → omap f (replicate k (Sleep s)) = [].
Proof. intros H. induction k as [|k IH]; cbn; [done | by rewrite H]. Qed.

Lemma os_apply_remove_inr (env : Env) (p : string) (d d' : Dir) :
  os_apply env (Remove p) d = inr d' → is_Some (d !! p) ∧ d' = delete p d.
Proof.
  unfold os_apply. destruct (d !! p); [|discriminate].
  destruct (os_refuses env (Remove p)); [discriminate|]. intros [= <-]. eauto.
Qed.

Lemma os_apply_rename_inr (env : Env) (s t : string) (d d' : Dir) :
  os_apply env (Rename s t) d = inr d' → ∃ c, d !! s = Some c ∧ d' = <[t := c]> (delete s d).
Proof.
  unfold os_apply. destruct (d !! s) as [c|]; [|discriminate].
  destruct (os_refuses env (Rename s t)); [discriminate|]. intros [= <-]. eauto.
Qed.

(** What the rename of a found file leaves behind, whatever the operating
    system answers. *)
Lemma rename_found_effects (env : Env) (departamento_nombre src : string) (w : World) (d : Dir) :
  src ≠ "" → dir w = Some d →
  let target := departamento_nombre ++ (Str.splitext src).2 in
  ∃ b d' evs l,
    rename_found env departamento_nombre (Some src) w = Some (Ret b, moved w d' (evs ++ [Log l])) ∧
    (∀ f, f ≠ src → f ≠ target → d' !! f = d !! f) ∧
    os_calls (evs ++ [Log l]) `sublist_of` [Remove target; Rename src target] ∧
    (if b then
       l = ArchivoRenombrado src target ∧ os_failures (evs ++ [Log l]) = [] ∧
       src ≠ target ∧
       (∃ c, d !! src = Some c ∧ d' = <[target := c]> (delete src (delete target d))) ∧
       evs = ((if decide (is_Some (d !! target))
               then [OsCall (Remove target) None; Log (ArchivoExistenteEliminado target)]
               else []) ++ [OsCall (Rename src target) None])%list
     else
       ∃ op e, l = ErrorRenombrando e ∧ os_failures (evs ++ [Log l]) = [(op, e)]).
Proof.
  intros Hsrc Hd target. rewrite (rename_found_Some env _ _ _ d Hsrc Hd). fold target.
  unfold rename_step.
  destruct (d !! target) as [ct|] eqn:Et.
  - destruct (os_apply env (Remove target) d) as [e|d1] eqn:Erm.
    + exists false, d, [OsCall (Remove target) (Some e)], (ErrorRenombrando e).
      split; [done|]. split; [done|]. split; [|by eauto].
      cbn. apply sublist_skip, sublist_nil_l.
    + apply os_apply_remove_inr in Erm as [_ ->].
      destruct (os_apply env (Rename src target) (delete target d)) as [e|d2] eqn:Ern.
      * exists false, (delete target d),
          [OsCall (Remove target) None; Log (ArchivoExistenteEliminado target);
           OsCall (Rename src target) (Some e)], (ErrorRenombrando e).
        split; [done|]. split; [|split; [reflexivity|by eauto]].
        intros f _ Hf. by rewrite lookup_delete_ne.
      * apply os_apply_rename_inr in Ern as (c & Hc & ->).
        assert (src ≠ target) by (intros Heq; rewrite Heq in Hc; by rewrite lookup_delete_eq in Hc).
        rewrite lookup_delete_ne in Hc by done.
        exists true, (<[target:=c]> (delete src (delete target d))),
          [OsCall (Remove target) None; Log (ArchivoExistenteEliminado target);
           OsCall (Rename src target) None], (ArchivoRenombrado src target).
        split; [done|]. split; [|split; [reflexivity|]].
        { intros f Hf1 Hf2. by rewrite lookup_insert_ne, !lookup_delete_ne. }
        rewrite decide_True by eauto. eauto 10.
  - destruct (os_apply env (Rename src target) d) as [e|d2] eqn:Ern.
    + exists false, d, [OsCall (Rename src target) (Some e)], (ErrorRenombrando e).
      split; [done|]. split; [done|]. split; [|by eauto].
      cbn. apply sublist_cons. reflexivity.
    + apply os_apply_rename_inr in Ern as (c & Hc & ->).
      assert (src ≠ target) by (intros Heq; rewrite Heq in Hc; congruence).
      exists true, (<[target:=c]> (delete src d)),
        [OsCall (Rename src target) None], (ArchivoRenombrado src target).
      split; [done|]. split; [|split].
      { intros f Hf1 Hf2. by rewrite lookup_insert_ne, !lookup_delete_ne. }
      { cbn. apply sublist_cons. reflexivity. }
      rewrite decide_False by (intros [? Hx]; congruence).
      rewrite (delete_id d target) by done. eauto 10.
Qed.

Lemma snapshot_Ret (env : Env) (w : World) (antes : gset string) :
  snapshot env w = Ret antes → antes = snapshot_names w.
Proof.
  unfold snapshot, snapshot_names. destruct (dir w); [|congruence].
  destruct (listdir_refused env (clock w)); congruence.
Qed.

Lemma trace_after (env : Env) (w : World) (k : nat) :
  trace (after env w k) = (trace w ++ replicate k (Sleep 1))%list.
Proof. reflexivity. Qed.

Lemma events_since_after (env : Env) (w : World) (k : nat) (d : option Dir) (evs : list event) :
  events_since w (mkWorld d (clock (after env w k)) (driver (after env w k))
                          (trace (after env w k) ++ evs)) =
  (replicate k (Sleep 1) ++ evs)%list.
Proof. apply events_since_app. cbn [trace after]. by rewrite <- app_assoc. Qed.

Lemma os_calls_sleeps (k : nat) (evs : list event) :
  os_calls (replicate k (Sleep 1) ++ evs) = os_calls evs.
Proof. unfold os_calls. by rewrite omap_app, omap_sleeps. Qed.

Lemma os_failures_sleeps (k : nat) (evs : list event) :
  os_failures (replicate k (Sleep 1) ++ evs) = os_failures evs.
Proof. unfold os_failures. by rewrite omap_app, omap_sleeps. Qed.

(** ** The claims about [wait_for_download_and_rename] *)

(** C2.  When no new file that passes the test is in the directory at any of
    the polls of the timeout, the function returns [False] after at most
    [timeout] one-second sleeps and one error line; it makes no filesystem
    call at all, and the directory is what the other processes made of it.
    There is one pass of the loop only: no retry. *)
Theorem timeout_leaves_directory_alone (env : Env) (departamento_nombre : string)
    (timeout : Z) (w : World) :
  (∀ (j : nat) (d : Dir) (f : string),
     (j < Z.to_nat timeout)%nat → drift env (clock w) j (dir w) = Some d →
     f ∈ dom d → f ∉ snapshot_names w → qualifies f = false) →
  ∃ w' k l,
    wait_for_download_and_rename env departamento_nombre timeout w = Some (Ret false, w') ∧
    (k ≤ Z.to_nat timeout)%nat ∧
    events_since w w' = (replicate k (Sleep 1) ++ [Log l])%list ∧
    (l = NoSeDetectoDescarga departamento_nombre ∧ k = Z.to_nat timeout
     ∨ ∃ e, l = ErrorEsperandoDescarga departamento_nombre e) ∧
    os_calls (events_since w w') = [] ∧
    dir w' = drift env (clock w) k (dir w).
Proof.
  intros Hno.
  destruct (watch_spec env timeout w) as (r & k & Hwatch & Hk & Hr).
  rewrite (wait_unfold env _ _ _ _ _ Hwatch).
  assert (Hfail : ∀ l, events_since w (traced (after env w k) [Log l])
                       = (replicate k (Sleep 1) ++ [Log l])%list).
  { intros l. apply events_since_after. }
  destruct (snapshot env w) as [antes|e] eqn:Es.
  - apply snapshot_Ret in Es as ->. destruct Hr as [_ Hr].
    destruct r as [[f|]|e].
    + destruct Hr as [Hlt Hobs]. apply observe_found in Hobs as (d & Hd & Hin & Hnew & Hq).
      rewrite (Hno k d f Hlt Hd) in Hq; [discriminate| |done]. by apply elem_of_dom.
    + rewrite rename_found_None.
      exists (traced (after env w k) [Log (NoSeDetectoDescarga departamento_nombre)]), k,
        (NoSeDetectoDescarga departamento_nombre).
      rewrite Hfail, os_calls_sleeps. eauto 10.
    + exists (traced (after env w k) [Log (ErrorEsperandoDescarga departamento_nombre e)]), k,
        (ErrorEsperandoDescarga departamento_nombre e).
      rewrite Hfail, os_calls_sleeps. eauto 10.
  - destruct Hr as [-> ->].
    exists (traced (after env w 0) [Log (ErrorEsperandoDescarga departamento_nombre e)]), 0%nat,
      (ErrorEsperandoDescarga departamento_nombre e).
    rewrite Hfail, os_calls_sleeps. eauto 10.
Qed.

(** What the loop hands to the rename: a file of the directory that is new
    and passes the test. *)
Lemma watch_found (env : Env) (timeout : Z) (w w1 : World) (src : string) :
  watch env timeout w = Some (Ret (Some src), w1) →
  ∃ k d c, w1 = after env w k ∧ (k < Z.to_nat timeout)%nat ∧
    dir w1 = Some d ∧ d !! src = Some c ∧ (src ∉ snapshot_names w) ∧
    qualifies src = true.
Proof.
  intros H. destruct (watch_spec env timeout w) as (r & k & Hwatch & Hk & Hr).
  rewrite Hwatch in H. injection H as -> <-.
  destruct (snapshot env w) as [antes|e] eqn:Es; [|by destruct Hr].
  apply snapshot_Ret in Es as ->. destruct Hr as [_ [Hlt Hobs]].
  apply observe_found in Hobs as (d & Hd & [c Hc] & Hnew & Hq).
  exists k, d, c. eauto 10.
Qed.

(** C3.  In a run that finds a file and in which no filesystem call fails:
    the target is the department name followed by the extension of the found
    file; a file that already has the target name is removed first, then the
    found file is renamed; the function returns [True]; afterwards the
    target name holds the content of the found file (whatever was there
    before is replaced), the source name is gone, and every other entry is
    as it was. *)
Theorem rename_replaces_target (env : Env) (departamento_nombre : string) (timeout : Z)
    (w w1 w' : World) (src : string) (r : res bool) :
  watch env timeout w = Some (Ret (Some src), w1) →
  wait_for_download_and_rename env departamento_nombre timeout w = Some (r, w') →
  os_failures (events_since w w') = [] →
  let target := departamento_nombre ++ (Str.splitext src).2 in
  r = Ret true ∧ src ≠ target ∧
  ∃ d c d',
    dir w1 = Some d ∧ d !! src = Some c ∧ dir w' = Some d' ∧
    events_since w1 w' =
      ((if decide (is_Some (d !! target))
        then [OsCall (Remove target) None; Log (ArchivoExistenteEliminado target)]
        else []) ++
       [OsCall (Rename src target) None; Log (ArchivoRenombrado src target)])%list ∧
    d' = <[target := c]> (delete src (delete target d)) ∧
    d' !! target = Some c ∧ d' !! src = None ∧
    (∀ f, f ≠ src → f ≠ target → d' !! f = d !! f).
Proof.
  intros Hwatch Hrun Hok target.
  destruct (watch_found env _ _ _ _ Hwatch) as (k & d & c & -> & Hk & Hd & Hc & Hnew & Hq).
  rewrite (wait_unfold env _ _ _ _ _ Hwatch) in Hrun.
  destruct (rename_found_effects env departamento_nombre src (after env w k) d
              (qualifies_nonempty _ Hq) Hd) as (b & d' & evs & l & Hren & Hframe & _ & Hb).
  fold target in Hren, Hframe, Hb. rewrite Hren in Hrun. injection Hrun as <- <-.
  unfold moved in Hok. rewrite events_since_after, os_failures_sleeps in Hok.
  destruct b.
  2:{ destruct Hb as (op & e & _ & Hb). rewrite Hb in Hok. discriminate. }
  destruct Hb as (-> & _ & Hne & (c' & Hc' & ->) & ->).
  assert (c' = c) as -> by congruence.
  split; [done|]. split; [done|].
  exists d, c, (<[target:=c]> (delete src (delete target d))).
  split; [done|]. split; [done|]. split; [done|]. split.
  { unfold moved, events_since. cbn [trace]. rewrite drop_app_length.
    by rewrite <- app_assoc. }
  split; [done|]. split; [by rewrite lookup_insert_eq|]. split; [|done].
  rewrite lookup_insert_ne by done. by rewrite lookup_delete_eq.
Qed.

(** C4.  Every run ends with a boolean; up to the end of the loop it calls
    nothing on the filesystem; after it, only [os.remove] on the target and
    [os.rename] from the found file to the target are ever called, each at
    most once and in this order, the rename exactly once when the run
    succeeds; every entry of the directory under another name is what it was
    when the loop ended. *)
Theorem other_files_untouched (env : Env) (departamento_nombre : string) (timeout : Z)
    (w : World) :
  ∃ r1 k b w',
    watch env timeout w = Some (r1, after env w k) ∧
    wait_for_download_and_rename env departamento_nombre timeout w = Some (Ret b, w') ∧
    os_calls (events_since w (after env w k)) = [] ∧
    dir (after env w k) = drift env (clock w) k (dir w) ∧
    match r1 with
    | Ret (Some src) =>
        let target := departamento_nombre ++ (Str.splitext src).2 in
        os_calls (events_since w w') `sublist_of` [Remove target; Rename src target] ∧
        (b = true → os_done (events_since w w') `sublist_of` [Remove target; Rename src target]
                    ∧ Rename src target ∈ os_done (events_since w w')) ∧
        ∀ f, f ≠ src → f ≠ target →
             entry f (dir w') = entry f (drift env (clock w) k (dir w))
    | _ => os_calls (events_since w w') = [] ∧ dir w' = drift env (clock w) k (dir w)
    end.
Proof.
  destruct (watch_spec env timeout w) as (r1 & k & Hwatch & Hk & Hr).
  exists r1, k.
  assert (Hquiet : os_calls (events_since w (after env w k)) = []).
  { unfold events_since. cbn [trace after]. rewrite drop_app_length.
    rewrite <- (app_nil_r (replicate _ _)). by rewrite os_calls_sleeps. }
  rewrite (wait_unfold env _ _ _ _ _ Hwatch).
  destruct r1 as [[src|]|e].
  - destruct (watch_found env _ _ _ _ Hwatch) as (k' & d & c & _ & _ & Hd & Hc & Hnew & Hq).
    destruct (rename_found_effects env departamento_nombre src (after env w k) d
                (qualifies_nonempty _ Hq) Hd) as (b & d' & evs & l & Hren & Hframe & Hcalls & Hb).
    exists b, (moved (after env w k) d' (evs ++ [Log l])).
    split; [done|]. split; [done|]. split; [done|]. split; [done|].
    unfold moved. rewrite events_since_after, os_calls_sleeps. split; [done|]. split.
    + intros ->. destruct Hb as (-> & _ & _ & _ & ->).
      unfold os_done. rewrite omap_app, omap_sleeps by done.
      case_decide; cbn; split; try reflexivity; try (apply sublist_cons; reflexivity);
        set_solver.
    + intros f Hf1 Hf2. cbn [dir entry after] in *. rewrite Hd. cbn. by apply Hframe.
  - rewrite rename_found_None.
    exists false, (traced (after env w k) [Log (NoSeDetectoDescarga departamento_nombre)]).
    split; [done|]. split; [done|]. split; [done|]. split; [done|].
    unfold traced. rewrite events_since_after, os_calls_sleeps. done.
  - exists false, (traced (after env w k) [Log (ErrorEsperandoDescarga departamento_nombre e)]).
    split; [done|]. split; [done|]. split; [done|]. split; [done|].
    unfold traced. rewrite events_since_after, os_calls_sleeps. done.
Qed.

(** [e ∉ [a; b; ...]] when [e] differs from each by its constructors. *)
Ltac absent_event :=
  let H := fresh "H" in
  intros H; repeat (apply elem_of_cons in H as [H|H]; [discriminate H|]);
  by apply elem_of_nil in H.

Lemma os_done_elem (op : fs_op) (evs : list event) :
  op ∈ os_done evs ↔ OsCall op None ∈ evs.
Proof.
  unfold os_done. rewrite list_elem_of_omap. split.
  - intros (e & He & Hf). destruct e as [| |op' [err|]| | | | |]; try discriminate Hf.
    by injection Hf as ->.
  - intros H. by exists (OsCall op None).
Qed.

(** A rename that returns [False] has renamed nothing. *)
Lemma rename_found_false (env : Env) (departamento_nombre : string) (o : option string)
    (w w' : World) :
  rename_found env departamento_nombre o w = Some (Ret false, w') →
  ∃ evs, trace w' = (trace w ++ evs)%list ∧ ∀ src dst, Rename src dst ∉ os_done evs.
Proof.
  assert (Hno : ∀ evs : list event,
    (∀ src dst, OsCall (Rename src dst) None ∉ evs) →
    ∀ src dst, Rename src dst ∉ os_done evs).
  { intros evs H src dst Hin%os_done_elem. by apply (H src dst). }
  destruct (truthy o) eqn:Et.
  2:{ rewrite rename_found_falsy by done. intros [= <-]. eexists. split; [reflexivity|].
      apply Hno. intros src dst. absent_event. }
  destruct o as [src0|]; [|discriminate]. cbn [truthy] in Et.
  apply negb_true_iff, String.eqb_neq in Et.
  destruct (dir w) as [d|] eqn:Ed.
  - rewrite (rename_found_Some env _ _ _ d) by done. cbn zeta. unfold rename_step, moved.
    repeat case_match; intros [= <-]; (eexists; split; [reflexivity|]);
      apply Hno; intros src dst; rewrite ?app_nil_l; cbn [app]; absent_event.
  - rewrite rename_found_nodir by done. intros [= <-]. eexists. split; [reflexivity|].
    apply Hno. intros src dst. absent_event.
Qed.

(** C5, as the code has it.  Every run returns a bare boolean, and no
    exception leaves the function.  [True] is returned exactly after a
    rename that worked: the last line logged then names the found file and
    the final name.  After [False] no rename was done, and the last line
    logged is one of three error lines: no download detected (the timeout),
    the rename failed, or another exception while waiting.  The path and
    the reason are in the log only. *)
Theorem wait_returns_boolean (env : Env) (departamento_nombre : string) (timeout : Z)
    (w : World) :
  ∃ b w' l,
    wait_for_download_and_rename env departamento_nombre timeout w = Some (Ret b, w') ∧
    last (events_since w w') = Some (Log l) ∧
    if b then
      ∃ src, l = ArchivoRenombrado src (departamento_nombre ++ (Str.splitext src).2) ∧
             Rename src (departamento_nombre ++ (Str.splitext src).2)
               ∈ os_done (events_since w w')
    else
      (l = NoSeDetectoDescarga departamento_nombre
       ∨ (∃ e, l = ErrorRenombrando e)
       ∨ (∃ e, l = ErrorEsperandoDescarga departamento_nombre e)) ∧
      ∀ src dst, Rename src dst ∉ os_done (events_since w w').
Proof.
  destruct (watch_spec env timeout w) as (r1 & k & Hwatch & _ & _).
  rewrite (wait_unfold env _ _ _ _ _ Hwatch).
  assert (Hlast : ∀ d evs l,
    last (events_since w (mkWorld d (clock (after env w k)) (driver (after env w k))
                                  (trace (after env w k) ++ (evs ++ [Log l])))) = Some (Log l)).
  { intros d evs l. rewrite events_since_after, app_assoc. apply last_snoc. }
  assert (Hfalse : ∀ (o : option string) (w' : World),
    rename_found env departamento_nombre o (after env w k) = Some (Ret false, w') →
    ∀ src dst, Rename src dst ∉ os_done (events_since w w')).
  { intros o w' Hrun. destruct (rename_found_false _ _ _ _ _ Hrun) as (evs & Ht & Hno).
    rewrite (events_since_app w w' (replicate k (Sleep 1) ++ evs)).
    - intros src dst. unfold os_done. rewrite omap_app, omap_sleeps by done. apply Hno.
    - rewrite Ht. cbn [trace after]. by rewrite <- app_assoc. }
  destruct r1 as [o|e].
  2:{ exists false, (traced (after env w k) [Log (ErrorEsperandoDescarga departamento_nombre e)]),
        (ErrorEsperandoDescarga departamento_nombre e).
      split; [done|]. split; [apply (Hlast _ [])|]. split; [by eauto|].
      unfold traced. rewrite events_since_after. intros src dst.
      unfold os_done. rewrite omap_app, omap_sleeps by done. cbn. apply not_elem_of_nil. }
  destruct (truthy o) eqn:Et.
  2:{ pose proof (Hfalse o) as Hf. rewrite rename_found_falsy in Hf |- * by done.
      exists false, (traced (after env w k) [Log (NoSeDetectoDescarga departamento_nombre)]),
        (NoSeDetectoDescarga departamento_nombre).
      split; [done|]. split; [apply (Hlast _ [])|]. split; [by eauto|]. by apply Hf. }
  destruct o as [src|]; [|discriminate]. cbn [truthy] in Et.
  apply negb_true_iff, String.eqb_neq in Et.
  pose proof (Hfalse (Some src)) as Hf.
  destruct (dir (after env w k)) as [d|] eqn:Ed.
  - destruct (rename_found_effects env departamento_nombre src (after env w k) d Et Ed)
      as (b & d' & evs & l & Hren & _ & _ & Hb).
    rewrite Hren in Hf |- *.
    exists b, (moved (after env w k) d' (evs ++ [Log l])), l.
    split; [done|]. split; [apply Hlast|].
    destruct b.
    + destruct Hb as (-> & _ & _ & _ & ->). exists src. split; [done|].
      unfold moved. rewrite events_since_after.
      unfold os_done. rewrite omap_app, omap_sleeps by done.
      case_decide; cbn; set_solver.
    + destruct Hb as (op & e & -> & _). split; [by eauto|]. by apply Hf.
  - rewrite rename_found_nodir in Hf |- * by done.
    eexists false, _, (ErrorRenombrando FileNotFoundError).
    split; [done|]. split; [apply (Hlast _ [_])|]. split; [by eauto|]. by apply Hf.
Qed.

(** ** The claims on concrete runs *)

Lemma timeout_leaves_directory_alone_witness :
  ∃ w' k l,
    wait_for_download_and_rename Scenario.partial_download "RegionX" 3 Scenario.start
      = Some (Ret false, w') ∧
    (k ≤ Z.to_nat 3)%nat ∧
    events_since Scenario.start w' = (replicate k (Sleep 1) ++ [Log l])%list ∧
    (l = NoSeDetectoDescarga "RegionX" ∧ k = Z.to_nat 3
     ∨ ∃ e, l = ErrorEsperandoDescarga "RegionX" e) ∧
    os_calls (events_since Scenario.start w') = [] ∧
    dir w' = drift Scenario.partial_download (clock Scenario.start) k (dir Scenario.start).
Proof.
  apply (timeout_leaves_directory_alone Scenario.partial_download "RegionX" 3 Scenario.start).
  intros j d f Hj. change (Z.to_nat 3) with 3%nat in Hj.
  destruct j as [|[|[|j]]]; [| | |lia]; cbn; intros [= <-]; rewrite ?dom_insert_L;
    intros Hin Hnew.
  - done.
  - done.
  - apply elem_of_union in Hin as [->%elem_of_singleton|Hin]; [reflexivity|].
    apply elem_of_union in Hin as [->%elem_of_singleton|Hin]; [reflexivity|done].
Defined.

Lemma rename_replaces_target_witness :
  watch (Scenario.download_arrives (λ _, false)) 5 Scenario.start
    = Some (Ret (Some "tmp123.xls"), ScenarioRuns.found) ∧
  wait_for_download_and_rename (Scenario.download_arrives (λ _, false)) "RegionX" 5
    Scenario.start = Some (Ret true, ScenarioRuns.replaced) ∧
  os_failures (events_since Scenario.start ScenarioRuns.replaced) = [] ∧
  ∃ d', dir ScenarioRuns.replaced = Some d' ∧
        d' !! "RegionX.xls" = Some "fresh" ∧ d' !! "tmp123.xls" = None ∧
        d' !! "notes.txt" = Some "n".
Proof.
  assert (H1 : watch (Scenario.download_arrives (λ _, false)) 5 Scenario.start
               = Some (Ret (Some "tmp123.xls"), ScenarioRuns.found))
    by (vm_compute; reflexivity).
  assert (H2 : wait_for_download_and_rename (Scenario.download_arrives (λ _, false))
                 "RegionX" 5 Scenario.start = Some (Ret true, ScenarioRuns.replaced))
    by (vm_compute; reflexivity).
  assert (H3 : os_failures (events_since Scenario.start ScenarioRuns.replaced) = [])
    by (vm_compute; reflexivity).
  split; [exact H1|]. split; [exact H2|]. split; [exact H3|].
  destruct (rename_replaces_target _ _ _ _ _ _ _ _ H1 H2 H3)
    as (_ & _ & d & c & d' & Hd & Hc & Hd' & _ & _ & Ht & Hs & Hf).
  injection Hd as <-. vm_compute in Hc. injection Hc as <-.
  exists d'. split; [exact Hd'|]. split; [exact Ht|]. split; [exact Hs|].
  rewrite Hf by done. vm_compute. reflexivity.
Defined.

(** A found file that already has the target name makes the rename fail:
    [os.path.exists] sees it, [os.remove] deletes it, [os.rename] raises.
    Such a run is not one whose filesystem calls succeed. *)
Lemma found_file_named_like_target :
  wait_for_download_and_rename Scenario.same_name_arrives "RegionY" 5 Scenario.start
    = Some (Ret false, ScenarioRuns.deleted) ∧
  entry "RegionY.xls" (dir ScenarioRuns.deleted) = None.
Proof. split; vm_compute; reflexivity. Qed.

(** C5, as stated, fails: a run that times out and a run whose rename is
    refused return the same value, [False]; only the log tells them apart.
    And a run that succeeds returns [True], not the final path. *)
Lemma result_carries_no_reason :
  wait_for_download_and_rename Scenario.quiet "RegionX" 2 Scenario.start
    = Some (Ret false, ScenarioRuns.timed_out) ∧
  wait_for_download_and_rename (Scenario.download_arrives Scenario.rename_refused) "RegionX" 5
    Scenario.start = Some (Ret false, ScenarioRuns.stranded) ∧
  last (trace ScenarioRuns.timed_out) = Some (Log (NoSeDetectoDescarga "RegionX")) ∧
  last (trace ScenarioRuns.stranded) = Some (Log (ErrorRenombrando PermissionError)) ∧
  wait_for_download_and_rename (Scenario.download_arrives (λ _, false)) "RegionX" 5
    Scenario.start = Some (Ret true, ScenarioRuns.replaced).
Proof. repeat split; vm_compute; reflexivity. Qed.

(** C10.  A run exists that finds a file, removes the file that had the
    target name, fails to rename (the operating system refuses), and
    returns [False]: the old artifact is gone, the found file still has its
    own name, and nothing has the target name. *)
Theorem rename_error_is_not_atomic :
  ∃ (env : Env) (w w1 w' : World) (old fresh : string),
    watch env 5 w = Some (Ret (Some "tmp123.xls"), w1) ∧
    entry "RegionX.xls" (dir w) = Some old ∧
    entry "RegionX.xls" (dir w1) = Some old ∧
    entry "tmp123.xls" (dir w1) = Some fresh ∧
    wait_for_download_and_rename env "RegionX" 5 w = Some (Ret false, w') ∧
    events_since w1 w' =
      [OsCall (Remove "RegionX.xls") None; Log (ArchivoExistenteEliminado "RegionX.xls");
       OsCall (Rename "tmp123.xls" "RegionX.xls") (Some PermissionError);
       Log (ErrorRenombrando PermissionError)] ∧
    entry "RegionX.xls" (dir w') = None ∧
    entry "tmp123.xls" (dir w') = Some fresh ∧
    dir w' ≠ dir w1.
Proof.
  exists (Scenario.download_arrives Scenario.rename_refused), Scenario.start,
    ScenarioRuns.found, ScenarioRuns.stranded, "stale", "fresh".
  repeat split; try (vm_compute; reflexivity).
  intros H. apply (f_equal (entry "RegionX.xls")) in H. vm_compute in H. discriminate.
Qed.

(** ** The new-file test, declaratively *)

Lemma startswith_spec (s p : string) :
  Str.startswith s p = true ↔ ∃ t, s = p ++ t.
Proof.
  unfold Str.startswith. revert s. induction p as [|a p IH]; intros s.
  - destruct s; cbn; split; eauto.
  - destruct s as [|b s]; cbn.
    + split; [discriminate|]. intros [t [=]].
    + destruct (ascii_dec a b) as [->|Hne].
      * rewrite IH. split; intros [t Ht]; exists t.
        -- by rewrite Ht.
        -- rewrite StrFacts.append_cons in Ht. by injection Ht.
      * split; [discriminate|]. intros [t Ht].
        rewrite StrFacts.append_cons in Ht. by injection Ht.
Qed.

Lemma qualifies_spec (archivo : string) : qualifies archivo = true ↔ passes_test archivo.
Proof.
  unfold qualifies, passes_test, Str.endswith_any. cbn [existsb].
  rewrite !andb_true_iff, !negb_true_iff, orb_false_r, orb_true_iff.
  rewrite <- !not_true_iff_false, !StrFacts.endswith_spec, startswith_spec.
  split.
  - intros [[[[t Ht]|[t Ht]] H2] H3]; (split; [eauto|done]).
  - intros [[t [Ht|Ht]] [H2 H3]]; (split; [split|]; eauto).
Qed.

(** C1, as the code has it.  In one pass of the loop, with [archivos_antes]
    the snapshot and [archivos_actuales] the listing: a file is selected only
    if it is new and passes the test; if some new file passes the test, one
    such file is selected (the first in the set's order; the others are
    not); a new file that is alone is selected if and only if it passes the
    test; a name that starts with "~" or ends with ".crdownload" is never
    selected; and the pass that selects a file ends the loop at once, in the
    same world: no sleep, no further poll. *)
Theorem new_file_selection (env : Env) (archivos_antes archivos_actuales : gset string) :
  let nuevos := archivos_actuales ∖ archivos_antes in
  (∀ f, first_qualifying nuevos = Some f →
        f ∈ archivos_actuales ∧ (f ∉ archivos_antes) ∧ passes_test f) ∧
  (∀ f, f ∈ nuevos → passes_test f →
        ∃ g, first_qualifying nuevos = Some g ∧ g ∈ nuevos ∧ passes_test g) ∧
  (∀ f, nuevos = {[ f ]} → (first_qualifying nuevos = Some f ↔ passes_test f)) ∧
  (∀ f, Str.startswith f "~" = true ∨ Str.endswith f ".crdownload" = true →
        first_qualifying nuevos ≠ Some f) ∧
  (∀ fuel start_time timeout w d f,
     clock w - start_time < timeout → dir w = Some d →
     listdir_refused env (clock w) = false → archivos_actuales = dom d →
     first_qualifying nuevos = Some f →
     poll_loop env (S fuel) start_time timeout archivos_antes w = Some (Ret (Some f), w)).
Proof.
  intros nuevos. split; [|split; [|split; [|split]]].
  - intros f [Hin Hq]%first_qualifying_Some.
    apply elem_of_difference in Hin as [? ?]. by apply qualifies_spec in Hq.
  - intros f Hf Hq%qualifies_spec.
    destruct (first_qualifying nuevos) as [g|] eqn:Eg.
    + exists g. apply first_qualifying_Some in Eg as [? ?%qualifies_spec]. done.
    + rewrite first_qualifying_None in Eg. rewrite (Eg f Hf) in Hq. discriminate.
  - intros f ->. rewrite first_qualifying_singleton, <- qualifies_spec.
    destruct (qualifies f); split; congruence.
  - intros f Hbad [_ Hq]%first_qualifying_Some.
    unfold qualifies in Hq. rewrite !andb_true_iff, !negb_true_iff in Hq.
    destruct Hq as [[_ H1] H2]. destruct Hbad; congruence.
  - intros fuel start_time timeout w d f Hlt Hd Hls -> Hf.
    rewrite poll_loop_S. apply Z.ltb_lt in Hlt. rewrite Hlt.
    unfold observe. rewrite Hd, Hls. fold nuevos. by rewrite Hf.
Qed.

Lemma new_file_selection_witness :
  first_qualifying ({[ "a.XLS"; "~b.xls"; "c.xls.crdownload" ]} ∖ ∅) ≠ Some "~b.xls" ∧
  poll_loop Scenario.quiet 1 0 5 {[ "RegionX.xls"; "notes.txt" ]} ScenarioRuns.found
    = Some (Ret (Some "tmp123.xls"), ScenarioRuns.found).
Proof.
  destruct (new_file_selection Scenario.quiet ∅ {[ "a.XLS"; "~b.xls"; "c.xls.crdownload" ]})
    as (_ & _ & _ & Hnever & _).
  destruct (new_file_selection Scenario.quiet {[ "RegionX.xls"; "notes.txt" ]}
              (dom ({[ "RegionX.xls" := "stale"; "notes.txt" := "n";
                       "tmp123.xls" := "fresh" ]} : gmap string string)))
    as (_ & _ & _ & _ & Hstop).
  split.
  - apply Hnever. left. reflexivity.
  - apply (Hstop 0%nat 0 5 ScenarioRuns.found
             {[ "RegionX.xls" := "stale"; "notes.txt" := "n"; "tmp123.xls" := "fresh" ]}).
    + reflexivity.
    + reflexivity.
    + reflexivity.
    + reflexivity.
    + vm_compute. reflexivity.
Defined.

(** C1, as stated, fails: two new files that both pass the test are in the
    listing of one pass; the loop selects one of them and breaks, so the
    other passes the test without being selected. *)
Lemma two_new_spreadsheets_one_selected :
  let nuevos : gset string := {[ "a.xls"; "b.xls" ]} ∖ ∅ in
  "a.xls" ∈ nuevos ∧ "b.xls" ∈ nuevos ∧
  qualifies "a.xls" = true ∧ qualifies "b.xls" = true ∧
  ¬ (first_qualifying nuevos = Some "a.xls" ∧ first_qualifying nuevos = Some "b.xls") ∧
  ¬ (∀ f, f ∈ nuevos → (first_qualifying nuevos = Some f ↔ qualifies f = true)).
Proof.
  intros nuevos.
  assert (Ha : "a.xls" ∈ nuevos) by (unfold nuevos; set_solver).
  assert (Hb : "b.xls" ∈ nuevos) by (unfold nuevos; set_solver).
  assert (Hsel : ¬ (first_qualifying nuevos = Some "a.xls"
                    ∧ first_qualifying nuevos = Some "b.xls")).
  { intros [H1 H2]. rewrite H1 in H2. discriminate. }
  repeat split; try done.
  intros H. apply Hsel. split; apply H; done.
Qed.

(** ** Running a batch: rules and shapes *)

Lemma slept_app (evs1 evs2 : list event) : slept (evs1 ++ evs2) = slept evs1 + slept evs2.
Proof.
  unfold slept. induction evs1 as [|e evs1 IH]; cbn [app foldr]; [lia|].
  destruct e; lia.
Qed.

Lemma no_work_app (evs1 evs2 : list event) :
  no_work evs1 → no_work evs2 → no_work (evs1 ++ evs2).
Proof.
  unfold no_work, marks, os_calls, browser_steps, tally_lines.
  intros (H1 & H2 & H3 & H4) (H1' & H2' & H3' & H4').
  by rewrite !omap_app, H1, H2, H3, H4, H1', H2', H3', H4'.
Qed.

Lemma idle_app (evs1 evs2 : list event) : idle evs1 → idle evs2 → idle (evs1 ++ evs2).
Proof.
  unfold idle, marks, os_calls, browser_steps, tally_lines.
  intros (H1 & H2 & H3 & H4) (H1' & H2' & H3' & H4').
  rewrite !omap_app, H1, H2, H3, H1', H2', H3'. repeat split. by apply Forall_app.
Qed.

Lemma no_work_idle (evs : list event) : no_work evs → idle evs.
Proof. intros (H1 & H2 & H3 & H4). unfold idle. rewrite H1. by repeat split. Qed.

(** A list of events that is idle by its constructors. *)
Ltac idle_events :=
  split; [reflexivity|]; split; [reflexivity|]; split; [reflexivity|];
  unfold marks; cbn; repeat (apply Forall_cons; split; [by auto|]); by apply Forall_nil.

(** The events of a session put together from idle parts. *)
Ltac idle_parts :=
  repeat apply idle_app;
  first [assumption | idle_events
        | (match goal with |- context [if ?b then _ else _] => destruct b end; idle_events)].

Section Runs.

Context (env : Env).

Lemma runs_ret {A} (a : A) (w : World) Q : Q (Ret a) w [] → runs (mret a) w Q.
Proof. intros H. exists (Ret a), w, []. by rewrite app_nil_r. Qed.

Lemma runs_raise {A} (e : exn) (w : World) (Q : res A → World → list event → Prop) :
  Q (Raise e) w [] → runs (raise e) w Q.
Proof. intros H. exists (Raise e), w, []. by rewrite app_nil_r. Qed.

Lemma runs_bind {A B} (m : M A) (f : A → M B) (w : World) Q :
  runs m w (λ r w1 evs1,
    match r with
    | Ret a => runs (f a) w1 (λ r' w' evs2, Q r' w' (evs1 ++ evs2)%list)
    | Raise e => Q (Raise e) w1 evs1
    end) →
  runs (m ≫= f) w Q.
Proof.
  intros (r & w1 & evs1 & Hm & Ht & H). unfold runs, mbind, M_bind. rewrite Hm.
  destruct r as [a|e].
  - destruct H as (r' & w' & evs2 & Hf & Ht' & H). exists r', w', (evs1 ++ evs2)%list.
    split; [done|]. split; [|done]. by rewrite Ht', Ht, app_assoc.
  - exists (Raise e), w1, evs1. done.
Qed.

Lemma runs_try_except {A} (body : M A) catches handler (w : World) Q :
  runs body w (λ r w1 evs1,
    match r with
    | Raise e => if catches e : bool
                 then runs (handler e) w1 (λ r' w' evs2, Q r' w' (evs1 ++ evs2)%list)
                 else Q (Raise e) w1 evs1
    | Ret a => Q (Ret a) w1 evs1
    end) →
  runs (try_except body catches handler) w Q.
Proof.
  intros (r & w1 & evs1 & Hm & Ht & H). unfold runs, try_except. rewrite Hm.
  destruct r as [a|e]; [by exists (Ret a), w1, evs1|].
  destruct (catches e); [|by exists (Raise e), w1, evs1].
  destruct H as (r' & w' & evs2 & Hf & Ht' & H). exists r', w', (evs1 ++ evs2)%list.
  split; [done|]. split; [|done]. by rewrite Ht', Ht, app_assoc.
Qed.

Lemma runs_try_finally {A} (body : M A) (cleanup : M unit) (w : World) Q :
  runs body w (λ r w1 evs1,
    runs cleanup w1 (λ rc w' evs2,
      match rc with
      | Ret _ => Q r w' (evs1 ++ evs2)%list
      | Raise e => Q (Raise e) w' (evs1 ++ evs2)%list
      end)) →
  runs (try_finally body cleanup) w Q.
Proof.
  intros (r & w1 & evs1 & Hm & Ht & rc & w' & evs2 & Hc & Ht' & H).
  unfold runs, try_finally. rewrite Hm, Hc.
  destruct rc as [[]|e]; eexists _, w', (evs1 ++ evs2)%list;
    (split; [done|]); (split; [|done]); by rewrite Ht', Ht, app_assoc.
Qed.

Lemma runs_mono {A} (m : M A) (w : World) (Q Q' : res A → World → list event → Prop) :
  runs m w Q → (∀ r w' evs, Q r w' evs → Q' r w' evs) → runs m w Q'.
Proof. intros (r & w' & evs & ? & ? & ?) Himp. exists r, w', evs. eauto. Qed.

Lemma runs_emit (e : event) (w : World) Q :
  Q (Ret ()) (traced w [e]) [e] → runs (emit e) w Q.
Proof. intros H. by exists (Ret ()), (traced w [e]), [e]. Qed.

Lemma runs_log (l : log_line) (w : World) Q :
  Q (Ret ()) (traced w [Log l]) [Log l] → runs (log l) w Q.
Proof. apply runs_emit. Qed.

Lemma runs_sleep (secs : Z) (w : World) Q :
  (∀ d, Q (Ret ()) (mkWorld d (clock w + secs) (driver w) (trace w ++ [Sleep secs]))
          [Sleep secs]) →
  runs (time_sleep env secs) w Q.
Proof. intros H. eexists (Ret ()), _, [Sleep secs]. split; [done|]. split; [done|]. apply H. Qed.

Lemma runs_browser (s : browser_step) (d : Region) (w : World) Q :
  (∀ r, Q r (traced w [Browser s d]) [Browser s d]) →
  runs (browser env s d) w Q.
Proof.
  intros H. unfold runs, browser. cbn zeta.
  destruct (browser_result env s d (clock w)); eexists _, _, [Browser s d];
    (split; [reflexivity|]); (split; [reflexivity|]); apply H.
Qed.

(** The navigation returns its value whatever the browser does; it sleeps
    two seconds once the portal is open and one more when it closed the
    modal, and does no region work. *)
Lemma navigate_runs (w : World) :
  runs (navigate_to_servicios_page env) w (λ r w' evs,
    r = Ret (navigate_result env) ∧ driver w' = driver w ∧ no_work evs ∧
    0 ≤ slept evs ≤ 3 ∧ forallb is_navigation evs = true).
Proof.
  unfold runs, navigate_to_servicios_page, navigate_result, nav, time_sleep, log, emit.
  unfold try_except, mbind, M_bind, mret, M_ret. cbn [forallb].
  destruct w as [dw cw drw tw]. cbn [dir clock driver trace].
  destruct (navigation env OpenPortal) as [e1|];
    [|destruct (navigation env CloseModal) as [e2|];
      [destruct (is_TimeoutException e2)|];
      (destruct (navigation env ClickIngresar) as [e3|];
       [|destruct (navigation env ClickRegistroActual) as [e4|];
         [|destruct (navigation env SwitchWindow) as [e5|];
           [|destruct (navigation env ClickServicios) as [e6|];
             [|destruct (navigation env AwaitDropdown) as [e7|]]]]])];
    cbn [dir clock driver trace is_Exception andb];
    (eexists _, _, _; split; [reflexivity|]; cbn [trace]; rewrite <- ?app_assoc;
     split; [reflexivity|]; split; [reflexivity|]; split; [reflexivity|];
     split; [by repeat split|]; split; [unfold slept; cbn [foldr app]; lia | reflexivity]).
Qed.

(** The catalog comes back with the line that tells its size, or the
    exception that emptied it. *)
Lemma catalog_runs (w : World) :
  runs (get_departamentos_list env) w (λ r w' evs,
    r = Ret (departamentos_result env) ∧ driver w' = driver w ∧
    ∃ l, evs = [ReadDropdown; Log l] ∧ catalog_line (departamentos_result env) l).
Proof.
  unfold runs, get_departamentos_list, departamentos_result, catalog_line, log, emit.
  unfold mbind, M_bind, mret, M_ret. cbn [dir clock driver trace].
  destruct (select_read env) as [e|departamentos];
    (eexists _, _, _; split; [reflexivity|]; cbn [trace driver]; rewrite <- ?app_assoc;
     split; [reflexivity|]; split; [reflexivity|]; split; [reflexivity|]).
  - exists (ErrorObteniendoLista e). split; [done|]. right. by eauto.
  - exists (SeEncontraron (length departamentos)). split; [done|]. by left.
Qed.

Lemma catalog_no_work (departamentos : list Region) (l : log_line) :
  catalog_line departamentos l → no_work [ReadDropdown; Log l] ∧ slept [ReadDropdown; Log l] = 0.
Proof. intros [->|[_ [e ->]]]; by repeat split. Qed.

Lemma rename_found_runs (departamento_nombre : string) (o : option string) (w : World) :
  runs (rename_found env departamento_nombre o) w (quiet_boolean w).
Proof.
  unfold runs, quiet_boolean.
  destruct (truthy o) eqn:Et.
  2:{ rewrite rename_found_falsy by done. eexists _, _, _. split; [done|]. eauto. }
  destruct o as [src|]; [|discriminate]. cbn [truthy] in Et.
  apply negb_true_iff, String.eqb_neq in Et.
  destruct (dir w) as [d|] eqn:Ed.
  - rewrite (rename_found_Some env _ _ _ d) by done. unfold rename_step.
    repeat case_match; eexists _, _, _; (split; [reflexivity|]); (split; [reflexivity|]); eauto.
  - rewrite rename_found_nodir by done. eexists _, _, _. split; [done|]. eauto.
Qed.

Lemma wait_runs (departamento_nombre : string) (timeout : Z) (w : World) :
  runs (wait_for_download_and_rename env departamento_nombre timeout) w (quiet_boolean w).
Proof.
  destruct (watch_spec env timeout w) as (r1 & k & Hwatch & _ & _).
  unfold runs. rewrite (wait_unfold env _ _ _ _ _ Hwatch).
  assert (Hm : ∀ evs, marks evs = [] → marks (replicate k (Sleep 1) ++ evs) = []).
  { intros evs H. unfold marks in *. by rewrite omap_app, omap_sleeps, H. }
  destruct r1 as [o|e].
  - destruct (rename_found_runs departamento_nombre o (after env w k))
      as (r & w' & evs & Hrun & Ht & b & -> & Hd & Hmk).
    exists (Ret b), w', (replicate k (Sleep 1) ++ evs)%list.
    split; [done|]. split; [by rewrite Ht, trace_after, app_assoc|].
    exists b. eauto.
  - eexists _, _, (replicate k (Sleep 1) ++ [_])%list.
    split; [done|]. split; [cbn; by rewrite <- app_assoc|].
    exists false. eauto.
Qed.

(** An attempt returns a boolean whatever the browser and the directory do;
    its marks are its start and its outcome. *)
Lemma attempt_runs (departamento : Region) (w : World) :
  runs (download_departamento_data env departamento) w (λ r w' evs,
    ∃ ok, r = Ret ok ∧ driver w' = driver w ∧ marks evs = attempt_marks departamento ok).
Proof.
  unfold download_departamento_data.
  assert (Hfail : ∀ (e : exn) (w1 : World) evs1, driver w1 = driver w →
    marks evs1 = [Attempt departamento] →
    runs (if is_TimeoutException e
          then log (TimeoutProcesando (nombre departamento));; mret false
          else log (ErrorProcesando (nombre departamento) e);; mret false) w1
      (λ r' w' evs2, ∃ ok, r' = Ret ok ∧ driver w' = driver w ∧
         marks (evs1 ++ evs2) = attempt_marks departamento ok)).
  { intros e w1 evs1 Hd Hm.
    destruct (is_TimeoutException e); apply runs_bind, runs_log, runs_ret;
      exists false; unfold marks in *; rewrite omap_app, Hm; done. }
  apply runs_try_except.
  apply runs_bind, runs_log.
  apply runs_bind, runs_browser. intros [[]|e]; [|by apply Hfail].
  apply runs_bind, runs_sleep. intros d1.
  apply runs_bind, runs_browser. intros [[]|e]; [|by apply Hfail].
  apply runs_bind, runs_log.
  apply runs_bind, runs_browser. intros [[]|e]; [|by apply Hfail].
  apply runs_bind, runs_sleep. intros d2.
  apply runs_bind, runs_browser. intros [[]|e]; [|by apply Hfail].
  apply runs_bind, runs_log.
  apply runs_bind. eapply runs_mono; [apply wait_runs|].
  intros r w' evs (b & -> & Hd & Hm).
  destruct b; apply runs_bind, runs_log, runs_ret; eexists; (split; [reflexivity|]);
    (split; [cbn in *; congruence|]); cbn; unfold marks in *;
    rewrite ?app_nil_r, !omap_app, Hm; reflexivity.
Qed.


Lemma marks_app (evs1 evs2 : list event) : marks (evs1 ++ evs2) = (marks evs1 ++ marks evs2)%list.
Proof. apply omap_app. Qed.

Lemma all_loop_runs (departamentos : list Region) (total i s f : nat) (w : World) :
  (i + length departamentos = S total)%nat →
  runs (all_loop env total i departamentos s f) w (λ r w' evs,
    ∃ oks, length oks = length departamentos ∧
      r = Ret ((s + count_true oks)%nat, (f + count_false oks)%nat) ∧
      driver w' = driver w ∧
      marks evs = paced_between (attempts departamentos oks)).
Proof.
  revert i s f w. induction departamentos as [|d rest IH]; intros i s f w Hi.
  - apply runs_ret. exists []. cbn. by rewrite !Nat.add_0_r.
  - cbn [all_loop]. apply runs_bind, runs_log.
    apply runs_bind. eapply runs_mono; [apply attempt_runs|].
    intros r w1 evs1 (ok & -> & Hd1 & Hm1).
    cbn [length] in Hi.
    destruct rest as [|d' rest'].
    + assert (Hlt : (i <? total)%nat = false) by (apply Nat.ltb_ge; cbn in Hi; lia).
      rewrite Hlt. apply runs_bind, runs_ret. cbn [all_loop]. apply runs_ret.
      exists [ok]. split; [done|]. split.
      { unfold count_true, count_false. destruct ok; cbn; do 2 f_equal; lia. }
      split; [done|]. rewrite !app_nil_r, marks_app, Hm1. reflexivity.
    + assert (Hlt : (i <? total)%nat = true) by (apply Nat.ltb_lt; cbn in Hi; lia).
      rewrite Hlt. apply runs_bind, runs_bind, runs_log, runs_sleep. intros d1.
      eapply runs_mono; [apply IH; cbn [length] in *; lia|].
      intros r w2 evs2 (oks & Hlen & -> & Hd2 & Hm2).
      exists (ok :: oks). split; [cbn [length] in *; lia|]. split.
      { unfold count_true, count_false. destruct ok; cbn; do 2 f_equal; lia. }
      split; [cbn in *; congruence|].
      rewrite !marks_app, Hm1, Hm2. cbn [marks omap mark_of app].
      destruct oks as [|ok' oks]; [discriminate|]. reflexivity.
Qed.

Lemma specific_loop_runs (departamentos : list Region) (w : World) :
  runs (specific_loop env departamentos) w (λ r w' evs,
    ∃ oks, length oks = length departamentos ∧ r = Ret () ∧
      driver w' = driver w ∧
      marks evs = paced_after_each (attempts departamentos oks)).
Proof.
  revert w. induction departamentos as [|d rest IH]; intros w.
  - apply runs_ret. by exists [].
  - cbn [specific_loop]. apply runs_bind. eapply runs_mono; [apply attempt_runs|].
    intros r w1 evs1 (ok & -> & Hd1 & Hm1).
    apply runs_bind, runs_sleep. intros d1.
    eapply runs_mono; [apply IH|].
    intros r w2 evs2 (oks & Hlen & -> & Hd2 & Hm2).
    exists (ok :: oks). split; [cbn [length]; lia|]. split; [done|].
    split; [cbn in *; congruence|].
    rewrite !marks_app, Hm1, Hm2. reflexivity.
Qed.

Lemma setup_runs (w : World) :
  runs (setup_driver env) w (λ r w' evs,
    match setup_driver_result env with
    | SetupOk => r = Ret () ∧ driver w' = true ∧ marks evs = [Acquire]
    | SetupRaisesBeforeDriver e => r = Raise e ∧ driver w' = driver w ∧ marks evs = []
    | SetupRaisesAfterDriver e => r = Raise e ∧ driver w' = true ∧ marks evs = [Acquire]
    end).
Proof.
  unfold setup_driver. apply runs_bind, runs_log.
  destruct (setup_driver_result env) as [|e|e].
  - apply runs_bind. eexists (Ret ()), _, [DriverCreated]. split; [reflexivity|].
    split; [reflexivity|]. by apply runs_log.
  - by apply runs_raise.
  - apply runs_bind. eexists (Ret ()), _, [DriverCreated]. split; [reflexivity|].
    split; [reflexivity|]. by apply runs_raise.
Qed.

Lemma quit_runs (w : World) Q :
  Q (Ret ()) (if driver w then traced w [DriverQuit] else w)
    (if driver w then [DriverQuit] else []) →
  runs quit_driver w Q.
Proof.
  intros H. unfold runs, quit_driver. destruct (driver w).
  - by exists (Ret ()), (traced w [DriverQuit]), [DriverQuit].
  - exists (Ret ()), w, []. by rewrite app_nil_r.
Qed.

(** The setup of the driver, with all it leaves in the trace. *)
Lemma setup_idle (w : World) :
  runs (setup_driver env) w (λ r w' evs,
    idle evs ∧ slept evs = 0 ∧ (∃ evs', evs = Log DescargandoChromeDriver :: evs') ∧
    match setup_driver_result env with
    | SetupOk => r = Ret () ∧ driver w' = true
    | SetupRaisesBeforeDriver e => r = Raise e ∧ driver w' = driver w
    | SetupRaisesAfterDriver e => r = Raise e ∧ driver w' = true
    end).
Proof.
  unfold setup_driver. apply runs_bind, runs_log.
  destruct (setup_driver_result env) as [|e|e].
  - apply runs_bind. eexists (Ret ()), _, [DriverCreated]. split; [reflexivity|].
    split; [reflexivity|]. apply runs_log.
    split; [idle_events|]. split; [done|]. split; [by eexists|done].
  - apply runs_raise. split; [idle_events|]. split; [done|]. split; [by eexists|done].
  - apply runs_bind. eexists (Ret ()), _, [DriverCreated]. split; [reflexivity|].
    split; [reflexivity|]. apply runs_raise.
    split; [idle_events|]. split; [done|]. split; [by eexists|done].
Qed.

(** The full batch. *)
Lemma all_batch_runs (w : World) :
  runs (download_all_departamentos env) w (λ r w' evs,
    r = Ret () ∧
    match setup_driver_result env with
    | SetupRaisesBeforeDriver _ => marks evs = if driver w then [Release] else []
    | SetupRaisesAfterDriver _ => marks evs = session []
    | SetupOk =>
        if navigate_result env then
          ∃ oks, length oks = length (departamentos_result env) ∧
            marks evs = session (paced_between (attempts (departamentos_result env) oks)) ∧
            (departamentos_result env ≠ [] →
             ∃ evs0, evs = (evs0 ++ [Log (ProcesoCompletado (count_true oks) (count_false oks));
                                    DriverQuit])%list)
        else marks evs = session []
    end).
Proof.
  unfold download_all_departamentos.
  apply runs_try_finally, runs_try_except, runs_bind.
  eapply runs_mono; [apply setup_runs|]. intros r w1 evs1 Hsetup.
  destruct (setup_driver_result env) as [|e|e]; destruct Hsetup as (-> & Hd1 & Hm1).
  2:{ cbn [is_Exception]. apply runs_log, quit_runs. cbn [driver traced]. rewrite Hd1.
      split; [done|]. rewrite !marks_app, Hm1. by destruct (driver w). }
  2:{ cbn [is_Exception]. apply runs_log, quit_runs. cbn [driver traced]. rewrite Hd1.
      split; [done|]. rewrite !marks_app, Hm1. reflexivity. }
  apply runs_bind. eapply runs_mono; [apply navigate_runs|].
  intros r w2 evs2 (-> & Hd2 & (Hm2 & _) & _).
  destruct (navigate_result env); cbn [negb].
  2:{ apply runs_log, quit_runs. cbn [driver traced]. rewrite Hd2, Hd1.
      split; [done|]. rewrite !marks_app, Hm1, Hm2. reflexivity. }
  apply runs_bind. eapply runs_mono; [apply catalog_runs|].
  intros r w3 evs3 (-> & Hd3 & l & -> & Hl).
  destruct (catalog_no_work _ _ Hl) as [(Hm3 & _) _].
  destruct (departamentos_result env) as [|d rest] eqn:Edeps.
  { apply runs_log, quit_runs. cbn [driver traced]. rewrite Hd3, Hd2, Hd1.
    split; [done|]. exists []. split; [done|]. split; [|done].
    rewrite !marks_app, Hm1, Hm2, Hm3. reflexivity. }
  apply runs_bind, runs_log, runs_bind.
  eapply runs_mono; [apply (all_loop_runs (d :: rest) (length (d :: rest)) 1 0 0); cbn; lia|].
  intros r w4 evs4 (oks & Hlen & -> & Hd4 & Hm4).
  apply runs_log, quit_runs. cbn [driver traced fst snd] in *. rewrite Hd4, Hd3, Hd2, Hd1.
  split; [done|]. exists oks. split; [done|]. split.
  - rewrite !marks_app, Hm1, Hm2, Hm3, Hm4. cbn. by rewrite !app_nil_r.
  - intros _. eexists. rewrite !app_assoc, <- app_assoc. reflexivity.
Qed.

(** The filtered batch, for any lower-casing function. *)
Lemma specific_batch_runs_con (lower : string → string) (departamentos_nombres : list string)
    (w : World) :
  runs (download_specific_departamentos_con env lower departamentos_nombres) w (λ r w' evs,
    r = Ret () ∧
    match setup_driver_result env with
    | SetupRaisesBeforeDriver _ => marks evs = if driver w then [Release] else []
    | SetupRaisesAfterDriver _ => marks evs = session []
    | SetupOk =>
        if navigate_result env then
          let seleccion :=
            departamentos_a_descargar_con lower (departamentos_result env)
              departamentos_nombres in
          ∃ oks, length oks = length seleccion ∧
            marks evs = session (paced_after_each (attempts seleccion oks))
        else marks evs = session []
    end).
Proof.
  unfold download_specific_departamentos_con.
  apply runs_try_finally, runs_try_except, runs_bind.
  eapply runs_mono; [apply setup_runs|]. intros r w1 evs1 Hsetup.
  destruct (setup_driver_result env) as [|e|e]; destruct Hsetup as (-> & Hd1 & Hm1).
  2:{ cbn [is_Exception]. apply runs_log, quit_runs. cbn [driver traced]. rewrite Hd1.
      split; [done|]. rewrite !marks_app, Hm1. by destruct (driver w). }
  2:{ cbn [is_Exception]. apply runs_log, quit_runs. cbn [driver traced]. rewrite Hd1.
      split; [done|]. rewrite !marks_app, Hm1. reflexivity. }
  apply runs_bind. eapply runs_mono; [apply navigate_runs|].
  intros r w2 evs2 (-> & Hd2 & (Hm2 & _) & _).
  destruct (navigate_result env); cbn [negb].
  2:{ apply runs_log, quit_runs. cbn [driver traced]. rewrite Hd2, Hd1.
      split; [done|]. rewrite !marks_app, Hm1, Hm2. reflexivity. }
  apply runs_bind. eapply runs_mono; [apply catalog_runs|].
  intros r w3 evs3 (-> & Hd3 & l & -> & Hl).
  destruct (catalog_no_work _ _ Hl) as [(Hm3 & _) _].
  destruct (departamentos_result env) as [|d rest] eqn:Edeps.
  { apply runs_log, quit_runs. cbn [driver traced]. rewrite Hd3, Hd2, Hd1.
    split; [done|]. exists []. split; [done|].
    rewrite !marks_app, Hm1, Hm2, Hm3. reflexivity. }
  cbn zeta.
  destruct (departamentos_a_descargar_con lower (d :: rest) departamentos_nombres)
    as [|s sel] eqn:Esel.
  { apply runs_log, quit_runs. cbn [driver traced]. rewrite Hd3, Hd2, Hd1.
    split; [done|]. exists []. split; [done|].
    rewrite !marks_app, Hm1, Hm2, Hm3. reflexivity. }
  apply runs_bind, runs_log.
  eapply runs_mono; [apply (specific_loop_runs (s :: sel))|].
  intros r w4 evs4 (oks & Hlen & -> & Hd4 & Hm4).
  apply quit_runs. cbn [driver traced] in *. rewrite Hd4, Hd3, Hd2, Hd1.
  split; [done|]. exists oks. split; [done|].
  rewrite !marks_app, Hm1, Hm2, Hm3, Hm4. reflexivity.
Qed.

(** The filtered batch. *)
Lemma specific_batch_runs (departamentos_nombres : list string) (w : World) :
  runs (download_specific_departamentos env departamentos_nombres) w (λ r w' evs,
    r = Ret () ∧
    match setup_driver_result env with
    | SetupRaisesBeforeDriver _ => marks evs = if driver w then [Release] else []
    | SetupRaisesAfterDriver _ => marks evs = session []
    | SetupOk =>
        if navigate_result env then
          let seleccion :=
            departamentos_a_descargar (departamentos_result env) departamentos_nombres in
          ∃ oks, length oks = length seleccion ∧
            marks evs = session (paced_after_each (attempts seleccion oks))
        else marks evs = session []
    end).
Proof. exact (specific_batch_runs_con Str.lower departamentos_nombres w). Qed.

End Runs.

(** The driver is quit at the end of a session that did no region work. *)
Ltac quit_idle := apply quit_runs; (split; [done|]); split; [idle_parts|].

(** ** The claims about the batches *)

(** [x ∉ [a; b; ...]] when [x] differs from each by its constructor. *)
Ltac absent :=
  let H := fresh "H" in
  intros H; repeat (apply elem_of_cons in H as [H|H]; [discriminate H|]);
  by apply elem_of_nil in H.

Lemma work_only_nil : work_only [].
Proof. split; absent. Qed.

Lemma work_only_app (ms1 ms2 : list mark) :
  work_only ms1 → work_only ms2 → work_only (ms1 ++ ms2).
Proof. unfold work_only. rewrite !elem_of_app. tauto. Qed.

Lemma work_only_attempt (d : Region) (ok : bool) : work_only (attempt_marks d ok).
Proof. unfold work_only, attempt_marks. destruct ok; split; absent. Qed.

Lemma work_only_pace : work_only [Pace].
Proof. split; absent. Qed.

Lemma work_only_between (departamentos : list Region) (oks : list bool) :
  work_only (paced_between (attempts departamentos oks)).
Proof.
  unfold attempts. revert oks.
  induction departamentos as [|d rest IH]; intros [|ok oks]; try apply work_only_nil.
  cbn [zip_with paced_between]. specialize (IH oks).
  destruct (zip_with attempt_marks rest oks) as [|b bs]; [apply work_only_attempt|].
  apply work_only_app; [apply work_only_attempt|].
  apply (work_only_app [Pace]); [apply work_only_pace | exact IH].
Qed.

Lemma work_only_after_each (departamentos : list Region) (oks : list bool) :
  work_only (paced_after_each (attempts departamentos oks)).
Proof.
  unfold attempts, paced_after_each. revert oks.
  induction departamentos as [|d rest IH]; intros [|ok oks]; try apply work_only_nil.
  cbn [zip_with List.map concat].
  apply work_only_app; [|apply IH].
  apply work_only_app; [apply work_only_attempt | apply work_only_pace].
Qed.

Lemma released_once_session (dr : bool) (body : list mark) :
  work_only body → released_once dr (session body).
Proof.
  intros Hbody. split; [by eauto|]. intros Hno. exfalso. apply Hno. apply list_elem_of_here.
Qed.

Lemma released_once_leftover (dr : bool) :
  released_once dr (if dr then [Release] else []).
Proof.
  split.
  - destruct dr; intros H; exfalso; revert H; absent.
  - intros _ ->. absent.
Qed.

(** C9.  Both batches return normally, and in each of them: if the run
    acquired a session, its marks are the acquisition, then region work,
    then one release as the last mark, on every path (setup raising after
    the driver exists, navigation failing, empty catalog, no matching name,
    any outcome of the attempts); if the run acquired none and none was set
    before, nothing is released. *)
Theorem session_released_once (env : Env) (departamentos_nombres : list string) (w : World) :
  ∃ w_all w_sel,
    download_all_departamentos env w = Some (Ret (), w_all) ∧
    download_specific_departamentos env departamentos_nombres w = Some (Ret (), w_sel) ∧
    released_once (driver w) (marks (events_since w w_all)) ∧
    released_once (driver w) (marks (events_since w w_sel)).
Proof.
  destruct (all_batch_runs env w) as (r1 & w1 & evs1 & Hrun1 & Ht1 & -> & H1).
  destruct (specific_batch_runs env departamentos_nombres w)
    as (r2 & w2 & evs2 & Hrun2 & Ht2 & -> & H2).
  exists w1, w2. rewrite (events_since_app _ _ _ Ht1), (events_since_app _ _ _ Ht2).
  split; [done|]. split; [done|].
  destruct (setup_driver_result env) as [|e|e].
  - destruct (navigate_result env).
    + destruct H1 as (oks1 & _ & -> & _). cbn zeta in H2. destruct H2 as (oks2 & _ & ->).
      split; apply released_once_session;
        [apply work_only_between | apply work_only_after_each].
    + rewrite H1, H2. split; apply released_once_session, work_only_nil.
  - rewrite H1, H2. split; apply released_once_leftover.
  - rewrite H1, H2. split; apply released_once_session, work_only_nil.
Qed.

Lemma no_match_filter (lower : string → string) (todos_departamentos : list Region)
    (departamentos_nombres : list string) :
  (∀ d n, d ∈ todos_departamentos → n ∈ departamentos_nombres →
          lower (nombre d) ≠ lower n) →
  departamentos_a_descargar_con lower todos_departamentos departamentos_nombres = [].
Proof.
  intros H. unfold departamentos_a_descargar_con.
  induction todos_departamentos as [|d rest IH]; [done|]. cbn [List.filter].
  destruct (existsb (String.eqb (lower (nombre d))) (List.map lower departamentos_nombres))
    eqn:E.
  - apply existsb_exists in E as (x & Hx & Heq%String.eqb_eq).
    apply in_map_iff in Hx as (n & Hn & Hin%list_elem_of_In).
    exfalso. apply (H d n); [apply list_elem_of_here | done | congruence].
  - apply IH. intros d' n Hd'. apply H. by apply list_elem_of_further.
Qed.

(** C8.  Whatever function [lower] the comparison of the names goes
    through: when no name of the caller's list equals, under [lower], the
    name of a department of the catalog, the filtered batch returns without
    any region work.  It takes no browser step on a region and makes no
    filesystem call; among its marks there is no attempt and no outcome,
    only the start and the end of the session; it logs no summary.  When
    the catalog was retrieved, the run ends right after it: the dropdown is
    read, its size is logged, then the line that nothing matched, and the
    driver is quit. *)
Theorem no_match_aborts_batch (lower : string → string) (env : Env)
    (departamentos_nombres : list string) (w : World) :
  (∀ d n, d ∈ departamentos_result env → n ∈ departamentos_nombres →
          lower (nombre d) ≠ lower n) →
  ∃ w',
    download_specific_departamentos_con env lower departamentos_nombres w
      = Some (Ret (), w') ∧
    browser_steps (events_since w w') = [] ∧
    os_calls (events_since w w') = [] ∧
    (∀ m, m ∈ marks (events_since w w') → m = Acquire ∨ m = Release) ∧
    tally_lines (events_since w w') = [] ∧
    (setup_driver_result env = SetupOk → navigate_result env = true →
     departamentos_result env ≠ [] →
     ∃ evs0, events_since w w' =
       (evs0 ++ [ReadDropdown; Log (SeEncontraron (length (departamentos_result env)));
                 Log NoSeEncontraronCoincidencias; DriverQuit])%list).
Proof.
  intros Hsel%no_match_filter.
  cut (runs (download_specific_departamentos_con env lower departamentos_nombres) w
         (λ r w' evs, r = Ret () ∧ idle evs ∧
            (setup_driver_result env = SetupOk → navigate_result env = true →
             departamentos_result env ≠ [] →
             ∃ evs0, evs =
               (evs0 ++ [ReadDropdown; Log (SeEncontraron (length (departamentos_result env)));
                         Log NoSeEncontraronCoincidencias; DriverQuit])%list))).
  { intros (r & w' & evs & Hrun & Ht & -> & (H1 & H2 & H3 & H4) & H5). exists w'.
    rewrite (events_since_app _ _ _ Ht). split; [done|]. split; [done|]. split; [done|].
    split; [by apply Forall_forall|]. by split. }
  unfold download_specific_departamentos_con.
  apply runs_try_finally, runs_try_except, runs_bind.
  eapply runs_mono; [apply setup_idle|]. intros r w1 evs1 (Hi1 & _ & _ & Hsetup).
  destruct (setup_driver_result env) as [|e|e]; destruct Hsetup as (-> & Hd1).
  2,3: cbn [is_Exception]; apply runs_log; quit_idle; intros Hno; discriminate Hno.
  apply runs_bind. eapply runs_mono; [apply navigate_runs|].
  intros r w2 evs2 (-> & Hd2 & Hi2%no_work_idle & _).
  destruct (navigate_result env); cbn [negb].
  2:{ apply runs_log. quit_idle. intros _ Hno. discriminate Hno. }
  apply runs_bind. eapply runs_mono; [apply catalog_runs|].
  intros r w3 evs3 (-> & Hd3 & l & -> & Hl).
  destruct (catalog_no_work _ _ Hl) as [Hi3%no_work_idle _].
  destruct (departamentos_result env) as [|d rest] eqn:Edeps.
  { apply runs_log. quit_idle. intros _ _ Hno. by destruct Hno. }
  cbn zeta. rewrite Hsel.
  apply runs_log. quit_idle.
  intros _ _ _. cbn [traced driver]. rewrite Hd3, Hd2, Hd1.
  destruct Hl as [->|[Hl _]]; [|discriminate Hl].
  exists (evs1 ++ evs2)%list. by rewrite <- !app_assoc.
Qed.

Lemma no_match_aborts_batch_witness :
  ∃ w',
    download_specific_departamentos_con BatchScenario.two_regions Str.lower ["Narnia"]
      BatchScenario.start = Some (Ret (), w') ∧
    browser_steps (events_since BatchScenario.start w') = [] ∧
    os_calls (events_since BatchScenario.start w') = [] ∧
    (∀ m, m ∈ marks (events_since BatchScenario.start w') → m = Acquire ∨ m = Release) ∧
    tally_lines (events_since BatchScenario.start w') = [] ∧
    (setup_driver_result BatchScenario.two_regions = SetupOk →
     navigate_result BatchScenario.two_regions = true →
     departamentos_result BatchScenario.two_regions ≠ [] →
     ∃ evs0, events_since BatchScenario.start w' =
       (evs0 ++ [ReadDropdown;
                 Log (SeEncontraron (length (departamentos_result BatchScenario.two_regions)));
                 Log NoSeEncontraronCoincidencias; DriverQuit])%list).
Proof.
  apply (no_match_aborts_batch Str.lower BatchScenario.two_regions ["Narnia"]
           BatchScenario.start).
  intros d n Hd Hn.
  apply elem_of_cons in Hn as [->|Hn]; [|by apply elem_of_nil in Hn].
  apply elem_of_cons in Hd as [->|Hd]; [vm_compute; discriminate|].
  apply elem_of_cons in Hd as [->|Hd]; [vm_compute; discriminate|].
  by apply elem_of_nil in Hd.
Defined.



(** The filtered batch keeps no counters of its own.  The catalog has two
    departments and the caller names both; the first attempt succeeds, the
    second fails.  Both are attempted and both outcomes are logged by the
    attempts, but the filtered batch logs no summary, where the full batch
    on the same input logs one success and one failure. *)
Lemma filtered_batch_logs_no_summary :
  fst <$> BatchScenario.filtered = Some (Ret ()) ∧
  fst <$> BatchScenario.full = Some (Ret ()) ∧
  List.filter is_work (marks (BatchScenario.events_of BatchScenario.filtered))
    = [Attempt BatchScenario.antioquia; Succeeded "Antioquia";
       Attempt BatchScenario.atlantico; Failed "Atlantico"] ∧
  tally_lines (BatchScenario.events_of BatchScenario.filtered) = [] ∧
  tally_lines (BatchScenario.events_of BatchScenario.full) = [(1%nat, 1%nat)].
Proof.
  split; [vm_compute; reflexivity|]. split; [vm_compute; reflexivity|].
  split; [vm_compute; reflexivity|]. split; vm_compute; reflexivity.
Qed.

(** C7 at a failing input.  On the same input the filtered batch sleeps
    three seconds after each attempt, the last one included, and then
    releases the session; the full batch sleeps between the two attempts
    only. *)
Theorem filtered_batch_paces_after_last :
  fst <$> BatchScenario.filtered = Some (Ret ()) ∧
  marks (BatchScenario.events_of BatchScenario.filtered)
    = [Acquire; Attempt BatchScenario.antioquia; Succeeded "Antioquia"; Pace;
       Attempt BatchScenario.atlantico; Failed "Atlantico"; Pace; Release] ∧
  marks (BatchScenario.events_of BatchScenario.full)
    = [Acquire; Attempt BatchScenario.antioquia; Succeeded "Antioquia"; Pace;
       Attempt BatchScenario.atlantico; Failed "Atlantico"; Release] ∧
  (let evs := BatchScenario.events_of BatchScenario.filtered in
   drop (length evs - 3) evs = [Log (TimeoutProcesando "Atlantico"); Sleep 3; DriverQuit]).
Proof.
  split; [vm_compute; reflexivity|]. split; [vm_compute; reflexivity|].
  split; vm_compute; reflexivity.
Qed.









(** * Beyond the claims *)

(** ** The name of the artifact (lines 193-194) *)

Module ExtFacts.
Import Str StrFacts.

Lemma lower_ascii_dot (c : ascii) : lower_ascii c = "."%char → c = "."%char.
Proof.
  destruct c as [[] [] [] [] [] [] [] []]; vm_compute; intros H; first [reflexivity | discriminate H].
Qed.

Lemma lower_ascii_not_dot (c x : ascii) :
  lower_ascii c = x → x ≠ "."%char → Ascii.eqb c "." = false.
Proof.
  intros H Hx. apply Ascii.eqb_neq. intros ->. apply Hx. rewrite <- H. reflexivity.
Qed.

Lemma lower_app_inv (s a b : string) :
  lower s = a ++ b → ∃ s1 s2, s = s1 ++ s2 ∧ lower s1 = a ∧ lower s2 = b.
Proof.
  revert s. induction a as [|x a IH]; intros s H.
  - exists "", s. by rewrite append_nil in H.
  - destruct s as [|c s]; rewrite append_cons in H; cbn [lower] in H; [discriminate|].
    injection H as Hc H. destruct (IH s H) as (s1 & s2 & -> & H1 & H2).
    exists (String c s1), s2. cbn [lower]. by rewrite Hc, H1.
Qed.

(** A dot followed by characters that are not dots is where the name is
    cut. *)
Lemma split_last_dot_app (root rest : string) :
  split_last_dot rest = None →
  split_last_dot (root ++ String "." rest) = Some (root, String "." rest).
Proof.
  intros Hrest. induction root as [|c root IH]; rewrite ?append_nil, ?append_cons.
  - cbn [split_last_dot]. by rewrite Hrest.
  - cbn [split_last_dot]. by rewrite IH.
Qed.

(** The extension of a name whose lower case is ".xls" or ".xlsx" after a
    root: the suffix itself, in the case the name has it. *)
Lemma spreadsheet_suffix (s : string) :
  endswith_any (lower s) [".xls"; ".xlsx"] = true →
  ∃ root ext, s = root ++ ext ∧ (lower ext = ".xls" ∨ lower ext = ".xlsx") ∧
              split_last_dot s = Some (root, ext).
Proof.
  cbn [endswith_any existsb]. rewrite orb_false_r, orb_true_iff, !endswith_spec.
  intros [[t H]|[t H]]; apply lower_app_inv in H as (root & ext & -> & _ & Hext);
    exists root, ext; (split; [done|]).
  - split; [by left|].
    destruct ext as [|c0 [|c1 [|c2 [|c3 [|]]]]]; try discriminate Hext.
    cbn [lower] in Hext. injection Hext as H0 H1 H2 H3.
    apply lower_ascii_dot in H0 as ->. apply split_last_dot_app. cbn [split_last_dot].
    rewrite (lower_ascii_not_dot _ _ H1), (lower_ascii_not_dot _ _ H2),
      (lower_ascii_not_dot _ _ H3) by discriminate. reflexivity.
  - split; [by right|].
    destruct ext as [|c0 [|c1 [|c2 [|c3 [|c4 [|]]]]]]; try discriminate Hext.
    cbn [lower] in Hext. injection Hext as H0 H1 H2 H3 H4.
    apply lower_ascii_dot in H0 as ->. apply split_last_dot_app. cbn [split_last_dot].
    rewrite (lower_ascii_not_dot _ _ H1), (lower_ascii_not_dot _ _ H2),
      (lower_ascii_not_dot _ _ H3), (lower_ascii_not_dot _ _ H4) by discriminate. reflexivity.
Qed.

End ExtFacts.

(** X4.  The extension a found file hands to its artifact.  A file that passes
    the test is a root followed by ".xls" or ".xlsx" in some mix of cases;
    [os.path.splitext] gives that suffix as it is written, so the artifact
    is the department name followed by it, unless the root is empty or
    made of dots only (".xls", "..XLSX"): then the extension is empty and
    the artifact is the bare department name. *)
Theorem artifact_extension (archivo : string) :
  qualifies archivo = true →
  ∃ root ext,
    archivo = root ++ ext ∧
    (Str.lower ext = ".xls" ∨ Str.lower ext = ".xlsx") ∧
    Str.splitext archivo = if Str.all_dots root then (archivo, "") else (root, ext).
Proof.
  intros Hq. unfold qualifies in Hq. apply andb_true_iff in Hq as [Hq _].
  apply andb_true_iff in Hq as [Hq _].
  destruct (ExtFacts.spreadsheet_suffix _ Hq) as (root & ext & Hs & Hext & Hsplit).
  exists root, ext. split; [done|]. split; [done|].
  unfold Str.splitext. by rewrite Hsplit.
Qed.

Lemma artifact_extension_witness :
  ∃ root ext,
    "Reporte.Final.XLS" = root ++ ext ∧
    (Str.lower ext = ".xls" ∨ Str.lower ext = ".xlsx") ∧
    Str.splitext "Reporte.Final.XLS"
      = if Str.all_dots root then ("Reporte.Final.XLS", "") else (root, ext).
Proof. apply (artifact_extension "Reporte.Final.XLS"). reflexivity. Defined.

(** ** The wait, in time *)

Lemma slept_sleeps (k : nat) : slept (replicate k (Sleep 1)) = Z.of_nat k.
Proof. unfold slept. induction k as [|k IH]; cbn [replicate foldr]; lia. Qed.

Lemma rename_events_quiet (evs : list event) :
  forallb is_rename_event evs = true → slept evs = 0 ∧ browser_steps evs = [].
Proof.
  unfold slept, browser_steps. induction evs as [|e evs IH]; [done|].
  cbn [forallb foldr omap]. intros [He Hevs]%andb_true_iff.
  destruct (IH Hevs) as [IH1 IH2]. destruct e; try discriminate He; by rewrite ?IH1, ?IH2.
Qed.

Lemma rename_found_events (env : Env) (departamento_nombre : string) (o : option string)
    (w : World) :
  ∃ b d' evs,
    rename_found env departamento_nombre o w
      = Some (Ret b, mkWorld d' (clock w) (driver w) (trace w ++ evs)) ∧
    forallb is_rename_event evs = true.
Proof.
  destruct (truthy o) eqn:Et.
  2:{ rewrite rename_found_falsy by done. by eexists _, _, _. }
  destruct o as [src|]; [|discriminate]. cbn [truthy] in Et.
  apply negb_true_iff, String.eqb_neq in Et.
  destruct (dir w) as [d|] eqn:Ed.
  - rewrite (rename_found_Some env _ _ _ d) by done. unfold rename_step, moved.
    repeat case_match; by eexists _, _, _.
  - rewrite rename_found_nodir by done. by eexists _, _, _.
Qed.

(** What every run of the wait comes to: a boolean after [k] one-second
    sleeps and the events of the rename. *)
Lemma wait_summary (env : Env) (departamento_nombre : string) (timeout : Z) (w : World) :
  ∃ b k d' evs,
    wait_for_download_and_rename env departamento_nombre timeout w
      = Some (Ret b, mkWorld d' (clock w + Z.of_nat k) (driver w)
                             (trace w ++ replicate k (Sleep 1) ++ evs)) ∧
    (k ≤ Z.to_nat timeout)%nat ∧ forallb is_rename_event evs = true ∧
    (b = true →
     (k < Z.to_nat timeout)%nat ∧
     ∃ src, (src ∉ snapshot_names w) ∧
            Rename src (departamento_nombre ++ (Str.splitext src).2) ∈ os_done evs ∧
            is_Some (entry (departamento_nombre ++ (Str.splitext src).2) d')).
Proof.
  destruct (watch_spec env timeout w) as (r1 & k & Hwatch & Hk & Hr).
  rewrite (wait_unfold env _ _ _ _ _ Hwatch).
  destruct r1 as [o|e].
  2:{ exists false, k, (dir (after env w k)),
        [Log (ErrorEsperandoDescarga departamento_nombre e)].
      split; [unfold traced, after; cbn [dir clock driver trace]; by rewrite <- app_assoc|].
      done. }
  destruct (rename_found_events env departamento_nombre o (after env w k))
    as (b & d' & evs & Hrun & Hevs).
  exists b, k, d', evs. rewrite Hrun.
  split; [unfold after; cbn [clock driver trace]; by rewrite <- app_assoc|].
  split; [done|]. split; [done|]. intros ->.
  destruct o as [src|]; [|rewrite rename_found_None in Hrun; discriminate Hrun].
  destruct (watch_found env _ _ _ _ Hwatch) as (k' & d & c & _ & _ & Hd & Hc & Hnew & Hq).
  destruct (rename_found_effects env departamento_nombre src (after env w k) d
              (qualifies_nonempty _ Hq) Hd) as (b & d2 & evs2 & l & Hren & _ & _ & Hb).
  rewrite Hren in Hrun. unfold moved in Hrun. injection Hrun as -> Hd' Hevs2.
  apply app_inv_head in Hevs2 as <-.
  destruct Hb as (-> & _ & _ & (c0 & _ & Hd2) & ->). split.
  - destruct (snapshot env w) as [antes|e] eqn:Es; [|by destruct Hr].
    apply snapshot_Ret in Es as ->. by destruct Hr as [_ [Hlt _]].
  - exists src. split; [done|]. split.
    + unfold os_done. rewrite !omap_app, !elem_of_app. left. right. apply list_elem_of_here.
    + rewrite <- Hd', Hd2. cbn [entry mbind option_bind]. rewrite lookup_insert_eq. by eexists.
Qed.

(** X5.  How long the wait lasts.  Every run returns after [k] one-second sleeps
    with [k] at most the timeout, and sleeps at no other moment.  A run that
    returns [True] found its file before the timeout was used up: what
    arrives during the last of [timeout] sleeps is never looked at.  So
    with a timeout of zero or less the result is [False], at once. *)
Theorem wait_lasts_at_most_timeout (env : Env) (departamento_nombre : string) (timeout : Z)
    (w : World) :
  ∃ b w' k,
    wait_for_download_and_rename env departamento_nombre timeout w = Some (Ret b, w') ∧
    clock w' = clock w + Z.of_nat k ∧ slept (events_since w w') = Z.of_nat k ∧
    (k ≤ Z.to_nat timeout)%nat ∧
    (b = true → (k < Z.to_nat timeout)%nat) ∧
    (timeout ≤ 0 → b = false ∧ k = 0%nat).
Proof.
  destruct (wait_summary env departamento_nombre timeout w)
    as (b & k & d' & evs & Hrun & Hk & Hevs & Hb).
  eexists b, _, k. split; [exact Hrun|]. split; [done|].
  apply rename_events_quiet in Hevs as [Hs _].
  split.
  { rewrite (events_since_app w _ (replicate k (Sleep 1) ++ evs)) by done.
    rewrite slept_app, slept_sleeps, Hs. lia. }
  split; [done|]. split; [intros Ht; by destruct (Hb Ht) as [? _]|].
  intros Ht. split; [|lia]. destruct b; [|done]. destruct (Hb eq_refl) as [? _]. lia.
Qed.

(** X6.  A file is found at its first sighting.  If the listing works up to the
    pass [j0] (counted from 0, before the timeout), no new file passes the
    test in the passes before it and one does in pass [j0], then the loop
    ends in that pass, after exactly [j0] sleeps, with a new file of that
    listing that passes the test; the function returns [j0] seconds after
    its call, whatever the rename does. *)
Theorem found_at_first_sighting (env : Env) (departamento_nombre : string) (timeout : Z)
    (w : World) (j0 : nat) (d0 : Dir) (f : string) :
  (j0 < Z.to_nat timeout)%nat →
  (∀ j : nat, (j ≤ j0)%nat → listdir_refused env (clock w + Z.of_nat j) = false) →
  (∀ (j : nat) (d : Dir) (g : string),
     (j < j0)%nat → drift env (clock w) j (dir w) = Some d →
     g ∈ dom d → g ∉ snapshot_names w → qualifies g = false) →
  drift env (clock w) j0 (dir w) = Some d0 →
  f ∈ dom d0 → f ∉ snapshot_names w → qualifies f = true →
  ∃ g b w',
    watch env timeout w = Some (Ret (Some g), after env w j0) ∧
    g ∈ dom d0 ∧ (g ∉ snapshot_names w) ∧ qualifies g = true ∧
    wait_for_download_and_rename env departamento_nombre timeout w = Some (Ret b, w') ∧
    clock w' = clock w + Z.of_nat j0.
Proof.
  intros Hj0 Hlist Hnone Hd0 Hf Hnew Hq.
  destruct (watch_spec env timeout w) as (r & k & Hwatch & Hk & Hr).
  assert (Hsnap : snapshot env w = Ret (snapshot_names w)).
  { unfold snapshot, snapshot_names. destruct (dir w); [|done].
    specialize (Hlist 0%nat ltac:(lia)). rewrite Z.add_0_r in Hlist. by rewrite Hlist. }
  rewrite Hsnap in Hr. destruct Hr as [Hbefore Hr].
  assert (Hobs0 : ∃ g, observe env (snapshot_names w) (clock w + Z.of_nat j0)
                         (drift env (clock w) j0 (dir w)) = Ret (Some g)).
  { unfold observe. rewrite Hd0, Hlist by lia.
    destruct (first_qualifying (dom d0 ∖ snapshot_names w)) as [g|] eqn:Eg; [by eauto|].
    rewrite first_qualifying_None in Eg. rewrite (Eg f) in Hq; [discriminate|].
    by apply elem_of_difference. }
  assert (Hquiet : ∀ j, (j < j0)%nat →
            observe env (snapshot_names w) (clock w + Z.of_nat j)
              (drift env (clock w) j (dir w)) = Ret None).
  { intros j Hj. unfold observe. destruct (drift env (clock w) j (dir w)) as [d|] eqn:Ed; [|done].
    rewrite Hlist by lia. f_equal. apply first_qualifying_None.
    intros g [Hg1 Hg2]%elem_of_difference. by apply (Hnone j d g). }
  assert (k = j0) as ->.
  { destruct (Nat.lt_trichotomy k j0) as [Hlt|[->|Hgt]]; [|done|].
    - rewrite (Hquiet k Hlt) in Hr. destruct r as [[g|]|e]; [by destruct Hr|lia|by destruct Hr].
    - destruct Hobs0 as [g Hg]. rewrite (Hbefore j0 Hgt) in Hg. discriminate. }
  destruct Hobs0 as [g Hg]. rewrite Hg in Hr.
  destruct r as [[g'|]|e]; [|lia|by destruct Hr]. destruct Hr as [_ [= ->]].
  apply observe_found in Hg as (d & Hd & Hin & Hgnew & Hgq).
  rewrite Hd0 in Hd. injection Hd as <-.
  destruct (rename_found_events env departamento_nombre (Some g') (after env w j0))
    as (b & d' & evs & Hrun & _).
  exists g', b. eexists. split; [done|]. split; [by apply elem_of_dom|].
  split; [done|]. split; [done|].
  rewrite (wait_unfold env _ _ _ _ _ Hwatch). split; [exact Hrun|]. reflexivity.
Qed.

Lemma found_at_first_sighting_witness :
  ∃ g b w',
    watch (Scenario.download_arrives (λ _, false)) 5 Scenario.start
      = Some (Ret (Some g), after (Scenario.download_arrives (λ _, false)) Scenario.start 2) ∧
    g ∈ dom (({[ "RegionX.xls" := "stale"; "notes.txt" := "n"; "tmp123.xls" := "fresh" ]})
             : gmap string string) ∧
    (g ∉ snapshot_names Scenario.start) ∧ qualifies g = true ∧
    wait_for_download_and_rename (Scenario.download_arrives (λ _, false)) "RegionX" 5
      Scenario.start = Some (Ret b, w') ∧
    clock w' = clock Scenario.start + Z.of_nat 2.
Proof.
  apply (found_at_first_sighting (Scenario.download_arrives (λ _, false)) "RegionX" 5
           Scenario.start 2
           {[ "RegionX.xls" := "stale"; "notes.txt" := "n"; "tmp123.xls" := "fresh" ]}
           "tmp123.xls").
  - vm_compute. lia.
  - reflexivity.
  - intros j d g Hj. destruct j as [|[|j]]; [| |lia]; cbn; intros [= <-] Hin Hnew; done.
  - vm_compute. reflexivity.
  - vm_compute. reflexivity.
  - vm_compute. intros H. discriminate H.
  - reflexivity.
Defined.

(** X7.  A download named like its artifact is lost.  When the file the loop
    found already has the target name (the department name followed by its
    own extension) and the operating system lets it be removed, line 200
    sees it as the old artifact: it is removed, the rename finds nothing to
    rename, the function returns [False], and the name is gone from the
    directory. *)
Theorem download_named_like_artifact_is_deleted (env : Env) (departamento_nombre : string)
    (timeout : Z) (w w1 : World) (src : string) :
  watch env timeout w = Some (Ret (Some src), w1) →
  src = departamento_nombre ++ (Str.splitext src).2 →
  os_refuses env (Remove src) = false →
  ∃ w',
    wait_for_download_and_rename env departamento_nombre timeout w = Some (Ret false, w') ∧
    entry src (dir w1) ≠ None ∧ entry src (dir w') = None ∧
    events_since w1 w' =
      [OsCall (Remove src) None; Log (ArchivoExistenteEliminado src);
       OsCall (Rename src src) (Some FileNotFoundError);
       Log (ErrorRenombrando FileNotFoundError)].
Proof.
  intros Hwatch Hname Hrm.
  destruct (watch_found env _ _ _ _ Hwatch) as (k & d & c & -> & _ & Hd & Hc & _ & Hq).
  rewrite (wait_unfold env _ _ _ _ _ Hwatch).
  rewrite (rename_found_Some env _ _ _ d (qualifies_nonempty _ Hq) Hd).
  cbn zeta. rewrite <- Hname, Hc. unfold rename_step, os_apply.
  rewrite Hc, Hrm, lookup_delete_eq. eexists. split; [reflexivity|].
  rewrite Hd. cbn [entry mbind option_bind moved dir]. rewrite Hc, lookup_delete_eq.
  split; [done|]. split; [done|].
  unfold events_since, moved. cbn [trace]. by rewrite drop_app_length.
Qed.

Lemma download_named_like_artifact_is_deleted_witness :
  ∃ w',
    wait_for_download_and_rename Scenario.same_name_arrives "RegionY" 5 Scenario.start
      = Some (Ret false, w') ∧
    entry "RegionY.xls" (dir (after Scenario.same_name_arrives Scenario.start 2)) ≠ None ∧
    entry "RegionY.xls" (dir w') = None ∧
    events_since (after Scenario.same_name_arrives Scenario.start 2) w' =
      [OsCall (Remove "RegionY.xls") None; Log (ArchivoExistenteEliminado "RegionY.xls");
       OsCall (Rename "RegionY.xls" "RegionY.xls") (Some FileNotFoundError);
       Log (ErrorRenombrando FileNotFoundError)].
Proof.
  apply (download_named_like_artifact_is_deleted Scenario.same_name_arrives "RegionY" 5
           Scenario.start (after Scenario.same_name_arrives Scenario.start 2) "RegionY.xls").
  - vm_compute. reflexivity.
  - reflexivity.
  - reflexivity.
Defined.

(** X8.  A listing error ends the wait.  If [os.listdir] raises in the pass
    [j] (counted from 0, before the timeout) and nothing was found in the
    passes before it, the wait ends there: it returns [False] after [j]
    sleeps, logs the error as its last line and calls nothing on the file
    system.  For [j = 0] the listing that raises is the snapshot's. *)
Theorem listing_error_ends_the_wait (env : Env) (departamento_nombre : string) (timeout : Z)
    (w : World) (j : nat) (d0 : Dir) :
  (j < Z.to_nat timeout)%nat →
  (∀ i : nat, (i < j)%nat → listdir_refused env (clock w + Z.of_nat i) = false) →
  (∀ (i : nat) (d : Dir) (g : string),
     (i < j)%nat → drift env (clock w) i (dir w) = Some d →
     g ∈ dom d → g ∉ snapshot_names w → qualifies g = false) →
  drift env (clock w) j (dir w) = Some d0 →
  listdir_refused env (clock w + Z.of_nat j) = true →
  wait_for_download_and_rename env departamento_nombre timeout w
  = Some (Ret false,
          traced (after env w j) [Log (ErrorEsperandoDescarga departamento_nombre PermissionError)]).
Proof.
  intros Hj Hlist Hnone Hd0 Hrefused.
  destruct (watch_spec env timeout w) as (r & k & Hwatch & Hk & Hr).
  assert (Hobs : observe env (snapshot_names w) (clock w + Z.of_nat j)
                   (drift env (clock w) j (dir w)) = Raise PermissionError).
  { unfold observe. by rewrite Hd0, Hrefused. }
  destruct j as [|j'].
  { cbn [drift] in Hd0. rewrite Z.add_0_r in Hrefused.
    unfold snapshot in Hr. rewrite Hd0, Hrefused in Hr. destruct Hr as [-> ->].
    by rewrite (wait_unfold env _ _ _ _ _ Hwatch). }
  set (j := S j') in *.
  assert (Hsnap : snapshot env w = Ret (snapshot_names w)).
  { unfold snapshot, snapshot_names. destruct (dir w); [|done].
    specialize (Hlist 0%nat ltac:(lia)). rewrite Z.add_0_r in Hlist. by rewrite Hlist. }
  rewrite Hsnap in Hr. destruct Hr as [Hbefore Hr].
  assert (Hquiet : ∀ i, (i < j)%nat →
            observe env (snapshot_names w) (clock w + Z.of_nat i)
              (drift env (clock w) i (dir w)) = Ret None).
  { intros i Hi. unfold observe. destruct (drift env (clock w) i (dir w)) as [d|] eqn:Ed; [|done].
    rewrite Hlist by lia. f_equal. apply first_qualifying_None.
    intros g [Hg1 Hg2]%elem_of_difference. by apply (Hnone i d g). }
  assert (k = j) as ->.
  { destruct (Nat.lt_trichotomy k j) as [Hlt|[->|Hgt]]; [|done|].
    - rewrite (Hquiet k Hlt) in Hr. destruct r as [[g|]|e]; [by destruct Hr|lia|by destruct Hr].
    - rewrite (Hbefore j Hgt) in Hobs. discriminate. }
  rewrite Hobs in Hr. destruct r as [[g|]|e]; [by destruct Hr|lia|].
  destruct Hr as [_ [= <-]]. by rewrite (wait_unfold env _ _ _ _ _ Hwatch).
Qed.

Lemma listing_error_ends_the_wait_witness :
  wait_for_download_and_rename ListingScenario.refused_once "RegionX" 5 Scenario.start
  = Some (Ret false,
          traced (after ListingScenario.refused_once Scenario.start 1)
            [Log (ErrorEsperandoDescarga "RegionX" PermissionError)]).
Proof.
  apply (listing_error_ends_the_wait ListingScenario.refused_once "RegionX" 5 Scenario.start 1
           {[ "RegionX.xls" := "stale"; "notes.txt" := "n" ]}).
  - vm_compute. lia.
  - intros i Hi. assert (i = 0%nat) as -> by lia. reflexivity.
  - intros i d g Hi. assert (i = 0%nat) as -> by lia. cbn. intros [= <-] Hin Hnew. done.
  - reflexivity.
  - reflexivity.
Defined.

(** ** One attempt, stage by stage (lines 279-334) *)

Lemma wait_runs_summary (env : Env) (departamento_nombre : string) (w : World) :
  runs (wait_for_download_and_rename env departamento_nombre 30) w (λ r w' evs,
    ∃ b k evs', r = Ret b ∧ evs = (replicate k (Sleep 1) ++ evs')%list ∧
      clock w' = clock w + Z.of_nat k ∧ (k ≤ 30)%nat ∧
      forallb is_rename_event evs' = true ∧
      (b = true →
         ∃ src, Rename src (departamento_nombre ++ (Str.splitext src).2) ∈ os_done evs' ∧
                is_Some (entry (departamento_nombre ++ (Str.splitext src).2) (dir w')))).
Proof.
  destruct (wait_summary env departamento_nombre 30 w)
    as (b & k & d' & evs & Hrun & Hk & Hevs & Hb).
  eexists _, _, _. split; [exact Hrun|]. split; [reflexivity|].
  exists b, k, evs. split; [done|]. split; [done|]. split; [done|].
  split; [exact Hk|]. split; [done|].
  intros Ht. destruct (Hb Ht) as [_ [src [_ [Hsrc Hart]]]].
  exists src. by split.
Qed.

Lemma browser_steps_app (evs1 evs2 : list event) :
  browser_steps (evs1 ++ evs2) = (browser_steps evs1 ++ browser_steps evs2)%list.
Proof. apply omap_app. Qed.

Lemma os_calls_app (evs1 evs2 : list event) :
  os_calls (evs1 ++ evs2) = (os_calls evs1 ++ os_calls evs2)%list.
Proof. apply omap_app. Qed.

Lemma attempt_runs_outcome (env : Env) (departamento : Region) (w : World) :
  runs (download_departamento_data env departamento) w (λ r w' evs,
    ∃ ok, r = Ret ok ∧ attempt_outcome departamento ok w' evs).
Proof.
  unfold download_departamento_data.
  assert (Hfail : ∀ (e : exn) (w1 : World) evs1,
    0 ≤ slept evs1 ≤ 3 → os_calls evs1 = [] →
    (browser_steps evs1) `prefix_of` stages →
    runs (if is_TimeoutException e
          then log (TimeoutProcesando (nombre departamento));; mret false
          else log (ErrorProcesando (nombre departamento) e);; mret false) w1
      (λ r' w' evs2, ∃ ok, r' = Ret ok ∧
         attempt_outcome departamento ok w' (evs1 ++ evs2))).
  { intros e w1 evs1 Hs Ho Hb.
    destruct (is_TimeoutException e) eqn:Ee; apply runs_bind, runs_log, runs_ret;
      exists false; (split; [done|]); unfold attempt_outcome;
      rewrite app_nil_r, slept_app, browser_steps_app, os_calls_app, Ho, app_nil_r;
      cbn [traced clock slept foldr browser_steps omap os_calls app];
      (split; [done|]); eexists; (split; [apply last_snoc|]);
      repeat split; try done; lia. }
  apply runs_try_except.
  apply runs_bind, runs_log.
  apply runs_bind, runs_browser. intros [[]|e].
  2:{ apply Hfail; cbn; [lia | done | by exists [ClickSearch; AwaitGrid; ClickExport]]. }
  apply runs_bind, runs_sleep. intros d1.
  apply runs_bind, runs_browser. intros [[]|e].
  2:{ apply Hfail; cbn; [lia | done | by exists [AwaitGrid; ClickExport]]. }
  apply runs_bind, runs_log.
  apply runs_bind, runs_browser. intros [[]|e].
  2:{ apply Hfail; cbn; [lia | done | by exists [ClickExport]]. }
  apply runs_bind, runs_sleep. intros d2.
  apply runs_bind, runs_browser. intros [[]|e].
  2:{ apply Hfail; cbn; [lia | done | by exists []]. }
  apply runs_bind, runs_log.
  apply runs_bind. eapply runs_mono; [apply wait_runs_summary|].
  intros r w' evs (b & k & evs' & -> & -> & Hc & Hk & Hevs & Hb).
  apply rename_events_quiet in Hevs as [Hs Hbs].
  unfold browser_steps in Hbs.
  destruct b; apply runs_bind, runs_log, runs_ret; eexists; (split; [reflexivity|]);
    unfold attempt_outcome, browser_steps; rewrite app_nil_r;
    rewrite !slept_app, !omap_app, slept_sleeps, Hs, Hbs, (omap_sleeps _ k 1) by done;
    cbn [traced clock slept foldr omap app];
    (split; [done|]);
    (eexists; split; [rewrite !app_comm_cons; apply last_snoc|]).
  - destruct (Hb eq_refl) as [src [Hsrc Hart]].
    split; [done|]. split; [done|]. split; [done|]. split; [lia|].
    exists src. split; [|exact Hart]. apply os_done_elem. apply os_done_elem in Hsrc.
    repeat apply list_elem_of_further. rewrite !elem_of_app. left. by right.
  - split; [done|]. split; [done|]. split; [done|]. lia.
Qed.


(** ** The batches, further *)

(** X10.  The full batch gives up without a page or a catalog.  When the driver
    was set up and either the navigation to the services page fails or the
    dropdown yields no department, the full batch does nothing on a region.
    Its events are those of the setup, those of the navigation (browser
    steps, log lines, and three seconds of sleep at most), then the reason:
    after a failed navigation the line that says so, the dropdown not even
    read; with the page, the reading of the dropdown, the line about the
    catalog and the line that no department was obtained.  Then the driver
    is quit: no attempt, no filesystem call, no pacing sleep, no summary. *)
Theorem full_batch_gives_up_early (env : Env) (w : World) :
  setup_driver_result env = SetupOk →
  navigate_result env = false ∨ departamentos_result env = [] →
  ∃ w' navegacion l,
    download_all_departamentos env w = Some (Ret (), w') ∧
    events_since w w' =
      ([Log DescargandoChromeDriver; DriverCreated; Log DriverConfigurado]
       ++ navegacion
       ++ (if navigate_result env then [ReadDropdown; Log l; Log NoSePudieronObtener]
           else [Log NoSePudoNavegar])
       ++ [DriverQuit])%list ∧
    forallb is_navigation navegacion = true ∧ 0 ≤ slept navegacion ≤ 3 ∧
    (l = SeEncontraron 0 ∨ ∃ e, l = ErrorObteniendoLista e).
Proof.
  intros Hsetup Hwhy.
  cut (runs (download_all_departamentos env) w (λ r w' evs,
         r = Ret () ∧ ∃ navegacion l,
           evs = ([Log DescargandoChromeDriver; DriverCreated; Log DriverConfigurado]
                  ++ navegacion
                  ++ (if navigate_result env
                      then [ReadDropdown; Log l; Log NoSePudieronObtener]
                      else [Log NoSePudoNavegar])
                  ++ [DriverQuit])%list ∧
           forallb is_navigation navegacion = true ∧ 0 ≤ slept navegacion ≤ 3 ∧
           (l = SeEncontraron 0 ∨ ∃ e, l = ErrorObteniendoLista e))).
  { intros (r & w' & evs & Hrun & Ht & -> & navegacion & l & Hevs & H).
    exists w', navegacion, l. by rewrite (events_since_app _ _ _ Ht). }
  unfold download_all_departamentos, setup_driver. rewrite Hsetup.
  apply runs_try_finally, runs_try_except, runs_bind.
  apply runs_bind, runs_log, runs_bind.
  eexists (Ret ()), _, [DriverCreated]. split; [reflexivity|]. split; [reflexivity|].
  apply runs_log.
  apply runs_bind. eapply runs_mono; [apply navigate_runs|].
  intros r w2 evs2 (-> & Hd2 & _ & Hs2 & Hnav). cbn [driver traced] in Hd2.
  destruct (navigate_result env) eqn:En; cbn [negb].
  2:{ apply runs_log, quit_runs. cbn [driver traced]. rewrite Hd2.
      split; [done|]. exists evs2, (SeEncontraron 0).
      split; [by rewrite <- !app_assoc|]. by eauto. }
  destruct Hwhy as [Hwhy|Hwhy]; [discriminate Hwhy|].
  apply runs_bind. eapply runs_mono; [apply catalog_runs|].
  intros r w3 evs3 (-> & Hd3 & l & -> & Hl). rewrite Hwhy in *.
  apply runs_log, quit_runs. cbn [driver traced]. rewrite Hd3, Hd2.
  split; [done|]. exists evs2, l. split; [by rewrite <- !app_assoc|].
  split; [done|]. split; [done|]. destruct Hl as [->|[_ Hl]]; by eauto.
Qed.

Lemma full_batch_gives_up_early_witness :
  ∃ w' navegacion l,
    download_all_departamentos Scenario.quiet Scenario.start = Some (Ret (), w') ∧
    events_since Scenario.start w' =
      ([Log DescargandoChromeDriver; DriverCreated; Log DriverConfigurado]
       ++ navegacion
       ++ (if navigate_result Scenario.quiet
           then [ReadDropdown; Log l; Log NoSePudieronObtener]
           else [Log NoSePudoNavegar])
       ++ [DriverQuit])%list ∧
    forallb is_navigation navegacion = true ∧ 0 ≤ slept navegacion ≤ 3 ∧
    (l = SeEncontraron 0 ∨ ∃ e, l = ErrorObteniendoLista e).
Proof.
  apply (full_batch_gives_up_early Scenario.quiet Scenario.start).
  - reflexivity.
  - right. reflexivity.
Defined.



(** ** The filter of the filtered batch (lines 407-410) *)

Lemma matches_spec (x : string) (departamentos_nombres : list string) :
  existsb (String.eqb x) (List.map Str.lower departamentos_nombres) = true
  ↔ ∃ n, n ∈ departamentos_nombres ∧ x = Str.lower n.
Proof.
  rewrite existsb_exists. split.
  - intros (y & Hy & Heq%String.eqb_eq). apply in_map_iff in Hy as (n & <- & Hn).
    exists n. split; [by apply list_elem_of_In | done].
  - intros (n & Hn & ->). exists (Str.lower n). split; [|apply String.eqb_refl].
    apply in_map_iff. exists n. split; [done | by apply list_elem_of_In].
Qed.

(** X12.  Only the lower-cased set of names counts.  Two lists of names with the
    same lower-cased members select the same departments: the case of the
    letters, the order of the names and repetitions make no difference. *)
Theorem selection_ignores_case_order_repeats (todos_departamentos : list Region)
    (nombres1 nombres2 : list string) :
  (∀ x, x ∈ List.map Str.lower nombres1 ↔ x ∈ List.map Str.lower nombres2) →
  departamentos_a_descargar todos_departamentos nombres1
  = departamentos_a_descargar todos_departamentos nombres2.
Proof.
  intros Hsame. unfold departamentos_a_descargar, departamentos_a_descargar_con.
  apply filter_ext. intros d.
  apply eq_true_iff_eq. rewrite !existsb_exists.
  split; intros (y & Hy & Heq); exists y; (split; [|done]);
    apply list_elem_of_In, Hsame, list_elem_of_In, Hy.
Qed.

Lemma selection_ignores_case_order_repeats_witness :
  departamentos_a_descargar [BatchScenario.antioquia; BatchScenario.atlantico]
    ["ATLANTICO"; "antioquia"; "Atlantico"]
  = departamentos_a_descargar [BatchScenario.antioquia; BatchScenario.atlantico]
      ["Antioquia"; "atlantico"].
Proof.
  apply selection_ignores_case_order_repeats. intros x. cbn [List.map].
  rewrite !elem_of_cons, !elem_of_nil.
  change (Str.lower "ATLANTICO") with "atlantico".
  change (Str.lower "antioquia") with "antioquia".
  change (Str.lower "Atlantico") with "atlantico".
  change (Str.lower "Antioquia") with "antioquia".
  change (Str.lower "atlantico") with "atlantico". tauto.
Defined.

(** X13.  Naming the whole catalog selects the whole catalog: the filtered batch
    called with the names of all departments works on the same list as the
    full batch. *)
Theorem selection_by_all_names (todos_departamentos : list Region) :
  departamentos_a_descargar todos_departamentos (List.map nombre todos_departamentos)
  = todos_departamentos.
Proof.
  unfold departamentos_a_descargar, departamentos_a_descargar_con.
  assert (H : ∀ l, (∀ d, d ∈ l → d ∈ todos_departamentos) →
    List.filter (λ dept, existsb (String.eqb (Str.lower (nombre dept)))
                   (List.map Str.lower (List.map nombre todos_departamentos))) l = l).
  { induction l as [|d l IH]; intros Hl; [done|]. cbn [List.filter].
    assert (Hd : existsb (String.eqb (Str.lower (nombre d)))
                   (List.map Str.lower (List.map nombre todos_departamentos)) = true).
    { apply matches_spec. exists (nombre d). split; [|done].
      apply list_elem_of_In, in_map, list_elem_of_In, Hl, list_elem_of_here. }
    rewrite Hd, IH; [done|]. intros d' Hd'. by apply Hl, list_elem_of_further. }
  by apply H.
Qed.

(** ** The catalog of the dropdown (lines 85-96) *)

Module TextFacts.
Import Text.

Lemma lstrip_no_lead (s : string) : no_lead (lstrip s).
Proof.
  induction s as [|c s IH]; cbn [lstrip]; [done|].
  destruct (isspace c) eqn:E; [done|]. exact E.
Qed.

Lemma no_lead_lstrip (s : string) : no_lead s → lstrip s = s.
Proof. destruct s as [|c s]; cbn [no_lead lstrip]; [done|]. by intros ->. Qed.

Lemma rstrip_no_lead (s : string) : no_lead s → no_lead (rstrip s).
Proof.
  destruct s as [|c s]; cbn [no_lead rstrip]; [done|]. intros E.
  destruct (rstrip s); rewrite ?E; exact E.
Qed.

Lemma rstrip_idemp (s : string) : rstrip (rstrip s) = rstrip s.
Proof.
  induction s as [|c s IH]; cbn [rstrip]; [done|].
  destruct (rstrip s) as [|x r] eqn:Er.
  - destruct (isspace c) eqn:E; cbn [rstrip]; by rewrite ?E.
  - cbn [rstrip]. cbn [rstrip] in IH. by rewrite IH.
Qed.

Lemma strip_idemp (s : string) : strip (strip s) = strip s.
Proof.
  unfold strip. rewrite (no_lead_lstrip (rstrip (lstrip s))).
  - apply rstrip_idemp.
  - apply rstrip_no_lead, lstrip_no_lead.
Qed.

Lemma length_lstrip (s : string) : (String.length (lstrip s) ≤ String.length s)%nat.
Proof.
  induction s as [|c s IH]; cbn [lstrip]; [done|].
  destruct (isspace c); cbn [String.length]; lia.
Qed.

Lemma length_rstrip (s : string) : (String.length (rstrip s) ≤ String.length s)%nat.
Proof.
  induction s as [|c s IH]; cbn [rstrip]; [done|].
  destruct (rstrip s); [destruct (isspace c)|]; cbn [String.length] in *; lia.
Qed.

Lemma lstrip_full (s : string) : String.length (lstrip s) = String.length s → lstrip s = s.
Proof.
  destruct s as [|c s]; cbn [lstrip]; [done|].
  destruct (isspace c); [|done]. cbn [String.length]. pose proof (length_lstrip s). lia.
Qed.

Lemma rstrip_full (s : string) : String.length (rstrip s) = String.length s → rstrip s = s.
Proof.
  induction s as [|c s IH]; cbn [rstrip]; [done|].
  pose proof (length_rstrip s) as Hle.
  destruct (rstrip s) as [|x r] eqn:Er.
  - destruct (isspace c); cbn [String.length] in *; intros H; [lia|].
    destruct s; [done|]. cbn [String.length] in H. lia.
  - cbn [String.length] in *. intros H. rewrite IH; [done|lia].
Qed.

Lemma strip_full (s : string) : String.length (strip s) = String.length s → strip s = s.
Proof.
  unfold strip. intros H.
  pose proof (length_lstrip s). pose proof (length_rstrip (lstrip s)).
  assert (Hl : lstrip s = s) by (apply lstrip_full; lia).
  rewrite Hl in *. by apply rstrip_full.
Qed.

Lemma length_lower (s : string) : String.length (Str.lower s) = String.length s.
Proof. induction s as [|c s IH]; cbn [Str.lower String.length]; [done | by rewrite IH]. Qed.

Lemma isspace_lower (c : ascii) : isspace (Str.lower_ascii c) = isspace c.
Proof. destruct c as [[] [] [] [] [] [] [] []]; reflexivity. Qed.

Lemma lstrip_lower (s : string) : lstrip (Str.lower s) = Str.lower (lstrip s).
Proof.
  induction s as [|c s IH]; cbn [Str.lower lstrip]; [done|].
  rewrite isspace_lower. by destruct (isspace c).
Qed.

Lemma rstrip_lower (s : string) : rstrip (Str.lower s) = Str.lower (rstrip s).
Proof.
  induction s as [|c s IH]; cbn [Str.lower rstrip]; [done|].
  rewrite IH, isspace_lower.
  destruct (rstrip s); cbn [Str.lower]; [by destruct (isspace c) | done].
Qed.

Lemma strip_lower (s : string) : strip (Str.lower s) = Str.lower (strip s).
Proof. unfold strip. by rewrite lstrip_lower, rstrip_lower. Qed.

(** A name that equals a stripped name up to the case of its letters is
    stripped as well. *)
Lemma stripped_up_to_case (n x : string) :
  strip x = x → Str.lower x = Str.lower n → strip n = n.
Proof.
  intros Hx Heq. apply strip_full.
  rewrite <- (length_lower (strip n)), <- strip_lower, <- Heq, strip_lower, Hx.
  by rewrite Heq, length_lower.
Qed.

End TextFacts.

Lemma departamentos_of_spec (options : list OptionElement) (d : Region) :
  d ∈ departamentos_of options ↔
  ∃ opt, opt ∈ options ∧ value opt = Some (codigo d) ∧ Text.strip (codigo d) ≠ "" ∧
         nombre d = Text.strip (text opt).
Proof.
  induction options as [|opt rest IH]; cbn [departamentos_of].
  - split; [by intros ?%elem_of_nil | by intros (? & ?%elem_of_nil & _)].
  - destruct (truthy (value opt) && truthy (Text.strip <$> value opt)) eqn:E.
    + rewrite elem_of_cons, IH. split.
      * intros [->|(o & Ho & H)]; [|exists o; split; [by apply list_elem_of_further | done]].
        exists opt. split; [apply list_elem_of_here|].
        destruct (value opt) as [v|]; [|discriminate]. cbn in E |- *.
        apply andb_true_iff in E as [_ E]. apply negb_true_iff, String.eqb_neq in E. done.
      * intros (o & Ho & Hv & Hs & Hn). apply elem_of_cons in Ho as [->|Ho].
        -- left. rewrite Hv. cbn. destruct d. cbn in *. by rewrite Hn.
        -- right. by exists o.
    + rewrite IH. split.
      * intros (o & Ho & H). exists o. split; [by apply list_elem_of_further | done].
      * intros (o & Ho & Hv & Hs & Hn). apply elem_of_cons in Ho as [->|Ho]; [|by exists o].
        rewrite Hv in E. cbn in E. apply String.eqb_neq in Hs. rewrite Hs in E.
        rewrite andb_true_r in E. apply negb_false_iff, String.eqb_eq in E.
        rewrite E in Hs. vm_compute in Hs. discriminate.
Qed.

Lemma departamentos_of_sublist (options : list OptionElement) :
  List.map codigo (departamentos_of options) `sublist_of` omap value options.
Proof.
  induction options as [|opt rest IH]; cbn [departamentos_of]; [done|].
  change (omap value (opt :: rest))
    with (match value opt with Some v => v :: omap value rest | None => omap value rest end).
  destruct (value opt) as [v|]; [|done]. cbn [truthy fmap option_fmap option_map].
  destruct (negb (v =? "")%string && negb (Text.strip v =? "")%string);
    [by apply sublist_skip | by apply sublist_cons].
Qed.

Lemma departamentos_of_stripped (options : list OptionElement) :
  Forall (λ d, stripped (nombre d) = true) (departamentos_of options).
Proof.
  apply Forall_forall. intros d (opt & _ & _ & _ & Hn)%departamentos_of_spec.
  unfold stripped. rewrite Hn, TextFacts.strip_idemp. apply String.eqb_refl.
Qed.

(** X14.  The catalog read from the dropdown, for options whose value and
    text are ASCII.  Every entry comes from an option whose value attribute
    is there and is not blank: its code is that value as it is written, its
    name the option's text without the white space around it, so that
    stripping the name again changes nothing.  The codes follow the order
    of the options, and the options without a value, with an empty or with
    a blank one (the placeholder of the select) leave no entry. *)
Theorem catalog_from_dropdown (options : list OptionElement) :
  Forall (λ opt, from_option ascii_only true (value opt) = true ∧
                 ascii_only (text opt) = true) options →
  (∀ d, d ∈ departamentos_of options ↔
        ∃ opt, opt ∈ options ∧ value opt = Some (codigo d) ∧
               Text.strip (codigo d) ≠ "" ∧ nombre d = Text.strip (text opt)) ∧
  Forall (λ d, codigo d ≠ "" ∧ stripped (nombre d) = true) (departamentos_of options) ∧
  List.map codigo (departamentos_of options) `sublist_of` omap value options.
Proof.
  intros _.
  split; [apply departamentos_of_spec|]. split; [|apply departamentos_of_sublist].
  apply Forall_forall. intros d (opt & _ & _ & Hs & Hn)%departamentos_of_spec. split.
  - intros E. by rewrite E in Hs.
  - unfold stripped. rewrite Hn, TextFacts.strip_idemp. apply String.eqb_refl.
Qed.

Lemma catalog_from_dropdown_witness :
  (∀ d, d ∈ departamentos_of DropdownScenario.options ↔
        ∃ opt, opt ∈ DropdownScenario.options ∧ value opt = Some (codigo d) ∧
               Text.strip (codigo d) ≠ "" ∧ nombre d = Text.strip (text opt)) ∧
  Forall (λ d, codigo d ≠ "" ∧ stripped (nombre d) = true)
    (departamentos_of DropdownScenario.options) ∧
  List.map codigo (departamentos_of DropdownScenario.options)
    `sublist_of` omap value DropdownScenario.options.
Proof.
  apply (catalog_from_dropdown DropdownScenario.options).
  repeat (apply Forall_cons; split; [split; reflexivity|]). by apply Forall_nil.
Defined.

Lemma padded_names_ignored (todos_departamentos : list Region)
    (departamentos_nombres : list string) :
  Forall (λ d, stripped (nombre d) = true) todos_departamentos →
  departamentos_a_descargar todos_departamentos departamentos_nombres
  = departamentos_a_descargar todos_departamentos (List.filter stripped departamentos_nombres).
Proof.
  intros Hall. unfold departamentos_a_descargar, departamentos_a_descargar_con.
  induction Hall as [|d rest Hd Hrest IH]; [done|]. cbn [List.filter]. rewrite IH.
  assert (Hsame : existsb (String.eqb (Str.lower (nombre d)))
                    (List.map Str.lower departamentos_nombres)
                  = existsb (String.eqb (Str.lower (nombre d)))
                      (List.map Str.lower (List.filter stripped departamentos_nombres))).
  { apply eq_true_iff_eq. rewrite !matches_spec. split.
    - intros (n & Hn & Heq). exists n. split; [|done].
      apply list_elem_of_In, filter_In. split; [by apply list_elem_of_In|].
      unfold stripped in *. apply String.eqb_eq. apply String.eqb_eq in Hd.
      by apply (TextFacts.stripped_up_to_case n (nombre d)).
    - intros (n & Hn & Heq). exists n. split; [|done].
      apply list_elem_of_In, filter_In in Hn as [Hn _]. by apply list_elem_of_In. }
  by rewrite Hsame.
Qed.

(** The filtered batch depends on the names through the selection only. *)
Lemma specific_batch_by_selection (env : Env) (nombres1 nombres2 : list string) (w : World) :
  departamentos_a_descargar (departamentos_result env) nombres1
  = departamentos_a_descargar (departamentos_result env) nombres2 →
  download_specific_departamentos env nombres1 w
  = download_specific_departamentos env nombres2 w.
Proof.
  intros Heq. unfold departamentos_a_descargar in Heq.
  unfold download_specific_departamentos, download_specific_departamentos_con.
  unfold try_finally, try_except, mbind, M_bind, mret, M_ret.
  destruct (setup_driver env w) as [[[[]|e] w1]|]; [|done|done].
  cbn beta iota.
  destruct (navigate_to_servicios_page env w1) as [[[navigated|e] w2]|]; [|done|done].
  cbn beta iota. destruct (negb navigated); [done|].
  destruct (catalog_runs env w2) as (r & w3 & evs & Hcat & _ & -> & _).
  rewrite Hcat. cbn beta iota zeta. by rewrite Heq.
Qed.

(** X15.  Names with white space around them match nothing.  On a catalog read
    from the dropdown the names are stripped, the names the caller gives
    are compared as they are: a name with a leading or trailing blank
    selects no department, and the filtered batch runs as if it had not
    been given. *)
Theorem padded_names_never_match (env : Env) (dropdown : option (list OptionElement))
    (departamentos_nombres : list string) (w : World) :
  departamentos_result env = departamentos_del_select dropdown →
  departamentos_a_descargar (departamentos_result env) departamentos_nombres
  = departamentos_a_descargar (departamentos_result env)
      (List.filter stripped departamentos_nombres) ∧
  download_specific_departamentos env departamentos_nombres w
  = download_specific_departamentos env (List.filter stripped departamentos_nombres) w.
Proof.
  intros Hsel.
  assert (Heq : departamentos_a_descargar (departamentos_result env) departamentos_nombres
                = departamentos_a_descargar (departamentos_result env)
                    (List.filter stripped departamentos_nombres)).
  { apply padded_names_ignored. rewrite Hsel. destruct dropdown as [options|]; [|done].
    apply departamentos_of_stripped. }
  split; [done|]. by apply specific_batch_by_selection.
Qed.

Lemma padded_names_never_match_witness :
  departamentos_a_descargar (departamentos_result DropdownScenario.page)
    [" Antioquia"; "atlantico"]
  = departamentos_a_descargar (departamentos_result DropdownScenario.page)
      (List.filter stripped [" Antioquia"; "atlantico"]) ∧
  download_specific_departamentos DropdownScenario.page [" Antioquia"; "atlantico"]
    BatchScenario.start
  = download_specific_departamentos DropdownScenario.page
      (List.filter stripped [" Antioquia"; "atlantico"]) BatchScenario.start.
Proof.
  apply (padded_names_never_match DropdownScenario.page (Some DropdownScenario.options)).
  reflexivity.
Defined.

(** ** The batches of the multi-window variant (lines 521-528) *)

Lemma slice_take_drop {A} (l : list A) (i m : nat) :
  (i ≤ length l)%nat →
  slice l (Z.of_nat i) (Z.of_nat i + Z.of_nat m) = take m (drop i l).
Proof.
  intros Hi. unfold slice.
  assert (H1 : (Z.of_nat i <? 0) = false) by (apply Z.ltb_ge; lia).
  assert (H2 : (Z.of_nat i + Z.of_nat m <? 0) = false) by (apply Z.ltb_ge; lia).
  rewrite H1, H2.
  replace (Z.to_nat (Z.of_nat i `min` Z.of_nat (length l))) with i by lia.
  destruct (decide (i + m ≤ length l)%nat) as [Hle|Hgt].
  - f_equal. lia.
  - replace (Z.to_nat ((Z.of_nat i + Z.of_nat m) `min` Z.of_nat (length l)
                       - Z.of_nat i `min` Z.of_nat (length l)))
      with (length (drop i l)) by (rewrite length_drop; lia).
    rewrite firstn_all. symmetry. apply take_ge. rewrite length_drop. lia.
Qed.

(** Cutting a list into [k] pieces of [m] elements, the last one shorter,
    loses nothing when [k * m] reaches the length. *)
Lemma concat_pieces {A} (m : nat) (k : nat) (l : list A) :
  (length l ≤ k * m)%nat →
  concat (List.map (λ j, take m (drop (j * m) l)) (seq 0 k)) = l.
Proof.
  revert l. induction k as [|k IH]; intros l Hl.
  - destruct l; [done|]. cbn in Hl. lia.
  - cbn [seq List.map concat]. rewrite <- seq_shift, map_map.
    rewrite Nat.mul_0_l, drop_0.
    rewrite (map_ext _ (λ j, take m (drop (j * m) (drop m l)))).
    + rewrite IH; [apply take_drop|]. rewrite length_drop. lia.
    + intros j. rewrite drop_drop; f_equal; f_equal; lia.
Qed.

Lemma range_positive (n m : nat) :
  (0 < m)%nat →
  range 0 (Z.of_nat n) (Z.of_nat m)
  = Some (List.map (λ j, Z.of_nat (j * m)) (seq 0 ((n + m - 1) / m))).
Proof.
  intros Hm. unfold range.
  assert (H0 : (Z.of_nat m =? 0) = false) by (apply Z.eqb_neq; lia).
  assert (H1 : (0 <? Z.of_nat m) = true) by (apply Z.ltb_lt; lia).
  rewrite H0, H1. f_equal.
  assert (Hlen : Z.to_nat (if 0 <? Z.of_nat n then (Z.of_nat n - 0 - 1) / Z.of_nat m + 1 else 0)
                 = ((n + m - 1) / m)%nat).
  { destruct n as [|n].
    - cbn [Z.of_nat Z.ltb Z.compare Z.to_nat]. rewrite Nat.add_0_l.
      symmetry. apply Nat.div_small. lia.
    - assert (H2 : (0 <? Z.of_nat (S n)) = true) by (apply Z.ltb_lt; lia). rewrite H2.
      replace (Z.of_nat (S n) - 0 - 1) with (Z.of_nat n) by lia.
      replace (S n + m - 1)%nat with (n + 1 * m)%nat by lia.
      rewrite Nat.div_add by lia. rewrite <- Nat2Z.inj_div. lia. }
  rewrite Hlen. apply map_ext. intros j. lia.
Qed.

(** X16.  The batches leave nothing out.  With a positive [max_windows] the loop
    goes through the selected departments in batches numbered from 1: the
    batches put end to end are the selection, every batch holds at least
    one and at most [max_windows] departments, and there are as many as
    the selection needs. *)
Theorem batches_cover_selection (departamentos : list Region) (max_windows : Z) :
  0 < max_windows →
  ∃ batches,
    lotes departamentos max_windows = Some batches ∧
    concat (List.map snd batches) = departamentos ∧
    Forall (λ batch, 1 ≤ Z.of_nat (length batch.2) ≤ max_windows) batches ∧
    List.map fst batches = List.map (λ j, Z.of_nat (S j)) (seq 0 (length batches)) ∧
    Z.of_nat (length batches)
    = (Z.of_nat (length departamentos) + max_windows - 1) / max_windows.
Proof.
  intros Hpos. set (m := Z.to_nat max_windows). set (n := length departamentos).
  assert (Hm : (0 < m)%nat) by lia.
  assert (Hmw : max_windows = Z.of_nat m) by lia.
  set (k := ((n + m - 1) / m)%nat).
  assert (Hk1 : (n ≤ k * m)%nat).
  { unfold k. pose proof (Nat.div_mod (n + m - 1) m ltac:(lia)) as Hdm.
    pose proof (Nat.mod_upper_bound (n + m - 1) m ltac:(lia)). nia. }
  assert (Hk2 : ∀ j, (j < k)%nat → (j * m < n)%nat).
  { intros j Hj. unfold k in Hj.
    pose proof (Nat.div_mod (n + m - 1) m ltac:(lia)) as Hdm.
    pose proof (Nat.mod_upper_bound (n + m - 1) m ltac:(lia)). nia. }
  exists (List.map (λ j, (Z.of_nat (S j), take m (drop (j * m) departamentos))) (seq 0 k)).
  split; [|split; [|split; [|split]]].
  - unfold lotes. rewrite Hmw. fold n. rewrite (range_positive n m Hm). fold k.
    cbn [fmap option_fmap option_map]. f_equal. rewrite map_map.
    apply map_ext_in. intros j Hj%in_seq. f_equal.
    + rewrite Nat2Z.inj_mul, Z.div_mul by lia. lia.
    + rewrite <- slice_take_drop; [done|]. specialize (Hk2 j). fold n. lia.
  - rewrite map_map. cbn [snd]. by apply concat_pieces.
  - apply Forall_forall. intros batch Hb%list_elem_of_In%in_map_iff.
    destruct Hb as (j & <- & Hj%in_seq). cbn [snd].
    rewrite length_take, length_drop. specialize (Hk2 j). fold n. lia.
  - rewrite map_map, length_map, length_seq. cbn [fst]. done.
  - rewrite length_map, length_seq. unfold k. rewrite Nat2Z.inj_div. f_equal; lia.
Qed.

Lemma batches_cover_selection_witness :
  ∃ batches,
    lotes [BatchScenario.antioquia; BatchScenario.atlantico; BatchScenario.antioquia] 2
      = Some batches ∧
    concat (List.map snd batches)
      = [BatchScenario.antioquia; BatchScenario.atlantico; BatchScenario.antioquia] ∧
    Forall (λ batch, 1 ≤ Z.of_nat (length batch.2) ≤ 2) batches ∧
    List.map fst batches = List.map (λ j, Z.of_nat (S j)) (seq 0 (length batches)) ∧
    Z.of_nat (length batches)
    = (Z.of_nat (length [BatchScenario.antioquia; BatchScenario.atlantico;
                         BatchScenario.antioquia]) + 2 - 1) / 2.
Proof.
  apply (batches_cover_selection
           [BatchScenario.antioquia; BatchScenario.atlantico; BatchScenario.antioquia] 2).
  lia.
Defined.

(** X17.  No batch without a positive [max_windows].  With [max_windows = 0] the
    [range] of line 527 raises; with a negative one it is empty, and the
    loop body never runs: no department is processed, whatever was
    selected. *)
Theorem no_batch_without_windows (departamentos : list Region) (max_windows : Z) :
  max_windows ≤ 0 →
  lotes departamentos max_windows = if max_windows =? 0 then None else Some [].
Proof.
  intros Hle. unfold lotes, range. destruct (max_windows =? 0) eqn:E0; [done|].
  apply Z.eqb_neq in E0.
  assert (H1 : (0 <? max_windows) = false) by (apply Z.ltb_ge; lia).
  assert (H2 : (Z.of_nat (length departamentos) <? 0) = false) by (apply Z.ltb_ge; lia).
  rewrite H1, H2. reflexivity.
Qed.

Lemma no_batch_without_windows_witness :
  lotes [BatchScenario.antioquia; BatchScenario.atlantico] (-1)
  = if -1 =? 0 then None else Some [].
Proof.
  apply (no_batch_without_windows [BatchScenario.antioquia; BatchScenario.atlantico] (-1)).
  lia.
Defined.

(** X18.  The multi-window variant compares names as they are.  Its selection
    holds the departments whose name is one of the given names, letter
    for letter; it is a part of the selection the filtered batch makes of
    the same names, which ignores the case of ASCII letters. *)
Theorem concurrent_selection_is_case_sensitive (todos_departamentos : list Region)
    (departamentos_batch : list string) :
  (∀ d, d ∈ departamentos_a_procesar todos_departamentos departamentos_batch
        ↔ d ∈ todos_departamentos ∧ nombre d ∈ departamentos_batch) ∧
  departamentos_a_procesar todos_departamentos departamentos_batch
    `sublist_of` departamentos_a_descargar todos_departamentos departamentos_batch.
Proof.
  unfold departamentos_a_procesar, departamentos_a_descargar, departamentos_a_descargar_con.
  split.
  - intros d. rewrite list_elem_of_In, filter_In, existsb_exists, <- list_elem_of_In.
    split; intros [H1 H2]; (split; [done|]).
    + destruct H2 as (n & Hn & ->%String.eqb_eq). by apply list_elem_of_In.
    + exists (nombre d). split; [by apply list_elem_of_In | apply String.eqb_refl].
  - induction todos_departamentos as [|d rest IH]; [done|]. cbn [List.filter].
    destruct (existsb (String.eqb (nombre d)) departamentos_batch) eqn:E.
    + assert (E' : existsb (String.eqb (Str.lower (nombre d)))
                     (List.map Str.lower departamentos_batch) = true).
      { apply matches_spec. apply existsb_exists in E as (n & Hn & Heq%String.eqb_eq).
        exists n. split; [by apply list_elem_of_In | by rewrite Heq]. }
      rewrite E'. by apply sublist_skip.
    + destruct (existsb (String.eqb (Str.lower (nombre d)))
                  (List.map Str.lower departamentos_batch));
        [by apply sublist_cons | done].
Qed.

(** ** How long a batch sleeps *)

Section Durations.

Context (env : Env).

Lemma attempt_lasted (departamento : Region) (w : World) :
  runs (download_departamento_data env departamento) w (λ r w' evs,
    (∃ ok, r = Ret ok) ∧ lasted 0 33 evs).
Proof.
  eapply runs_mono; [apply attempt_runs_outcome|].
  intros r w' evs (ok & -> & _ & l & _ & Hl). split; [by exists ok|].
  unfold lasted. destruct l; try (exfalso; exact Hl); decompose [and ex] Hl; lia.
Qed.

Lemma all_loop_lasted (departamentos : list Region) (total i s f : nat) (w : World) :
  (i + length departamentos = S total)%nat →
  runs (all_loop env total i departamentos s f) w (λ r w' evs,
    (∃ counts, r = Ret counts) ∧
    lasted (Z.max 0 (3 * Z.of_nat (length departamentos) - 3))
           (Z.max 0 (36 * Z.of_nat (length departamentos) - 3)) evs).
Proof.
  revert i s f w. induction departamentos as [|d rest IH]; intros i s f w Hi.
  - apply runs_ret. split; [by eexists|]. unfold lasted. cbn. lia.
  - cbn [all_loop]. apply runs_bind, runs_log.
    apply runs_bind. eapply runs_mono; [apply attempt_lasted|].
    intros r w1 evs1 ([ok ->] & Hs1).
    cbn [length] in Hi.
    destruct rest as [|d' rest'].
    + assert (Hlt : (i <? total)%nat = false) by (apply Nat.ltb_ge; cbn in Hi; lia).
      rewrite Hlt. apply runs_bind, runs_ret. cbn [all_loop]. apply runs_ret.
      split; [by eexists|]. unfold lasted in *. rewrite !app_nil_r, !slept_app.
      unfold slept in *. cbn [foldr length]. lia.
    + assert (Hlt : (i <? total)%nat = true) by (apply Nat.ltb_lt; cbn in Hi; lia).
      rewrite Hlt. apply runs_bind, runs_bind, runs_log, runs_sleep. intros d1.
      eapply runs_mono; [apply IH; cbn [length] in *; lia|].
      intros r w2 evs2 (Hr & Hs2). split; [done|]. unfold lasted in *.
      rewrite !slept_app. unfold slept in *. cbn [foldr length] in *. lia.
Qed.

Lemma specific_loop_lasted (departamentos : list Region) (w : World) :
  runs (specific_loop env departamentos) w (λ r w' evs,
    r = Ret () ∧
    lasted (3 * Z.of_nat (length departamentos)) (36 * Z.of_nat (length departamentos)) evs).
Proof.
  revert w. induction departamentos as [|d rest IH]; intros w.
  - apply runs_ret. split; [done|]. unfold lasted. cbn. lia.
  - cbn [specific_loop]. apply runs_bind. eapply runs_mono; [apply attempt_lasted|].
    intros r w1 evs1 ([ok ->] & Hs1).
    apply runs_bind, runs_sleep. intros d1.
    eapply runs_mono; [apply IH|].
    intros r w2 evs2 (-> & Hs2). split; [done|]. unfold lasted in *.
    rewrite !slept_app. unfold slept in *. cbn [foldr length] in *. lia.
Qed.

(** The last step of a batch, whatever came before: the driver is quit,
    without a sleep. *)
Ltac batch_end :=
  apply quit_runs; (split; [done|]); split;
    [ unfold lasted in *; rewrite ?slept_app; unfold slept in *;
      match goal with |- context [if ?b then _ else _] => destruct b end;
      cbn [foldr length app] in *; lia
    | cbn [app]; by eexists ].

(** The full batch returns; its sleeps are those of the navigation, of the
    attempts and between the attempts; its first event is the line that
    announces the driver. *)
Lemma all_batch_lasted (w : World) :
  runs (download_all_departamentos env) w (λ r w' evs,
    r = Ret () ∧
    lasted 0 (3 + Z.max 0 (36 * Z.of_nat (length (departamentos_result env)) - 3)) evs ∧
    ∃ evs', evs = Log DescargandoChromeDriver :: evs').
Proof.
  unfold download_all_departamentos.
  apply runs_try_finally, runs_try_except, runs_bind.
  eapply runs_mono; [apply setup_idle|]. intros r w1 evs1 (_ & Hs1 & [evs1' ->] & _).
  destruct r as [[]|e]; [|cbn [is_Exception]; apply runs_log; batch_end].
  apply runs_bind. eapply runs_mono; [apply navigate_runs|].
  intros r w2 evs2 (-> & _ & _ & Hs2 & _).
  destruct (navigate_result env); cbn [negb]; [|apply runs_log; batch_end].
  apply runs_bind. eapply runs_mono; [apply catalog_runs|].
  intros r w3 evs3 (-> & _ & l & -> & Hl).
  destruct (catalog_no_work _ _ Hl) as [_ Hs3].
  destruct (departamentos_result env) as [|d rest] eqn:Edeps; [apply runs_log; batch_end|].
  apply runs_bind, runs_log, runs_bind.
  eapply runs_mono;
    [apply (all_loop_lasted (d :: rest) (length (d :: rest)) 1 0 0); cbn; lia|].
  intros r w4 evs4 ([counts ->] & Hs4). apply runs_log. batch_end.
Qed.

(** The filtered batch likewise, for any lower-casing function. *)
Lemma specific_batch_lasted_con (lower : string → string)
    (departamentos_nombres : list string) (w : World) :
  runs (download_specific_departamentos_con env lower departamentos_nombres) w
    (λ r w' evs,
      r = Ret () ∧
      lasted 0 (3 + 36 * Z.of_nat (length (departamentos_a_descargar_con lower
                                             (departamentos_result env)
                                             departamentos_nombres))) evs ∧
      ∃ evs', evs = Log DescargandoChromeDriver :: evs').
Proof.
  unfold download_specific_departamentos_con.
  apply runs_try_finally, runs_try_except, runs_bind.
  eapply runs_mono; [apply setup_idle|]. intros r w1 evs1 (_ & Hs1 & [evs1' ->] & _).
  destruct r as [[]|e]; [|cbn [is_Exception]; apply runs_log; batch_end].
  apply runs_bind. eapply runs_mono; [apply navigate_runs|].
  intros r w2 evs2 (-> & _ & _ & Hs2 & _).
  destruct (navigate_result env); cbn [negb]; [|apply runs_log; batch_end].
  apply runs_bind. eapply runs_mono; [apply catalog_runs|].
  intros r w3 evs3 (-> & _ & l & -> & Hl).
  destruct (catalog_no_work _ _ Hl) as [_ Hs3].
  destruct (departamentos_result env) as [|d rest] eqn:Edeps; [apply runs_log; batch_end|].
  cbn zeta.
  destruct (departamentos_a_descargar_con lower (d :: rest) departamentos_nombres)
    as [|s sel] eqn:Esel; [apply runs_log; batch_end|].
  apply runs_bind, runs_log.
  eapply runs_mono; [apply (specific_loop_lasted (s :: sel))|].
  intros r w4 evs4 (-> & Hs4). batch_end.
Qed.

Lemma specific_batch_lasted (departamentos_nombres : list string) (w : World) :
  runs (download_specific_departamentos env departamentos_nombres) w (λ r w' evs,
    r = Ret () ∧
    lasted 0 (3 + 36 * Z.of_nat (length (departamentos_a_descargar (departamentos_result env)
                                             departamentos_nombres))) evs ∧
    ∃ evs', evs = Log DescargandoChromeDriver :: evs').
Proof. exact (specific_batch_lasted_con Str.lower departamentos_nombres w). Qed.

End Durations.


(** ** [main] (lines 429-476) *)

Lemma runs_and {A} (m : M A) (w : World) (Q1 Q2 : res A → World → list event → Prop) :
  runs m w Q1 → runs m w Q2 → runs m w (λ r w' evs, Q1 r w' evs ∧ Q2 r w' evs).
Proof.
  intros (r & w' & evs & H1 & Ht & HQ1) (r2 & w2 & evs2 & H2 & Ht2 & HQ2).
  rewrite H1 in H2. injection H2 as <- <-. rewrite Ht in Ht2.
  apply app_inv_head in Ht2 as <-. by exists r, w', evs.
Qed.

Lemma all_batch_fresh (env : Env) (w0 : World) :
  driver w0 = false → runs (download_all_departamentos env) w0 fresh_batch.
Proof.
  intros Hd. eapply runs_mono;
    [apply (runs_and _ _ _ _ (all_batch_runs env w0) (all_batch_lasted env w0))|].
  intros r w' evs [[-> Hm] (_ & _ & evs' & ->)].
  split; [done|]. split; [done|].
  destruct (setup_driver_result env); [destruct (navigate_result env)| |].
  - destruct Hm as (oks & _ & Hm & _). right. by eexists.
  - right. by eexists.
  - rewrite Hd in Hm. by left.
  - right. by eexists.
Qed.

Lemma specific_batch_fresh (env : Env) (nombres : list string) (w0 : World) :
  driver w0 = false → runs (download_specific_departamentos env nombres) w0 fresh_batch.
Proof.
  intros Hd. eapply runs_mono;
    [apply (runs_and _ _ _ _ (specific_batch_runs env nombres w0)
              (specific_batch_lasted env nombres w0))|].
  intros r w' evs [[-> Hm] (_ & _ & evs' & ->)].
  split; [done|]. split; [done|].
  destruct (setup_driver_result env); [destruct (navigate_result env)| |].
  - destruct Hm as (oks & _ & Hm). right. by eexists.
  - right. by eexists.
  - rewrite Hd in Hm. by left.
  - right. by eexists.
Qed.

Lemma init_spec (console : Console) (w : World) :
  makedirs_raises console = None ∨ dir w ≠ None →
  ∃ created d0,
    init console w = (created, (Ret (), mkWorld (Some d0) (clock w) false (trace w))) ∧
    d0 = default ∅ (dir w) ∧
    (created = [] ∨ created = [DirectorioCreado]).
Proof.
  intros H. unfold init. destruct (dir w) as [d|] eqn:Ed.
  - exists [], d. by eauto.
  - destruct H as [->|H]; [|done]. exists [DirectorioCreado], ∅. by eauto.
Qed.

(** X20.  No download without a yes.  [main] returns whatever is typed.  It
    starts a batch exactly when the option typed is 1 or 2 (for 2, with
    some text at the departments prompt) and the answer to the
    confirmation is one of s, si, sí, y, yes, in any case of the letters
    and with blanks around: then the confirmation prompt is the last thing
    on the console, and the batch runs on a fresh downloader, so that it
    releases a session only if it acquired one.  Otherwise [main] ends with
    one line that says so and touches neither browser nor clock; the only
    thing it has done is to create the download directory if it was
    missing.  (For answers typed in ASCII; [os.makedirs] is taken to
    succeed when it is called.) *)
Theorem main_downloads_only_when_confirmed (env : Env) (console : Console) (w : World) :
  (∀ p, ascii_only (answer console p) = true) →
  makedirs_raises console = None ∨ dir w ≠ None →
  ∃ shown w',
    main env console w = (shown, Some (Ret (), w')) ∧
    (events_since w w' ≠ [] ↔ confirmed console) ∧
    (confirmed console →
       last shown = Some (Input Continuar) ∧
       (marks (events_since w w') = [] ∨ ∃ body, marks (events_since w w') = session body)) ∧
    (¬ confirmed console →
       (∃ l, last shown = Some (Print l) ∧ farewell l = true) ∧
       clock w' = clock w ∧ dir w' = Some (default ∅ (dir w))).
Proof.
  intros _ Hmk. destruct (init_spec console w Hmk) as (created & d0 & Hinit & Hd0 & _).
  unfold main. rewrite Hinit. clear Hinit. cbn zeta. unfold confirmed.
  set (w0 := mkWorld (Some d0) (clock w) false (trace w)).
  assert (Hquiet : events_since w w0 = []).
  { unfold events_since, w0. cbn [trace]. apply drop_all. }
  assert (Hbatch : ∀ (m : M ()) (shown : list console_event),
    runs m w0 fresh_batch → last shown = Some (Input Continuar) →
    ∃ shown' w',
      (shown, m w0) = (shown', Some (Ret (), w')) ∧ events_since w w' ≠ [] ∧
      last shown' = Some (Input Continuar) ∧
      (marks (events_since w w') = [] ∨ ∃ body, marks (events_since w w') = session body)).
  { intros m shown (r & w' & evs & Hrun & Ht & -> & Hne & Hm) Hlast.
    exists shown, w'. rewrite Hrun.
    assert (Hevs : events_since w w' = evs).
    { unfold events_since. rewrite Ht. unfold w0. cbn [trace]. apply drop_app_length. }
    rewrite Hevs. done. }
  destruct (Text.strip (answer console SeleccioneOpcion) =? "1")%string eqn:E1.
  { apply String.eqb_eq in E1.
    destruct (afirmativo (Str.lower (Text.strip (answer console Continuar)))) eqn:Ea.
    - destruct (Hbatch (download_all_departamentos env)
                  (created ++ [Print Titulo; Print MenuTodos; Print MenuEspecificos;
                               Print MenuSalir; Input SeleccioneOpcion]
                           ++ [Print IniciandoTodos; Print SeGuardaranEn; Input Continuar])%list)
        as (shown' & w' & Heq & Hne & Hlast & Hm).
      + by apply all_batch_fresh.
      + by rewrite !last_app.
      + exists shown', w'. rewrite <- Heq, <- !app_assoc. split; [done|].
        split; [split; [by auto | done]|]. split; [done|]. intros Hn. exfalso. by auto.
    - eexists _, w0. split; [reflexivity|]. rewrite Hquiet.
      split; [split; [done | by intros [? _]]|]. split; [by intros [? _]|]. intros _.
      split; [|by rewrite <- Hd0]. exists OperacionCancelada. split; [by rewrite !last_app | done]. }
  apply String.eqb_neq in E1.
  destruct (Text.strip (answer console SeleccioneOpcion) =? "2")%string eqn:E2.
  { apply String.eqb_eq in E2.
    destruct (Text.strip (answer console Departamentos) =? "")%string eqn:Ed; cbn [negb].
    { apply String.eqb_eq in Ed. eexists _, w0. split; [reflexivity|]. rewrite Hquiet.
      split; [split; [done | intros [_ [?|[_ ?]]]; congruence]|].
      split; [intros [_ [?|[_ ?]]]; congruence|]. intros _.
      split; [|by rewrite <- Hd0]. exists NoSeIngresaron. split; [by rewrite !last_app | done]. }
    apply String.eqb_neq in Ed.
    destruct (afirmativo (Str.lower (Text.strip (answer console Continuar)))) eqn:Ea.
    - destruct (Hbatch (download_specific_departamentos env
                          (departamentos_lista (Text.strip (answer console Departamentos))))
                  ((created ++ [Print Titulo; Print MenuTodos; Print MenuEspecificos;
                                Print MenuSalir; Input SeleccioneOpcion]
                            ++ [Print IngreseNombres; Print EjemploNombres; Input Departamentos])
                   ++ [Print (DescargandoDepartamentos
                                (Text.join ", "
                                   (departamentos_lista
                                      (Text.strip (answer console Departamentos)))));
                       Print SeGuardaranEn; Input Continuar])%list)
        as (shown' & w' & Heq & Hne & Hlast & Hm).
      + by apply specific_batch_fresh.
      + by rewrite !last_app.
      + exists shown', w'. rewrite <- Heq, <- !app_assoc. split; [done|].
        split; [split; [by auto | done]|]. split; [done|]. intros Hn. exfalso. by auto.
    - eexists _, w0. split; [reflexivity|]. rewrite Hquiet.
      split; [split; [done | by intros [? _]]|]. split; [by intros [? _]|]. intros _.
      split; [|by rewrite <- Hd0]. exists OperacionCancelada. split; [by rewrite !last_app | done]. }
  apply String.eqb_neq in E2.
  destruct (Text.strip (answer console SeleccioneOpcion) =? "3")%string eqn:E3.
  - eexists _, w0. split; [reflexivity|]. rewrite Hquiet.
    split; [split; [done | intros [_ [?|[? _]]]; congruence]|].
    split; [intros [_ [?|[? _]]]; congruence|]. intros _.
    split; [|by rewrite <- Hd0]. exists Saliendo. split; [by rewrite !last_app | done].
  - eexists _, w0. split; [reflexivity|]. rewrite Hquiet.
    split; [split; [done | intros [_ [?|[? _]]]; congruence]|].
    split; [intros [_ [?|[? _]]]; congruence|]. intros _.
    split; [|by rewrite <- Hd0]. exists OpcionNoValida. split; [by rewrite !last_app | done].
Qed.

Lemma main_downloads_only_when_confirmed_witness :
  ∃ shown w',
    main BatchScenario.two_regions ConsoleScenario.says_yes BatchScenario.start
      = (shown, Some (Ret (), w')) ∧
    (events_since BatchScenario.start w' ≠ [] ↔ confirmed ConsoleScenario.says_yes) ∧
    (confirmed ConsoleScenario.says_yes →
       last shown = Some (Input Continuar) ∧
       (marks (events_since BatchScenario.start w') = [] ∨
        ∃ body, marks (events_since BatchScenario.start w') = session body)) ∧
    (¬ confirmed ConsoleScenario.says_yes →
       (∃ l, last shown = Some (Print l) ∧ farewell l = true) ∧
       clock w' = clock BatchScenario.start ∧
       dir w' = Some (default ∅ (dir BatchScenario.start))).
Proof.
  apply (main_downloads_only_when_confirmed BatchScenario.two_regions
           ConsoleScenario.says_yes BatchScenario.start).
  - intros []; reflexivity.
  - left. reflexivity.
Defined.

(** ** The names typed at the prompt (line 460) *)

Module SplitFacts.
Import Text TextFacts StrFacts.

Lemma split_cons (sep : ascii) (s : string) : ∃ p rest, split sep s = p :: rest.
Proof.
  induction s as [|c s (p & rest & IH)]; cbn [split]; [by eexists _, _|].
  destruct (Ascii.eqb c sep); [by eexists _, _|]. rewrite IH. by eexists _, _.
Qed.

Lemma length_split (sep : ascii) (s : string) :
  length (split sep s) = S (occurrences sep s).
Proof.
  induction s as [|c s IH]; cbn [split occurrences]; [done|].
  destruct (Ascii.eqb c sep); cbn [length]; [by rewrite IH|].
  destruct (split_cons sep s) as (p & rest & Hs). rewrite Hs in *. cbn [length] in *. lia.
Qed.

Lemma split_lacks (sep : ascii) (s : string) : Forall (λ p, lacks sep p = true) (split sep s).
Proof.
  induction s as [|c s IH]; cbn [split]; [by repeat constructor|].
  destruct (Ascii.eqb c sep) eqn:E; [by constructor|].
  destruct (split sep s) as [|p rest]; [repeat constructor; cbn [lacks]; by rewrite E|].
  apply Forall_cons in IH as [Hp Hrest]. constructor; [|done]. cbn [lacks]. by rewrite E, Hp.
Qed.

Lemma split_whole (sep : ascii) (s : string) : lacks sep s = true → split sep s = [s].
Proof.
  induction s as [|c s IH]; cbn [split lacks]; [done|].
  intros [Hc Hs]%andb_true_iff. apply negb_true_iff in Hc. by rewrite Hc, IH.
Qed.

Lemma split_app (sep : ascii) (x rest : string) :
  lacks sep x = true → split sep (x ++ String sep rest) = x :: split sep rest.
Proof.
  induction x as [|c x IH]; rewrite ?append_nil, ?append_cons; cbn [split lacks].
  - intros _. by rewrite Ascii.eqb_refl.
  - intros [Hc Hx]%andb_true_iff. apply negb_true_iff in Hc. by rewrite Hc, IH.
Qed.

Lemma split_join (sep : ascii) (l : list string) :
  l ≠ [] → Forall (λ n, lacks sep n = true) l →
  split sep (join (String sep "") l) = l.
Proof.
  intros Hne Hall. induction Hall as [|x rest Hx Hrest IH]; [done|]. cbn [join].
  destruct rest as [|y rest]; [by apply split_whole|].
  rewrite append_cons, append_nil, split_app by done. by rewrite IH.
Qed.

Lemma lacks_lstrip (sep : ascii) (s : string) : lacks sep s = true → lacks sep (lstrip s) = true.
Proof.
  induction s as [|c s IH]; cbn [lstrip lacks]; [done|].
  intros [Hc Hs]%andb_true_iff. destruct (isspace c); [by apply IH|].
  cbn [lacks]. by rewrite Hc, Hs.
Qed.

Lemma lacks_rstrip (sep : ascii) (s : string) : lacks sep s = true → lacks sep (rstrip s) = true.
Proof.
  induction s as [|c s IH]; cbn [rstrip lacks]; [done|].
  intros [Hc Hs]%andb_true_iff. specialize (IH Hs).
  destruct (rstrip s); [destruct (isspace c)|]; cbn [lacks] in *; by rewrite ?Hc, ?IH.
Qed.

Lemma lstrip_rstrip (s : string) : rstrip (lstrip s) = lstrip (rstrip s).
Proof.
  induction s as [|c s IH]; [done|]. cbn [lstrip].
  destruct (isspace c) eqn:E.
  - rewrite IH. cbn [rstrip]. destruct (rstrip s); rewrite ?E; cbn [lstrip]; by rewrite ?E.
  - symmetry. apply no_lead_lstrip, rstrip_no_lead. exact E.
Qed.

Lemma rstrip_cons (c : ascii) (p p' : string) :
  rstrip p = rstrip p' → rstrip (String c p) = rstrip (String c p').
Proof. cbn [rstrip]. by intros ->. Qed.

Lemma split_step (sep c : ascii) (t p : string) (rest : list string) :
  Ascii.eqb c sep = false → split sep t = p :: rest →
  split sep (String c t) = String c p :: rest.
Proof. cbn [split]. by intros -> ->. Qed.

Lemma rstrip_step (c : ascii) (s : string) :
  rstrip (String c s)
  = match rstrip s with
    | EmptyString => if isspace c then EmptyString else String c EmptyString
    | String a r => String c (String a r)
    end.
Proof. reflexivity. Qed.

Lemma map_rstrip_split (sep : ascii) (s : string) :
  isspace sep = false →
  List.map rstrip (split sep (rstrip s)) = List.map rstrip (split sep s).
Proof.
  intros Hsep. induction s as [|c s IH]; [done|].
  destruct (Ascii.eqb c sep) eqn:Ec.
  - apply Ascii.eqb_eq in Ec as ->. rewrite rstrip_step, Hsep.
    destruct (rstrip s) as [|x r] eqn:Er; cbn [split]; rewrite Ascii.eqb_refl;
      cbn [List.map]; f_equal; exact IH.
  - destruct (split_cons sep s) as (p' & rest' & Hs').
    rewrite (split_step _ _ _ _ _ Ec Hs'). rewrite Hs' in IH. rewrite rstrip_step.
    destruct (rstrip s) as [|x r] eqn:Er.
    + cbn [split List.map] in IH. injection IH as Hp Hrest.
      cbn [List.map]. rewrite <- Hrest, rstrip_step, <- Hp.
      destruct (isspace c) eqn:E; cbn [split]; rewrite ?Ec; cbn [List.map]; [done|].
      by rewrite rstrip_step, E.
    + destruct (split_cons sep (String x r)) as (p & rest & Hs).
      rewrite (split_step _ _ _ _ _ Ec Hs). rewrite Hs in IH. cbn [List.map] in *.
      injection IH as Hp Hrest. rewrite Hrest. f_equal. by apply rstrip_cons.
Qed.

Lemma map_strip_split_lstrip (sep : ascii) (s : string) :
  isspace sep = false →
  List.map strip (split sep (lstrip s)) = List.map strip (split sep s).
Proof.
  intros Hsep. induction s as [|c s IH]; [done|]. cbn [lstrip].
  destruct (isspace c) eqn:E; [|done]. rewrite IH. cbn [split].
  assert (Ec : Ascii.eqb c sep = false).
  { apply Ascii.eqb_neq. intros ->. congruence. }
  rewrite Ec. destruct (split_cons sep s) as (p & rest & ->). cbn [List.map]. f_equal.
  unfold strip. cbn [lstrip]. by rewrite E.
Qed.

Lemma map_strip_split (sep : ascii) (s : string) :
  isspace sep = false →
  List.map strip (split sep (strip s)) = List.map strip (split sep s).
Proof.
  intros Hsep. rewrite <- (map_strip_split_lstrip sep s Hsep).
  change (strip s) with (rstrip (lstrip s)).
  assert (Hmap : ∀ l, List.map strip l = List.map lstrip (List.map rstrip l)).
  { intros l. rewrite map_map. apply map_ext. intros p. apply lstrip_rstrip. }
  rewrite !Hmap. f_equal. by apply map_rstrip_split.
Qed.

End SplitFacts.

(** X21.  The list of names made of what is typed.  Whatever the input, the
    list has one name more than the input has commas, so it is never
    empty, and every name is free of commas and of blanks around it; a
    name can be empty (two commas in a row, a comma at an end).  The
    [strip] of the whole input (line 457) changes nothing in the list. *)
Theorem typed_names_shape (departamentos_input : string) :
  length (departamentos_lista departamentos_input)
    = S (occurrences "," departamentos_input) ∧
  Forall (λ n, stripped n = true ∧ lacks "," n = true)
    (departamentos_lista departamentos_input) ∧
  departamentos_lista (Text.strip departamentos_input)
    = departamentos_lista departamentos_input.
Proof.
  unfold departamentos_lista. split; [|split].
  - by rewrite length_map, SplitFacts.length_split.
  - apply Forall_forall. intros n (p & <- & Hp)%list_elem_of_In%in_map_iff. split.
    + unfold stripped. rewrite TextFacts.strip_idemp. apply String.eqb_refl.
    + pose proof (SplitFacts.split_lacks "," departamentos_input) as Hall.
      rewrite Forall_forall in Hall. unfold Text.strip.
      apply SplitFacts.lacks_rstrip, SplitFacts.lacks_lstrip, Hall. by apply list_elem_of_In.
  - by apply SplitFacts.map_strip_split.
Qed.

(** X22.  Names typed with commas between them come out trimmed.  For names
    without a comma (typed in ASCII), the list [main] hands to the filtered
    batch for the names joined by commas is the list of the names, each
    without the blanks around it: blanks typed around a name or around a
    comma do not count. *)
Theorem typed_names_are_trimmed (nombres : list string) :
  nombres ≠ [] →
  Forall (λ n, lacks "," n = true ∧ ascii_only n = true) nombres →
  departamentos_lista (Text.strip (Text.join "," nombres)) = List.map Text.strip nombres.
Proof.
  intros Hne Hall. unfold departamentos_lista.
  rewrite SplitFacts.map_strip_split by done. f_equal.
  apply SplitFacts.split_join; [done|]. eapply Forall_impl; [exact Hall|]. by intros n [? _].
Qed.

Lemma typed_names_are_trimmed_witness :
  departamentos_lista (Text.strip (Text.join "," [" Antioquia "; "Valle del Cauca"; " "]))
  = List.map Text.strip [" Antioquia "; "Valle del Cauca"; " "].
Proof.
  apply (typed_names_are_trimmed [" Antioquia "; "Valle del Cauca"; " "]).
  - discriminate.
  - repeat constructor.
Defined.
